(** * Shopping cart: validators, catalog and cart

    A shallow embedding of the [shopping_cart] package
    ([types.py], [exceptions.py], [validators.py], [catalog.py], [cart.py])
    and the properties of its validation layer, its cart invariant, its
    totals and its defensive copies. *)

From Stdlib Require Import String Ascii List NArith ZArith Bool Lia.
Import ListNotations.

Set Implicit Arguments.

(** ** Python values *)

(** A [str] is a sequence of Unicode code points. *)
Abbreviation char := N (only parsing).
Abbreviation pystr := (list N).

(** An ASCII literal as a [str]. *)
Definition py (s : string) : pystr := map N_of_ascii (list_ascii_of_string s).

Fixpoint str_eqb (a b : pystr) : bool :=
  match a, b with
  | [], [] => true
  | x :: a', y :: b' => N.eqb x y && str_eqb a' b'
  | _, _ => false
  end.

(** *** Decimal numbers

    A finite [decimal.Decimal] is a sign, an integer coefficient and an
    exponent: its value is [(-1)^sign * coefficient * 10^exponent].  The
    special values are the infinities and the (quiet or signaling) NaNs. *)

Record Decimal := mkDecimal {
  dsign : bool;          (* true: negative *)
  coefficient : N;
  exponent : Z
}.

Inductive PyDecimal :=
| Finite (d : Decimal)
| Infinity (negative : bool)
| NaN (negative signaling : bool) (payload : N).

(** The objects the validators can be handed.  [VOther] stands for an
    instance of any other class (a float, a list, a dict, ...). *)
Inductive value :=
| VNone
| VBool (b : bool)
| VInt (n : Z)
| VStr (s : pystr)
| VDecimal (d : PyDecimal)
| VUuid (u : N)
| VOther (id : N).

(** ** exceptions.py

    Each exception class is a constructor; the argument records which
    message the raise site builds. *)

Inductive customer_id_fault :=
  CidNotString | CidNullBytes | CidControlChars | CidFormat.
Inductive quantity_fault := QtyNotInteger | QtyBelowMin | QtyAboveMax.
Inductive item_name_fault :=
  NameNotString | NameNullBytes | NameControlChars
| NameTooShort | NameTooLong | NameInvalidChars.
Inductive price_fault :=
  PriceNotDecimal | PriceNegative | PriceExceedsMax | PriceDecimalPlaces.

Inductive exn :=
| CustomerIDValidationError (f : customer_id_fault)
| QuantityValidationError (f : quantity_fault)
| ItemNameValidationError (f : item_name_fault)
| PriceValidationError (f : price_fault)
| ImmutabilityViolationError (field : pystr)
| ItemNotInCatalogError (item : pystr)
| ItemNotInCartError (item : pystr)
(* built-in and library exceptions *)
| TypeError
| ValueError
| AttributeError
| InvalidOperation      (* decimal.InvalidOperation *)
| Overflow              (* decimal.Overflow *)
| OtherException (id : N).

Definition is_ValidationError (e : exn) : bool :=
  match e with
  | CustomerIDValidationError _ | QuantityValidationError _
  | ItemNameValidationError _ | PriceValidationError _ => true
  | _ => false
  end.

Definition is_PriceValidationError (e : exn) : bool :=
  match e with PriceValidationError _ => true | _ => false end.

Definition is_ItemNameValidationError (e : exn) : bool :=
  match e with ItemNameValidationError _ => true | _ => false end.

Definition is_CustomerIDValidationError (e : exn) : bool :=
  match e with CustomerIDValidationError _ => true | _ => false end.


(** A call returns a value or raises. *)
Inductive result (A : Type) :=
| Ok (a : A)
| Raise (e : exn).
Arguments Ok {A} a.
Arguments Raise {A} e.

Definition rbind {A B} (r : result A) (k : A -> result B) : result B :=
  match r with
  | Ok a => k a
  | Raise e => Raise e
  end.

Declare Scope result_scope.
Delimit Scope result_scope with result.
Notation "x <- e ;; k" := (rbind e (fun x => k))
  (at level 61, e at next level, right associativity) : result_scope.

(** ** Insertion-ordered dictionaries with [str] keys *)

Abbreviation dict V := (list (pystr * V)).

Module PyDict.
Section Dict.
Context {V : Type}.
Implicit Types d : dict V.

(** [d.get(k)] *)
Fixpoint get (d : dict V) (k : pystr) : option V :=
  match d with
  | [] => None
  | (k', v) :: r => if str_eqb k' k then Some v else get r k
  end.

(** [k in d] *)
Definition contains (d : dict V) (k : pystr) : bool :=
  match get d k with Some _ => true | None => false end.

(** [d[k] = v]: an existing key keeps its position, a new one goes last. *)
Fixpoint set (d : dict V) (k : pystr) (v : V) : dict V :=
  match d with
  | [] => [(k, v)]
  | (k', v') :: r =>
      if str_eqb k' k then (k', v) :: r else (k', v') :: set r k v
  end.

(** [del d[k]] *)
Fixpoint del (d : dict V) (k : pystr) : dict V :=
  match d with
  | [] => []
  | (k', v') :: r => if str_eqb k' k then r else (k', v') :: del r k
  end.

Definition keys (d : dict V) : list pystr := map fst d.

End Dict.
End PyDict.

(** ** Regular expressions ([re])

    The two patterns of [types.py] use character classes, concatenation,
    alternation, bounded repetition and [+].  [re_match] decides them with
    Brzozowski derivatives; [in_lang] is the language they denote. *)

Module Regex.

Inductive regex :=
| Empty                          (* matches nothing *)
| Eps                            (* the empty string *)
| Chr (p : char -> bool)         (* one character of a class *)
| Cat (r1 r2 : regex)
| Alt (r1 r2 : regex)
| Star (r : regex).

(** [r{n}] and [r+] *)
Fixpoint rep (n : nat) (r : regex) : regex :=
  match n with
  | O => Eps
  | S n' => Cat r (rep n' r)
  end.
Definition plus (r : regex) : regex := Cat r (Star r).

Fixpoint nullable (r : regex) : bool :=
  match r with
  | Empty => false
  | Eps => true
  | Chr _ => false
  | Cat r1 r2 => nullable r1 && nullable r2
  | Alt r1 r2 => nullable r1 || nullable r2
  | Star _ => true
  end.

Fixpoint deriv (c : char) (r : regex) : regex :=
  match r with
  | Empty => Empty
  | Eps => Empty
  | Chr p => if p c then Eps else Empty
  | Cat r1 r2 =>
      if nullable r1 then Alt (Cat (deriv c r1) r2) (deriv c r2)
      else Cat (deriv c r1) r2
  | Alt r1 r2 => Alt (deriv c r1) (deriv c r2)
  | Star r1 => Cat (deriv c r1) (Star r1)
  end.

(** The whole of [s] is a word of [r]. *)
Fixpoint matches (r : regex) (s : pystr) : bool :=
  match s with
  | [] => nullable r
  | c :: s' => matches (deriv c r) s'
  end.

Definition is_newline (c : char) : bool := N.eqb c 10.

(** A compiled pattern of the form [^body$]. *)
Inductive pattern := Anchored (body : regex).

(** [pattern.match(s)] for [^body$] (no flags): [body] has to match from
    the start of [s], and [$] holds at the end of [s] and also just before
    a newline that is the last character of [s]. *)
Definition re_match (p : pattern) (s : pystr) : bool :=
  match p with
  | Anchored body => matches (Cat body (Alt Eps (Chr is_newline))) s
  end.

Inductive in_lang : regex -> pystr -> Prop :=
| in_eps : in_lang Eps []
| in_chr p c : p c = true -> in_lang (Chr p) [c]
| in_cat r1 r2 s1 s2 :
    in_lang r1 s1 -> in_lang r2 s2 -> in_lang (Cat r1 r2) (s1 ++ s2)
| in_alt_l r1 r2 s : in_lang r1 s -> in_lang (Alt r1 r2) s
| in_alt_r r1 r2 s : in_lang r2 s -> in_lang (Alt r1 r2) s
| in_star_nil r : in_lang (Star r) []
| in_star_app r s1 s2 :
    in_lang r s1 -> in_lang (Star r) s2 -> in_lang (Star r) (s1 ++ s2).

End Regex.

(** ** Decimal arithmetic ([decimal], default context)

    [decimal] implements the General Decimal Arithmetic specification: an
    operation computes the exact result and rounds it to the context.  The
    default context has 28 digits of precision, rounds half to even, bounds
    exponents by [Emin = -999999] and [Emax = 999999], and traps
    [InvalidOperation] and [Overflow] (the other signals raise nothing). *)

Module Dec.
Open Scope Z_scope.

Definition prec : Z := 28.
Definition Emax : Z := 999999.
Definition Emin : Z := -999999.
Definition Etiny : Z := Emin - prec + 1.
Definition Etop : Z := Emax - prec + 1.

(** [Decimal(n)] for an [int]. *)
Definition of_int (n : Z) : Decimal :=
  mkDecimal (n <? 0) (Z.to_N (Z.abs n)) 0.

(** The coefficient with its sign. *)
Definition signed (d : Decimal) : Z :=
  if dsign d then - Z.of_N (coefficient d) else Z.of_N (coefficient d).

(** [signed d * 10^(exponent d - e)], for [e <= exponent d]. *)
Definition scaled (e : Z) (d : Decimal) : Z :=
  signed d * 10 ^ (exponent d - e).

(** Numeric comparison of two finite decimals. *)
Definition compare (a b : Decimal) : comparison :=
  let e := Z.min (exponent a) (exponent b) in
  Z.compare (scaled e a) (scaled e b).

(** [a < b] and [a > b]: comparing a NaN signals [InvalidOperation]. *)
Definition lt (a : PyDecimal) (b : Decimal) : result bool :=
  match a with
  | Finite d => Ok (match compare d b with Lt => true | _ => false end)
  | Infinity negative => Ok negative
  | NaN _ _ _ => Raise InvalidOperation
  end.

Definition gt (a : PyDecimal) (b : Decimal) : result bool :=
  match a with
  | Finite d => Ok (match compare d b with Gt => true | _ => false end)
  | Infinity negative => Ok (negb negative)
  | NaN _ _ _ => Raise InvalidOperation
  end.

(** Number of digits of a coefficient ([len(self._int)]; 1 for 0). *)
Fixpoint ndigits_aux (fuel : nat) (n : Z) : Z :=
  match fuel with
  | O => 1
  | S f => if n <? 10 then 1 else 1 + ndigits_aux f (n / 10)
  end.
Definition ndigits (n : N) : Z :=
  ndigits_aux (N.to_nat (N.size n)) (Z.of_N n).

(** Rounding of an exact finite result to the context ([_fix]). *)
Definition round_to_context (d : Decimal) : result Decimal :=
  let c := Z.of_N (coefficient d) in
  let e := exponent d in
  if c =? 0 then
    Ok (mkDecimal (dsign d) 0 (Z.min (Z.max e Etiny) Emax))
  else
    let exp_min := ndigits (coefficient d) + e - prec in
    if exp_min >? Etop then Raise Overflow
    else
      let exp_min := Z.max exp_min Etiny in
      if e <? exp_min then
        (* drop the last [exp_min - e] digits, rounding half to even *)
        let unit := 10 ^ (exp_min - e) in
        let q := c / unit in
        let r := c mod unit in
        let up := (unit <? 2 * r) || ((unit =? 2 * r) && Z.odd q) in
        let q' := if up then q + 1 else q in
        let carry := up && (prec <? ndigits (Z.to_N q')) in
        let coeff := if carry then q' / 10 else q' in
        let exp_min := if carry then exp_min + 1 else exp_min in
        if exp_min >? Etop then Raise Overflow
        else Ok (mkDecimal (dsign d) (Z.to_N coeff) exp_min)
      else Ok d.

(** A quiet NaN result keeps at most [prec] digits of payload
    ([_fix_nan]). *)
Definition fix_nan (negative : bool) (payload : N) : PyDecimal :=
  NaN negative false (Z.to_N (Z.of_N payload mod 10 ^ prec)).

Definition mul_finite (a b : Decimal) : result Decimal :=
  round_to_context (mkDecimal (xorb (dsign a) (dsign b))
                 (coefficient a * coefficient b)
                 (exponent a + exponent b)).

Definition add_finite (a b : Decimal) : result Decimal :=
  let e := Z.min (exponent a) (exponent b) in
  let s := scaled e a + scaled e b in
  let sign := if s =? 0 then dsign a && dsign b else s <? 0 in
  round_to_context (mkDecimal sign (Z.to_N (Z.abs s)) e).

(** [d * n] for an [int] [n]. *)
Definition mul_int (d : PyDecimal) (n : Z) : result PyDecimal :=
  match d with
  | NaN _ true _ => Raise InvalidOperation
  | NaN negative false payload => Ok (fix_nan negative payload)
  | Infinity negative =>
      if n =? 0 then Raise InvalidOperation
      else Ok (Infinity (xorb negative (n <? 0)))
  | Finite a =>
      match mul_finite a (of_int n) with
      | Ok r => Ok (Finite r)
      | Raise e => Raise e
      end
  end.

(** [a + b] *)
Definition add (a b : PyDecimal) : result PyDecimal :=
  match a, b with
  | NaN _ true _, _ => Raise InvalidOperation
  | _, NaN _ true _ => Raise InvalidOperation
  | NaN negative false payload, _ => Ok (fix_nan negative payload)
  | _, NaN negative false payload => Ok (fix_nan negative payload)
  | Infinity sa, Infinity sb =>
      if Bool.eqb sa sb then Ok a else Raise InvalidOperation
  | Infinity _, Finite _ => Ok a
  | Finite _, Infinity _ => Ok b
  | Finite x, Finite y =>
      match add_finite x y with
      | Ok r => Ok (Finite r)
      | Raise e => Raise e
      end
  end.

End Dec.

(** ** UUIDs ([uuid])

    A [uuid.UUID] is its 128-bit integer [int].  Bits 62 and 63 hold the
    variant, bits 76 to 79 the version. *)

Module Uuid.
Open Scope N_scope.

Inductive variant_kind :=
  RESERVED_NCS | RFC_4122 | RESERVED_MICROSOFT | RESERVED_FUTURE.

(** The property [variant]. *)
Definition variant (int : N) : variant_kind :=
  if N.land int (N.shiftl 0x8000 48) =? 0 then RESERVED_NCS
  else if N.land int (N.shiftl 0x4000 48) =? 0 then RFC_4122
  else if N.land int (N.shiftl 0x2000 48) =? 0 then RESERVED_MICROSOFT
  else RESERVED_FUTURE.

(** The property [version]: [None] unless the variant is RFC 4122. *)
Definition version (int : N) : option N :=
  match variant int with
  | RFC_4122 => Some (N.land (N.shiftr int 76) 0xf)
  | _ => None
  end.

(** [UUID(int=int, version=version)], for a version within 1..5: the
    variant and the version bits are overwritten. *)
Definition with_version (int version : N) : N :=
  let int := N.ldiff int (N.shiftl 0xc000 48) in
  let int := N.lor int (N.shiftl 0x8000 48) in
  let int := N.ldiff int (N.shiftl 0xf000 64) in
  N.lor int (N.shiftl version 76).

(** [uuid4()], which is [UUID(bytes=os.urandom(16), version=4)];
    [random] is the integer of the sixteen bytes drawn. *)
Definition uuid4 (random : N) : N := with_version random 4.

End Uuid.

(** ** What the interpreter supplies

    The Unicode database decides which non-ASCII characters [\s] and [\d]
    match, and [Decimal(str(x))] is the library's conversion of an arbitrary
    object.  The code only relies on them through these three functions;
    below 128 the character classes are fixed by the definitions
    [re_space] and [re_digit]. *)

Class Interpreter := {
  (** [c.isspace()] for a code point [c >= 128] *)
  unicode_space : char -> bool;
  (** membership of category Nd for a code point [c >= 128] *)
  unicode_decimal : char -> bool;
  (** [Decimal(str(x))] for an [x] that is not a [Decimal] *)
  Decimal_of_str : value -> result PyDecimal
}.

Section CharacterClasses.
Context {I : Interpreter}.
Open Scope N_scope.

Definition in_range (lo hi c : char) : bool := (lo <=? c) && (c <=? hi).

Definition is_upper (c : char) : bool := in_range 65 90 c.     (* A-Z *)
Definition is_lower (c : char) : bool := in_range 97 122 c.    (* a-z *)
Definition is_ascii_digit (c : char) : bool := in_range 48 57 c.  (* 0-9 *)
Definition is_hyphen (c : char) : bool := c =? 45.
Definition is_space (c : char) : bool := c =? 32.

(** ASCII whitespace: tab, newline, vertical tab, form feed, carriage
    return, the four separators 0x1c-0x1f, and the space. *)
Definition ascii_whitespace (c : char) : bool :=
  in_range 9 13 c || in_range 28 31 c || (c =? 32).

(** [\s] on a [str] pattern *)
Definition re_space (c : char) : bool :=
  if c <? 128 then ascii_whitespace c else unicode_space c.

(** [\d] on a [str] pattern *)
Definition re_digit (c : char) : bool :=
  if c <? 128 then is_ascii_digit c else unicode_decimal c.
End CharacterClasses.

(** ** types.py *)

Module Types.
Section Constants.
Context {I : Interpreter}.
Import Regex.

Definition MIN_QUANTITY : Z := 1.
Definition MAX_QUANTITY : Z := 10000.
Definition MIN_ITEM_NAME_LENGTH : nat := 1.
Definition MAX_ITEM_NAME_LENGTH : nat := 100.
Definition MIN_PRICE : Decimal := mkDecimal false 0 (-2).          (* 0.00 *)
Definition MAX_PRICE : Decimal := mkDecimal false 99999999 (-2).   (* 999999.99 *)
Definition PRICE_DECIMAL_PLACES : Z := 2.

(** [^[A-Z]{3}\d{5}[A-Z]{2}-(A|Q)$] *)
Definition CUSTOMER_ID_BODY : regex :=
  Cat (rep 3 (Chr is_upper))
 (Cat (rep 5 (Chr re_digit))
 (Cat (rep 2 (Chr is_upper))
 (Cat (Chr is_hyphen)
      (Alt (Chr (N.eqb 65)) (Chr (N.eqb 81)))))).
Definition CUSTOMER_ID_PATTERN : pattern := Anchored CUSTOMER_ID_BODY.

(** [^[a-zA-Z0-9\s\-]+$] *)
Definition item_name_class (c : char) : bool :=
  is_lower c || is_upper c || is_ascii_digit c || re_space c || is_hyphen c.
Definition ITEM_NAME_PATTERN : pattern :=
  Anchored (plus (Chr item_name_class)).
End Constants.
End Types.

(** ** validators.py *)

Module Validators.
Section Validators.
Context {I : Interpreter}.
Import Types.
Open Scope result_scope.

Definition _CUSTOMER_ID_REGEX := CUSTOMER_ID_PATTERN.
Definition _ITEM_NAME_REGEX := ITEM_NAME_PATTERN.

(** ["\x00" in value] *)
Definition _contains_null_bytes (value : pystr) : bool :=
  existsb (N.eqb 0) value.

(** [any(ord(c) < 32 and c not in "\n\t" for c in value)] *)
Definition _contains_control_characters (value : pystr) : bool :=
  existsb (fun c => (c <? 32)%N && negb ((c =? 10)%N || (c =? 9)%N)) value.

Definition validate_customer_id (customer_id : value) : result pystr :=
  match customer_id with
  | VStr s =>
      if _contains_null_bytes s then
        Raise (CustomerIDValidationError CidNullBytes)
      else if _contains_control_characters s then
        Raise (CustomerIDValidationError CidControlChars)
      else if negb (Regex.re_match _CUSTOMER_ID_REGEX s) then
        Raise (CustomerIDValidationError CidFormat)
      else Ok s
  | _ => Raise (CustomerIDValidationError CidNotString)
  end.

Definition validate_quantity (quantity : value) : result Z :=
  match quantity with
  | VInt n =>
      if (n <? MIN_QUANTITY)%Z then
        Raise (QuantityValidationError QtyBelowMin)
      else if (n >? MAX_QUANTITY)%Z then
        Raise (QuantityValidationError QtyAboveMax)
      else Ok n
  | _ => Raise (QuantityValidationError QtyNotInteger)
  end.

Definition validate_item_name (item_name : value) : result pystr :=
  match item_name with
  | VStr s =>
      if _contains_null_bytes s then
        Raise (ItemNameValidationError NameNullBytes)
      else if _contains_control_characters s then
        Raise (ItemNameValidationError NameControlChars)
      else if (length s <? MIN_ITEM_NAME_LENGTH)%nat then
        Raise (ItemNameValidationError NameTooShort)
      else if (MAX_ITEM_NAME_LENGTH <? length s)%nat then
        Raise (ItemNameValidationError NameTooLong)
      else if negb (Regex.re_match _ITEM_NAME_REGEX s) then
        Raise (ItemNameValidationError NameInvalidChars)
      else Ok s
  | _ => Raise (ItemNameValidationError NameNotString)
  end.

(** The [except (InvalidOperation, ValueError, TypeError)] clause. *)
Definition conversion_error (e : exn) : bool :=
  match e with
  | InvalidOperation | ValueError | TypeError => true
  | _ => false
  end.

Definition validate_price (price : value) : result PyDecimal :=
  validated_price <-
    match price with
    | VDecimal d => Ok d
    | _ =>
        match Decimal_of_str price with
        | Ok d => Ok d
        | Raise e =>
            if conversion_error e then
              Raise (PriceValidationError PriceNotDecimal)
            else Raise e
        end
    end ;;
  below <- Dec.lt validated_price MIN_PRICE ;;
  if below then Raise (PriceValidationError PriceNegative) else
  above <- Dec.gt validated_price MAX_PRICE ;;
  if above then Raise (PriceValidationError PriceExceedsMax) else
  match validated_price with
  | Finite d =>
      if (exponent d <? - PRICE_DECIMAL_PLACES)%Z then
        Raise (PriceValidationError PriceDecimalPlaces)
      else Ok validated_price
  | _ => Ok validated_price  (* the exponent is not an [int] *)
  end.

End Validators.
End Validators.

(** *** validate_uuid4

    [exceptions.py] has one more validation error, [UUIDValidationError],
    which only this validator raises; its outcome is the UUID or that
    error. *)

Module ValidatorsUuid.

Inductive uuid_fault :=
  UuidNullBytes | UuidInvalidFormat | UuidNotUuidOrString | UuidNotVersion4.

Inductive uuid_outcome :=
| UuidOk (u : N)
| UUIDValidationError (f : uuid_fault).

Section ValidateUuid.

(** [uuid.UUID(s)] for a [str]: the UUID, or [None] for [ValueError]. *)
Variable UUID_of_hex : pystr -> option N.

Definition validate_uuid4 (uuid_value : value) : uuid_outcome :=
  let checked uuid_obj :=
    match Uuid.version uuid_obj with
    | Some 4%N => UuidOk uuid_obj
    | _ => UUIDValidationError UuidNotVersion4
    end in
  match uuid_value with
  | VUuid uuid_obj => checked uuid_obj
  | VStr s =>
      if Validators._contains_null_bytes s then
        UUIDValidationError UuidNullBytes
      else
        match UUID_of_hex s with
        | Some uuid_obj => checked uuid_obj
        | None => UUIDValidationError UuidInvalidFormat
        end
  | _ => UUIDValidationError UuidNotUuidOrString
  end.

End ValidateUuid.
End ValidatorsUuid.

(** ** Dictionary objects and references

    [get_items] and [get_all_items] hand dictionaries to the caller, who may
    update them in place; a cart updates its own dictionary in place.  The
    dictionaries therefore live in a store and are named by references. *)

Abbreviation loc := nat (only parsing).
Abbreviation heap V := (list (dict V)).

Module Heap.
Section Heap.
Context {V : Type}.

(** A new dictionary object. *)
Definition alloc (h : heap V) (d : dict V) : loc * heap V :=
  (length h, h ++ [d]).

(** The object at [l].  A reference names an object of the store
    ([allocated]); for any other number [read] gives the empty dictionary
    and [write] changes nothing. *)
Definition read (h : heap V) (l : loc) : dict V := nth l h [].

(** In-place update of the object at [l]. *)
Fixpoint write (h : heap V) (l : loc) (d : dict V) : heap V :=
  match h, l with
  | [], _ => []
  | _ :: r, O => d :: r
  | x :: r, S l' => x :: write r l' d
  end.

(** [deepcopy(d)] of a dictionary whose keys and values are immutable
    ([str], [int], [Decimal]): a new dictionary object with the same
    entries. *)
Definition deepcopy (h : heap V) (l : loc) : loc * heap V := alloc h (read h l).

Definition allocated (h : heap V) (l : loc) : Prop := (l < length h)%nat.

End Heap.
End Heap.

(** ** catalog.py *)

Module Catalog.

(** [@dataclass(frozen=True) class CatalogItem] *)
Record CatalogItem := mkCatalogItem {
  name : pystr;
  price : PyDecimal
}.

(** [class Catalog]: its only attribute is the dictionary [_items], bound
    once by [__init__]; no method rebinds or updates it and no method
    returns it. *)
Record Catalog := mkCatalog {
  _items : dict CatalogItem
}.

Section Catalog.
Context {I : Interpreter}.
Import Validators.
Open Scope result_scope.

(** [CatalogItem(name=..., price=...)] with its [__post_init__]. *)
Definition CatalogItem__init__ (name price : value) : result CatalogItem :=
  name' <- validate_item_name name ;;
  price' <- validate_price price ;;
  Ok (mkCatalogItem name' price').

(** [{name: CatalogItem(name=name, price=price)
      for name, price in items.items()}], entry by entry. *)
Fixpoint build_items (items : list (value * value))
                     (acc : dict CatalogItem) : result (dict CatalogItem) :=
  match items with
  | [] => Ok acc
  | (name, price) :: rest =>
      item <- CatalogItem__init__ name price ;;
      build_items rest (PyDict.set acc (Catalog.name item) item)
  end.

(** [Catalog(items)]; [items] is given by the pairs [items.items()]
    yields. *)
Definition __init__ (items : list (value * value)) : result Catalog :=
  d <- build_items items [] ;;
  Ok (mkCatalog d).

Definition has_item (self : Catalog) (item_name : pystr) : bool :=
  PyDict.contains (_items self) item_name.

Definition get_price (self : Catalog) (item_name : pystr) : option PyDecimal :=
  match PyDict.get (_items self) item_name with
  | Some item => Some (price item)
  | None => None
  end.

(** [{name: item.price for name, item in self._items.items()}] *)
Definition prices (self : Catalog) : dict PyDecimal :=
  map (fun entry => (fst entry, price (snd entry))) (_items self).

(** The comprehension builds a dictionary object, [deepcopy] a second
    one, which is returned. *)
Definition get_all_items (self : Catalog) (h : heap PyDecimal)
  : loc * heap PyDecimal :=
  let (fresh, h1) := Heap.alloc h (prices self) in
  Heap.deepcopy h1 fresh.
End Catalog.
End Catalog.


(** ** cart.py *)

Module Cart.

(** A cart object: the four attributes [__init__] binds.  [_items] is a
    reference to the cart's dictionary. *)
Record ShoppingCart := mkShoppingCart {
  _cart_id : N;
  _customer_id : pystr;
  _catalog : Catalog.Catalog;
  _items : loc
}.

(** The second argument of the constructor, by [isinstance(catalog,
    Catalog)]. *)
Inductive catalog_arg :=
| IsCatalog (c : Catalog.Catalog)
| NotCatalog (v : value).

(** *** Calls that read and update the store, or raise *)

Definition M (A : Type) : Type := heap Z -> result A * heap Z.

Definition ret {A} (a : A) : M A := fun h => (Ok a, h).
Definition raise {A} (e : exn) : M A := fun h => (Raise e, h).
Definition bind {A B} (m : M A) (k : A -> M B) : M B :=
  fun h => match m h with
           | (Ok a, h') => k a h'
           | (Raise e, h') => (Raise e, h')
           end.
(** A call of a function that does not touch the store. *)
Definition call {A} (r : result A) : M A := fun h => (r, h).
Definition load (l : loc) : M (dict Z) := fun h => (Ok (Heap.read h l), h).
Definition store (l : loc) (d : dict Z) : M unit :=
  fun h => (Ok tt, Heap.write h l d).
Definition new_dict (d : dict Z) : M loc :=
  fun h => let (l, h') := Heap.alloc h d in (Ok l, h').

Declare Scope cart_scope.
Delimit Scope cart_scope with cart.
Notation "x <- m ;; k" := (bind m (fun x => k))
  (at level 61, m at next level, right associativity) : cart_scope.

Section Cart.
Context {I : Interpreter}.
Import Validators.
Open Scope cart_scope.

Definition _IMMUTABLE_FIELDS : list pystr := [py "_cart_id"; py "_customer_id"].

(** [ShoppingCart(customer_id, catalog)]; [uuid4] is the identifier
    [uuid.uuid4()] draws. *)
Definition __init__ (uuid4 : N) (customer_id : value) (catalog : catalog_arg)
  : M ShoppingCart :=
  match catalog with
  | NotCatalog _ => raise TypeError
  | IsCatalog cat =>
      customer_id' <- call (validate_customer_id customer_id) ;;
      items <- new_dict [] ;;
      ret (mkShoppingCart uuid4 customer_id' cat items)
  end.

(** The read-only properties. *)
Definition cart_id (self : ShoppingCart) : N := _cart_id self.
Definition customer_id (self : ShoppingCart) : pystr := _customer_id self.

Definition add_item (self : ShoppingCart) (item_name quantity : value)
  : M unit :=
  item_name <- call (validate_item_name item_name) ;;
  quantity <- call (validate_quantity quantity) ;;
  if negb (Catalog.has_item (_catalog self) item_name) then
    raise (ItemNotInCatalogError item_name)
  else
    items <- load (_items self) ;;
    match PyDict.get items item_name with
    | Some existing =>
        new_quantity <- call (validate_quantity (VInt (existing + quantity))) ;;
        store (_items self) (PyDict.set items item_name new_quantity)
    | None =>
        store (_items self) (PyDict.set items item_name quantity)
    end.

Definition update_item_quantity (self : ShoppingCart)
                                (item_name quantity : value) : M unit :=
  item_name <- call (validate_item_name item_name) ;;
  quantity <- call (validate_quantity quantity) ;;
  items <- load (_items self) ;;
  if negb (PyDict.contains items item_name) then
    raise (ItemNotInCartError item_name)
  else
    store (_items self) (PyDict.set items item_name quantity).

Definition remove_item (self : ShoppingCart) (item_name : value) : M unit :=
  item_name <- call (validate_item_name item_name) ;;
  items <- load (_items self) ;;
  if negb (PyDict.contains items item_name) then
    raise (ItemNotInCartError item_name)
  else
    store (_items self) (PyDict.del items item_name).

(** [deepcopy(self._items)] *)
Definition get_items (self : ShoppingCart) : M loc :=
  fun h => let (l, h') := Heap.deepcopy h (_items self) in (Ok l, h').

(** The loop of [get_total] over [self._items.items()]. *)
Fixpoint total_loop (catalog : Catalog.Catalog) (items : list (pystr * Z))
                    (total : PyDecimal) : result PyDecimal :=
  match items with
  | [] => Ok total
  | (item_name, quantity) :: rest =>
      match Catalog.get_price catalog item_name with
      | Some price =>
          rbind (Dec.mul_int price quantity) (fun line =>
          rbind (Dec.add total line) (fun total' =>
          total_loop catalog rest total'))
      | None => total_loop catalog rest total
      end
  end.

Definition get_total (self : ShoppingCart) : M PyDecimal :=
  items <- load (_items self) ;;
  call (total_loop (_catalog self) items (Finite (mkDecimal false 0 (-2)))).

(** *** Attribute assignment

    [obj.name = value] calls [ShoppingCart.__setattr__(obj, name, value)].
    It sees the object as its instance dictionary, in which [__init__] has
    bound the four attributes, and looks [_IMMUTABLE_FIELDS] up through the
    object: in the instance dictionary first, then in the class. *)

(** A class: [ShoppingCart], or another one, with whether an object of
    [ShoppingCart] can be given it as its [__class__] (it is a class
    defined in Python and its instances have the same layout). *)
Inductive pyclass :=
| ShoppingCartClass
| OtherClass (id : N) (assignable : bool).

(** The objects an attribute can be bound to.  The dictionaries, the
    collections of [str] and the classes have constructors of their own, so
    in [AttrValue (VOther id)] the object [id] is none of them. *)
#[warnings="-register-all"]
Inductive attr :=
| AttrValue (v : value)
| AttrCatalog (c : Catalog.Catalog)
| AttrDict (l : loc)               (* a dictionary of the store *)
| AttrNames (names : list pystr)   (* a set, frozenset, list, tuple of str *)
| AttrNamespace (entries : list (pystr * attr))
                                   (* any other dict, by its str keys *)
| AttrClass (c : pyclass).

Definition __dict__ (self : ShoppingCart) : dict attr :=
  [ (py "_cart_id", AttrValue (VUuid (_cart_id self)));
    (py "_customer_id", AttrValue (VStr (_customer_id self)));
    (py "_catalog", AttrCatalog (_catalog self));
    (py "_items", AttrDict (_items self)) ].

(** [name in names] *)
Definition str_in (name : pystr) (names : list pystr) : bool :=
  existsb (str_eqb name) names.

(** [name in s] for a [str] [s]: [name] occurs in [s]. *)
Fixpoint is_prefix (p s : pystr) : bool :=
  match p, s with
  | [], _ => true
  | a :: p', b :: s' => (a =? b)%N && is_prefix p' s'
  | _ :: _, [] => false
  end.

Fixpoint is_substring (p s : pystr) : bool :=
  is_prefix p s
  || match s with
     | [] => false
     | _ :: s' => is_substring p s'
     end.

(** [name.lstrip('_')] *)
Fixpoint lstrip_underscore (name : pystr) : pystr :=
  match name with
  | c :: rest => if (c =? 95)%N then lstrip_underscore rest else name
  | [] => []
  end.

(** The class attributes that are properties; neither has a setter. *)
Definition read_only_properties : list pystr := [py "cart_id"; py "customer_id"].

(** What an assignment that does not raise has done. *)
Inductive assigned :=
| Stored (inst : dict attr)  (* bound the name: the instance dictionary *)
| NewDict (d : attr)         (* made [d] the instance dictionary *)
| NewClass (c : pyclass).    (* made [c] the class of the object *)

Section Attributes.

(** [name in obj] for an object of the caller that is none of the kinds
    [contains] knows: what its [__contains__] or its iteration answers, or
    the [TypeError] of an object that has neither. *)
Variable contains_other : N -> pystr -> result bool.

(** [name in obj] *)
Definition contains (h : heap Z) (obj : attr) (name : pystr) : result bool :=
  match obj with
  | AttrNames names => Ok (str_in name names)
  | AttrNamespace entries => Ok (PyDict.contains entries name)
  | AttrDict l => Ok (PyDict.contains (Heap.read h l) name)
  | AttrValue (VStr s) => Ok (is_substring name s)
  | AttrValue (VOther id) => contains_other id name
  | AttrClass (OtherClass id _) => contains_other id name
  | AttrValue _ | AttrCatalog _ | AttrClass ShoppingCartClass =>
      Raise TypeError
  end.

(** [self._IMMUTABLE_FIELDS]: what the instance dictionary binds the name
    to, and the set of the class when it does not bind it. *)
Definition self_IMMUTABLE_FIELDS (inst : dict attr) : attr :=
  match PyDict.get inst (py "_IMMUTABLE_FIELDS") with
  | Some obj => obj
  | None => AttrNames _IMMUTABLE_FIELDS
  end.

(** [object.__setattr__(self, name, value)] on a cart.  The class and its
    base have five data descriptors: the two properties, which have no
    setter, [__weakref__], which is not writable, [__dict__], which takes a
    dictionary, and [__class__], which takes a class it can be given.  Any
    other name is bound in the instance dictionary. *)
Definition object__setattr__ (inst : dict attr) (name : pystr) (v : attr)
  : result assigned :=
  if str_in name read_only_properties then Raise AttributeError
  else if str_eqb name (py "__weakref__") then Raise AttributeError
  else if str_eqb name (py "__dict__") then
    match v with
    | AttrDict _ | AttrNamespace _ => Ok (NewDict v)
    | _ => Raise TypeError
    end
  else if str_eqb name (py "__class__") then
    match v with
    | AttrClass ShoppingCartClass => Ok (NewClass ShoppingCartClass)
    | AttrClass (OtherClass id true) => Ok (NewClass (OtherClass id true))
    | _ => Raise TypeError
    end
  else Ok (Stored (PyDict.set inst name v)).

(** [ShoppingCart.__setattr__(self, name, value)]; a call that raises has
    stored nothing. *)
Definition __setattr__ (h : heap Z) (inst : dict attr) (name : pystr)
                       (v : attr) : result assigned :=
  rbind (contains h (self_IMMUTABLE_FIELDS inst) name) (fun guarded =>
  if guarded : bool then
    Raise (ImmutabilityViolationError (lstrip_underscore name))
  else object__setattr__ inst name v).

End Attributes.

(** *** The methods a caller can invoke on a cart *)

Inductive method :=
| Call_add_item (item_name quantity : value)
| Call_update_item_quantity (item_name quantity : value)
| Call_remove_item (item_name : value)
| Call_get_items
| Call_get_total.

Inductive returned :=
| RNone
| RDict (l : loc)
| RDecimal (d : PyDecimal).

Definition returning {A} (f : A -> returned) (m : M A) : M returned :=
  a <- m ;; ret (f a).

Definition invoke (self : ShoppingCart) (m : method) : M returned :=
  match m with
  | Call_add_item n q => returning (fun _ => RNone) (add_item self n q)
  | Call_update_item_quantity n q =>
      returning (fun _ => RNone) (update_item_quantity self n q)
  | Call_remove_item n => returning (fun _ => RNone) (remove_item self n)
  | Call_get_items => returning RDict (get_items self)
  | Call_get_total => returning RDecimal (get_total self)
  end.

End Cart.
End Cart.

(** ** The properties, in the terms of the model *)

Module Spec.
Section Spec.
Context {I : Interpreter}.
Import Types Validators Cart.
Open Scope Z_scope.

(** *** Item names *)

(** The characters an item name is made of: an ASCII letter, a digit, a
    space or a hyphen. *)
Definition name_char (c : char) : bool :=
  is_lower c || is_upper c || is_ascii_digit c || is_space c || is_hyphen c.

(** An ASCII control character, or the null byte. *)
Definition ascii_control (c : char) : bool := (c <? 32)%N || (c =? 127)%N.

(** What [_contains_control_characters] looks for. *)
Definition control_character (c : char) : bool :=
  (c <? 32)%N && negb ((c =? 10)%N || (c =? 9)%N).

(** Item names as the specification words them: no null byte, no control
    character, between 1 and 100 characters, each a letter, a digit, a
    space or a hyphen. *)
Definition spec_item_name (s : pystr) : bool :=
  negb (existsb ascii_control s)
  && (1 <=? length s)%nat && (length s <=? 100)%nat
  && forallb name_char s.

(** As above, with the tab and the newline admitted. *)
Definition name_char_or_tab_newline (c : char) : bool :=
  name_char c || (c =? 9)%N || (c =? 10)%N.

Definition item_name_ok (s : pystr) : bool :=
  (1 <=? length s)%nat && (length s <=? 100)%nat
  && forallb name_char_or_tab_newline s.

(** The input holds no whitespace character outside ASCII. *)
Definition no_wide_space (v : value) : Prop :=
  match v with
  | VStr s => forallb (fun c => negb ((128 <=? c)%N && unicode_space c)) s = true
  | _ => True
  end.

(** *** Customer identifiers *)

(** Three uppercase letters, five digits, two uppercase letters, a hyphen
    and [A] or [Q], with [digit] deciding what a digit is. *)
Definition customer_id_shape (digit : char -> bool) (s : pystr) : bool :=
  match s with
  | [l1; l2; l3; d1; d2; d3; d4; d5; m1; m2; h; t] =>
      is_upper l1 && is_upper l2 && is_upper l3
      && digit d1 && digit d2 && digit d3 && digit d4 && digit d5
      && is_upper m1 && is_upper m2 && is_hyphen h
      && ((t =? 65)%N || (t =? 81)%N)
  | _ => false
  end.

(** The format as the specification words it. *)
Definition spec_customer_id (s : pystr) : bool :=
  customer_id_shape is_ascii_digit s.

(** *** Prices *)

(** The decimal that [validate_price] checks, when the conversion yields
    one. *)
Definition converted (price : value) : option PyDecimal :=
  match price with
  | VDecimal d => Some d
  | _ => match Decimal_of_str price with
         | Ok d => Some d
         | Raise _ => None
         end
  end.

(** The checks that follow the conversion. *)
Definition check_price (validated_price : PyDecimal) : result PyDecimal :=
  rbind (Dec.lt validated_price MIN_PRICE) (fun below =>
  if below then Raise (PriceValidationError PriceNegative) else
  rbind (Dec.gt validated_price MAX_PRICE) (fun above =>
  if above then Raise (PriceValidationError PriceExceedsMax) else
  match validated_price with
  | Finite d =>
      if (exponent d <? - PRICE_DECIMAL_PLACES)%Z then
        Raise (PriceValidationError PriceDecimalPlaces)
      else Ok validated_price
  | _ => Ok validated_price
  end)).

(** The value of a finite decimal in hundredths, for an exponent of at
    least -2. *)
Definition cents (d : Decimal) : Z := Dec.scaled (-2) d.

(** A price as the catalog holds it: finite, between 0.00 and 999999.99,
    with at most two fractional digits. *)
Definition valid_price (p : PyDecimal) : Prop :=
  exists d, p = Finite d /\ -2 <= exponent d /\ 0 <= cents d <= 99999999.

(** An entry of the catalog: keyed by its own name, a valid item name,
    and holding a valid price. *)
Definition entry_ok (k : pystr) (item : Catalog.CatalogItem) : Prop :=
  Catalog.name item = k /\
  validate_item_name (VStr k) = Ok k /\
  valid_price (Catalog.price item).

Definition catalog_ok (catalog : Catalog.Catalog) : Prop :=
  forall k item, In (k, item) (Catalog._items catalog) -> entry_ok k item.

(** *** Carts *)

(** Every quantity of a dictionary lies within [lo..hi]. *)
Definition quantities_within (lo hi : Z) (items : dict Z) : Prop :=
  forall k q, In (k, q) items -> lo <= q <= hi.

(** The invariant of a cart: its dictionary exists, every key is a valid
    item name that the catalog has, every quantity is within 1..10000. *)
Definition invariant (h : heap Z) (c : ShoppingCart) : Prop :=
  Heap.allocated h (_items c) /\
  forall k q, In (k, q) (Heap.read h (_items c)) ->
    validate_item_name (VStr k) = Ok k /\
    Catalog.has_item (_catalog c) k = true /\
    1 <= q <= 10000.

(** The states of a cart that the public interface produces: construction
    over a constructed catalog, then successful calls of the three
    mutators. *)
Inductive reachable : heap Z -> ShoppingCart -> Prop :=
| reach_init entries catalog uuid4 customer_id h0 c h :
    Catalog.__init__ entries = Ok catalog ->
    __init__ uuid4 customer_id (IsCatalog catalog) h0 = (Ok c, h) ->
    reachable h c
| reach_add h c item_name quantity h' :
    reachable h c ->
    add_item c item_name quantity h = (Ok tt, h') ->
    reachable h' c
| reach_update h c item_name quantity h' :
    reachable h c ->
    update_item_quantity c item_name quantity h = (Ok tt, h') ->
    reachable h' c
| reach_remove h c item_name h' :
    reachable h c ->
    remove_item c item_name h = (Ok tt, h') ->
    reachable h' c.

(** *** Totals *)

(** What one entry of the cart costs, in hundredths: quantity times price,
    and nothing for a name the catalog lacks. *)
Definition line_cents (catalog : Catalog.Catalog) (entry : pystr * Z) : Z :=
  match Catalog.get_price catalog (fst entry) with
  | Some (Finite d) => snd entry * cents d
  | Some _ => 0      (* not a price: a catalog holds finite decimals *)
  | None => 0
  end.

(** The exact sum over the entries. *)
Definition total_cents (catalog : Catalog.Catalog) (items : dict Z) : Z :=
  fold_right (fun entry acc => line_cents catalog entry + acc) 0 items.

(** The decimal with two fractional digits that is [n] hundredths. *)
Definition of_cents (n : Z) : PyDecimal :=
  Finite (mkDecimal false (Z.to_N n) (-2)).

End Spec.
End Spec.

(** ** Outcomes of the validators and of the methods *)

(** [exceptions.py]: the classes derived from [ShoppingCartError]. *)
Definition is_ShoppingCartError (e : exn) : bool :=
  match e with
  | CustomerIDValidationError _ | QuantityValidationError _
  | ItemNameValidationError _ | PriceValidationError _
  | ImmutabilityViolationError _
  | ItemNotInCatalogError _ | ItemNotInCartError _ => true
  | _ => false
  end.

Module Outcomes.
Section Outcomes.
Context {I : Interpreter}.
Import Types Validators Cart Spec.

(** The strings a customer identifier can be: the twelve characters of
    the format, or these and one newline after them. *)
Definition customer_id_accepted (s : pystr) : bool :=
  customer_id_shape re_digit s
  || ((length s =? 13)%nat && (last s 0 =? 10)%N
      && customer_id_shape re_digit (removelast s)).

(** The characters an item name can hold: a letter, a digit, a space, a
    hyphen, a tab, a newline, or a whitespace character outside ASCII. *)
Definition item_name_char (c : char) : bool :=
  name_char_or_tab_newline c || ((128 <=? c)%N && unicode_space c).

Definition item_name_accepted (s : pystr) : bool :=
  (1 <=? length s)%nat && (length s <=? 100)%nat && forallb item_name_char s.

(** The quantity a dictionary holds of [k]: nothing of a name it lacks. *)
Definition held (items : dict Z) (k : pystr) : Z :=
  match PyDict.get items k with
  | Some q => q
  | None => 0%Z
  end.

(** What a price is worth in hundredths, when the catalog has it. *)
Definition price_cents (catalog : Catalog.Catalog) (k : pystr) : Z :=
  match Catalog.get_price catalog k with
  | Some (Finite d) => cents d
  | _ => 0%Z
  end.

(** The exceptions a call of each method can end in. *)
Definition may_raise (m : method) (e : exn) : bool :=
  match m, e with
  | Call_add_item _ _, ItemNameValidationError _
  | Call_add_item _ _, QuantityValidationError _
  | Call_add_item _ _, ItemNotInCatalogError _
  | Call_update_item_quantity _ _, ItemNameValidationError _
  | Call_update_item_quantity _ _, QuantityValidationError _
  | Call_update_item_quantity _ _, ItemNotInCartError _
  | Call_remove_item _, ItemNameValidationError _
  | Call_remove_item _, ItemNotInCartError _
  | Call_get_total, InvalidOperation
  | Call_get_total, Overflow => true
  | _, _ => false
  end.

(** An entry that [CatalogItem] accepts. *)
Definition entry_accepted (entry : value * value) : Prop :=
  exists item, Catalog.CatalogItem__init__ (fst entry) (snd entry) = Ok item.

(** What [Catalog] keeps of an accepted entry: the name itself and the
    price as a [Decimal]. *)
Definition kept (entry : value * value) (stored : pystr * PyDecimal) : Prop :=
  fst entry = VStr (fst stored) /\
  converted (snd entry) = Some (snd stored) /\
  valid_price (snd stored).

(** What the dictionary of the catalog holds of an accepted entry. *)
Definition stored_as (entry : value * value)
                     (stored : pystr * Catalog.CatalogItem) : Prop :=
  Catalog.name (snd stored) = fst stored /\
  kept entry (fst stored, Catalog.price (snd stored)).

(** The same number written with [k] more fractional digits, all zero. *)
Definition with_trailing_zeros (k : Z) (d : Decimal) : Decimal :=
  mkDecimal (dsign d) (coefficient d * 10 ^ Z.to_N k)%N (exponent d - k)%Z.

End Outcomes.
End Outcomes.

(** ** An interpreter for closed examples

    On ASCII strings and [Decimal] prices the three functions of the
    interpreter are not consulted.  This instance answers for the non-ASCII
    whitespace of Unicode, knows the Arabic-Indic and the fullwidth digits,
    converts integers and refuses every other object. *)

Definition sample_unicode_space (c : char) : bool :=
  existsb (N.eqb c)
    [133; 160; 5760; 8192; 8193; 8194; 8195; 8196; 8197; 8198; 8199; 8200;
     8201; 8202; 8232; 8233; 8239; 8287; 12288]%N.

Definition sample_unicode_decimal (c : char) : bool :=
  (in_range 1632 1641 c || in_range 65296 65305 c)%N.

Definition sample_Decimal_of_str (x : value) : result PyDecimal :=
  match x with
  | VInt n => Ok (Finite (Dec.of_int n))
  | _ => Raise InvalidOperation
  end.

Definition sample_interpreter : Interpreter :=
  {| unicode_space := sample_unicode_space;
     unicode_decimal := sample_unicode_decimal;
     Decimal_of_str := sample_Decimal_of_str |}.

(** The catalog and the cart of the specification's scenarios: a catalog
    with [Widget] at 10.99, and the cart of customer [ABC12345XY-A] over
    it, whose dictionary is the first object of the store. *)

Definition price_10_99 : PyDecimal := Finite (mkDecimal false 1099 (-2)).

Definition widget_entries : list (value * value) :=
  [(VStr (py "Widget"), VDecimal price_10_99)].

Definition widget_catalog : Catalog.Catalog :=
  Catalog.mkCatalog
    [(py "Widget", Catalog.mkCatalogItem (py "Widget") price_10_99)].

Definition widget_cart : Cart.ShoppingCart :=
  Cart.mkShoppingCart 7 (py "ABC12345XY-A") widget_catalog 0.

(** The store in which that cart holds [q] widgets. *)
Definition widgets (q : Z) : heap Z := [[(py "Widget", q)]].

(** A catalog of two items, [Widget] at 10.99 and [Gadget] at 5.00, and a
    cart over it, whose dictionary is the first object of the store. *)

Definition price_5_00 : PyDecimal := Finite (mkDecimal false 500 (-2)).

Definition two_item_entries : list (value * value) :=
  [(VStr (py "Widget"), VDecimal price_10_99);
   (VStr (py "Gadget"), VDecimal price_5_00)].

Definition two_item_catalog : Catalog.Catalog :=
  Catalog.mkCatalog
    [(py "Widget", Catalog.mkCatalogItem (py "Widget") price_10_99);
     (py "Gadget", Catalog.mkCatalogItem (py "Gadget") price_5_00)].

Definition two_item_cart : Cart.ShoppingCart :=
  Cart.mkShoppingCart 9 (py "ABC12345XY-A") two_item_catalog 0.

(** One widget and two gadgets, in the two orders they can come in. *)
Definition widget_then_gadgets : heap Z :=
  [[(py "Widget", 1%Z); (py "Gadget", 2%Z)]].
Definition gadgets_then_widget : heap Z :=
  [[(py "Gadget", 2%Z); (py "Widget", 1%Z)]].

(** A caller none of whose other objects supports [in]. *)
Definition no_contains (id : N) (name : pystr) : result bool := Raise TypeError.

(** * Proofs *)

(** ** Strings *)

Lemma str_eqb_eq a b : str_eqb a b = true <-> a = b.
Proof.
  revert b; induction a as [|x a IH]; intros [|y b]; simpl; split;
    try congruence; try discriminate; auto.
  - intros H. apply andb_true_iff in H as [H1 H2].
    apply N.eqb_eq in H1. apply IH in H2. congruence.
  - intros H. injection H as -> ->. rewrite N.eqb_refl. simpl. now apply IH.
Qed.

Lemma str_eqb_refl a : str_eqb a a = true.
Proof. now apply str_eqb_eq. Qed.

Lemma str_eqb_neq a b : str_eqb a b = false <-> a <> b.
Proof.
  split.
  - intros H E. apply str_eqb_eq in E. congruence.
  - intros H. destruct (str_eqb a b) eqn:E; auto.
    apply str_eqb_eq in E. contradiction.
Qed.

Lemma str_eqb_sym a b : str_eqb a b = str_eqb b a.
Proof.
  destruct (str_eqb a b) eqn:E.
  - apply str_eqb_eq in E. subst. symmetry. apply str_eqb_refl.
  - symmetry. apply str_eqb_neq. apply str_eqb_neq in E. congruence.
Qed.

(** ** Dictionaries *)

Module PyDictFacts.
Section Facts.
Context {V : Type}.
Import PyDict.
Implicit Types (d : dict V) (k : pystr) (v : V).

Lemma get_set_same d k v : get (set d k v) k = Some v.
Proof.
  induction d as [|[k' v'] r IH]; simpl.
  - now rewrite str_eqb_refl.
  - destruct (str_eqb k' k) eqn:E; simpl; rewrite E; auto.
Qed.

Lemma get_set_other d k k' v : k <> k' -> get (set d k v) k' = get d k'.
Proof.
  intros Hne. induction d as [|[k0 v0] r IH]; simpl.
  - apply str_eqb_neq in Hne. now rewrite Hne.
  - destruct (str_eqb k0 k) eqn:E; simpl.
    + apply str_eqb_eq in E. subst k0.
      apply str_eqb_neq in Hne. now rewrite Hne.
    + destruct (str_eqb k0 k'); auto.
Qed.

Lemma get_del_other d k k' : k <> k' -> get (del d k) k' = get d k'.
Proof.
  intros Hne. induction d as [|[k0 v0] r IH]; simpl; auto.
  destruct (str_eqb k0 k) eqn:E; simpl.
  - apply str_eqb_eq in E. subst k0.
    apply str_eqb_neq in Hne. now rewrite Hne.
  - destruct (str_eqb k0 k'); auto.
Qed.

Lemma get_In d k v : get d k = Some v -> In (k, v) d.
Proof.
  induction d as [|[k0 v0] r IH]; simpl; try discriminate.
  destruct (str_eqb k0 k) eqn:E.
  - apply str_eqb_eq in E. intros [= ->]. subst. now left.
  - intros H. right. auto.
Qed.

Lemma In_set d k v k' v' :
  In (k', v') (set d k v) -> (k' = k /\ v' = v) \/ In (k', v') d.
Proof.
  induction d as [|[k0 v0] r IH]; simpl.
  - intros [[= <- <-]|[]]. now left.
  - destruct (str_eqb k0 k) eqn:E; simpl.
    + apply str_eqb_eq in E. subst k0.
      intros [[= <- <-]|H]; [now left | right; now right].
    + intros [H|H]; [right; now left|].
      destruct (IH H) as [?|?]; [now left | right; now right].
Qed.

Lemma In_del d k k' v' : In (k', v') (del d k) -> In (k', v') d.
Proof.
  induction d as [|[k0 v0] r IH]; simpl; auto.
  destruct (str_eqb k0 k); simpl.
  - intros H. now right.
  - intros [H|H]; [now left | right; auto].
Qed.

Lemma length_set d k v : (length (set d k v) <= S (length d))%nat.
Proof.
  induction d as [|[k0 v0] r IH]; simpl; auto.
  destruct (str_eqb k0 k); simpl; lia.
Qed.

Lemma length_del d k : (length (del d k) <= length d)%nat.
Proof.
  induction d as [|[k0 v0] r IH]; simpl; auto.
  destruct (str_eqb k0 k); simpl; lia.
Qed.

(** Keys stay distinct. *)
Lemma set_keys_In d k v x : In x (keys (set d k v)) -> x = k \/ In x (keys d).
Proof.
  unfold keys. induction d as [|[k0 v0] r IH]; simpl.
  - intros [<-|[]]. now left.
  - destruct (str_eqb k0 k) eqn:E; simpl.
    + intros [<-|H]; right; auto.
    + intros [<-|H]; [right; now left|].
      destruct (IH H); [now left | right; now right].
Qed.

Lemma NoDup_set d k v : NoDup (keys d) -> NoDup (keys (set d k v)).
Proof.
  unfold keys. induction d as [|[k0 v0] r IH]; simpl; intros H.
  - constructor; [intros [] | constructor].
  - inversion H as [|? ? Hn Hr]; subst.
    destruct (str_eqb k0 k) eqn:E; simpl.
    + now constructor.
    + constructor; auto. intros Hin.
      apply (set_keys_In r k v) in Hin as [->|Hin]; auto.
      rewrite str_eqb_refl in E. discriminate.
Qed.

Lemma del_keys_In d k x : In x (keys (del d k)) -> In x (keys d).
Proof.
  unfold keys. induction d as [|[k0 v0] r IH]; simpl; auto.
  destruct (str_eqb k0 k); simpl.
  - intros H. now right.
  - intros [<-|H]; [now left | right; auto].
Qed.

Lemma NoDup_del d k : NoDup (keys d) -> NoDup (keys (del d k)).
Proof.
  unfold keys. induction d as [|[k0 v0] r IH]; simpl; intros H; auto.
  inversion H as [|? ? Hn Hr]; subst.
  destruct (str_eqb k0 k); simpl; auto.
  constructor; auto. intros Hin. apply Hn. now apply (del_keys_In r k).
Qed.

End Facts.
End PyDictFacts.

(** ** The matcher decides the language of a pattern *)

Module RegexFacts.
Import Regex.

(** Inversion principles. *)
Lemma in_cat_inv r1 r2 s :
  in_lang (Cat r1 r2) s ->
  exists s1 s2, s = s1 ++ s2 /\ in_lang r1 s1 /\ in_lang r2 s2.
Proof. intros H. inversion H; subst. eauto. Qed.

Lemma in_chr_inv p s : in_lang (Chr p) s -> exists c, s = [c] /\ p c = true.
Proof. intros H. inversion H; subst. eauto. Qed.

Lemma in_eps_inv s : in_lang Eps s -> s = [].
Proof. intros H. now inversion H. Qed.

Lemma in_alt_inv r1 r2 s : in_lang (Alt r1 r2) s -> in_lang r1 s \/ in_lang r2 s.
Proof. intros H. inversion H; subst; auto. Qed.

Lemma nullable_spec r : nullable r = true <-> in_lang r [].
Proof.
  induction r as [| |p|r1 IH1 r2 IH2|r1 IH1 r2 IH2|r IH]; simpl.
  - split; [discriminate | intros H; inversion H].
  - split; [constructor | reflexivity].
  - split; [discriminate | intros H; inversion H].
  - rewrite andb_true_iff, IH1, IH2. split.
    + intros [H1 H2]. change (@nil char) with (@nil char ++ []).
      now constructor.
    + intros H. inversion H as [| |? ? s1 s2 H1 H2 E1 E2| | | |]; subst.
      apply app_eq_nil in E2 as [-> ->]. now split.
  - rewrite orb_true_iff, IH1, IH2. split.
    + intros [H|H]; [now apply in_alt_l | now apply in_alt_r].
    + intros H. inversion H; subst; [now left | now right].
  - split; [constructor | reflexivity].
Qed.

Lemma star_cons_inv r c s :
  in_lang (Star r) (c :: s) ->
  exists s1 s2, s = s1 ++ s2 /\ in_lang r (c :: s1) /\ in_lang (Star r) s2.
Proof.
  intros H. remember (Star r) as r' eqn:Er. remember (c :: s) as w eqn:Ew.
  revert c s Ew.
  induction H as [| | | | | |r0 s1 s2 H1 _ H2 IH2]; intros a w' Ew;
    try discriminate.
  injection Er as ->.
  destruct s1 as [|c1 s1]; simpl in Ew.
  - now apply IH2.
  - injection Ew as -> <-. now exists s1, s2.
Qed.

Lemma deriv_spec c r : forall s, in_lang (deriv c r) s <-> in_lang r (c :: s).
Proof.
  induction r as [| |p|r1 IH1 r2 IH2|r1 IH1 r2 IH2|r IH]; simpl; intros s.
  - split; intros H; inversion H.
  - split; intros H; inversion H.
  - destruct (p c) eqn:Ep; split; intros H; inversion H; subst.
    + now constructor.
    + constructor.
    + congruence.
  - assert (Hcat : in_lang (Cat (deriv c r1) r2) s ->
                   in_lang (Cat r1 r2) (c :: s)).
    { intros H. inversion H as [| |? ? s1 s2 H1 H2| | | |]; subst.
      apply IH1 in H1. change (c :: s1 ++ s2) with ((c :: s1) ++ s2).
      now constructor. }
    assert (Hinv : in_lang (Cat r1 r2) (c :: s) ->
                   in_lang (Cat (deriv c r1) r2) s \/
                   (in_lang r1 [] /\ in_lang (deriv c r2) s)).
    { intros H. inversion H as [| |? ? s1 s2 H1 H2 E1 E2| | | |]; subst.
      destruct s1 as [|c1 s1]; simpl in E2.
      - subst s2. right. split; auto. now apply IH2.
      - injection E2 as -> <-. left. constructor; auto. now apply IH1. }
    destruct (nullable r1) eqn:En; split; intros H.
    + apply in_alt_inv in H as [H|H]; auto.
      apply IH2 in H. apply nullable_spec in En.
      change (c :: s) with ([] ++ c :: s). now constructor.
    + destruct (Hinv H) as [H'|[_ H']];
        [now apply in_alt_l | now apply in_alt_r].
    + auto.
    + destruct (Hinv H) as [H'|[H' _]]; auto.
      apply nullable_spec in H'. congruence.
  - split; intros H; apply in_alt_inv in H as [H|H].
    + apply in_alt_l. now apply IH1.
    + apply in_alt_r. now apply IH2.
    + apply in_alt_l. now apply IH1.
    + apply in_alt_r. now apply IH2.
  - split; intros H.
    + inversion H as [| |? ? s1 s2 H1 H2| | | |]; subst.
      apply IH in H1. change (c :: s1 ++ s2) with ((c :: s1) ++ s2).
      now constructor.
    + apply star_cons_inv in H as (s1 & s2 & -> & H1 & H2).
      constructor; auto. now apply IH.
Qed.

Theorem matches_spec r s : matches r s = true <-> in_lang r s.
Proof.
  revert r. induction s as [|c s IH]; intros r; simpl.
  - apply nullable_spec.
  - rewrite IH. apply deriv_spec.
Qed.

Lemma in_star_chr p s : in_lang (Star (Chr p)) s <-> forallb p s = true.
Proof.
  split.
  - intros H. remember (Star (Chr p)) as r eqn:Er.
    induction H as [| | | | | |r0 s1 s2 H1 _ H2 IH2]; try discriminate; auto.
    injection Er as ->. apply in_chr_inv in H1 as (c & -> & Hc).
    simpl. rewrite Hc. simpl. now apply IH2.
  - induction s as [|c s IH]; simpl; intros H.
    + constructor.
    + apply andb_true_iff in H as [Hc Hs].
      change (c :: s) with ([c] ++ s). constructor; auto. now constructor.
Qed.

Lemma in_rep_chr p n s :
  in_lang (rep n (Chr p)) s <-> (length s = n /\ forallb p s = true).
Proof.
  revert s. induction n as [|n IH]; simpl; intros s.
  - split.
    + intros H. apply in_eps_inv in H. now subst.
    + intros [H _]. destruct s; [constructor | discriminate].
  - split.
    + intros H. apply in_cat_inv in H as (s1 & s2 & -> & H1 & H2).
      apply in_chr_inv in H1 as (c & -> & Hc). apply IH in H2 as [Hl Hp].
      simpl. rewrite Hc, Hp, Hl. auto.
    + intros [Hl Hp]. destruct s as [|c s]; [discriminate|].
      simpl in *. apply andb_true_iff in Hp as [Hc Hp].
      change (c :: s) with ([c] ++ s). constructor.
      * now constructor.
      * apply IH. split; [lia | auto].
Qed.

End RegexFacts.

(** ** Rounding to the context *)

Module DecFacts.
Import Dec.
Open Scope Z_scope.

Lemma ndigits_aux_le fuel : forall n k,
  0 <= n < 10 ^ k -> 1 <= k -> ndigits_aux fuel n <= k.
Proof.
  induction fuel as [|f IH]; intros n k Hn Hk; cbn [ndigits_aux]; [lia|].
  destruct (n <? 10) eqn:E; [lia|].
  apply Z.ltb_ge in E.
  assert (2 <= k).
  { destruct (Z.eq_dec k 1) as [->|]; [|lia]. change (10 ^ 1) with 10 in Hn. lia. }
  assert (Hp : 10 ^ k = 10 * 10 ^ (k - 1)).
  { rewrite <- Z.pow_succ_r by lia. f_equal. lia. }
  assert (Hq : 0 <= n / 10 < 10 ^ (k - 1)).
  { split; [apply Z.div_pos; lia|].
    apply Z.div_lt_upper_bound; lia. }
  pose proof (IH (n / 10) (k - 1) Hq ltac:(lia)). lia.
Qed.

Lemma ndigits_le n k : Z.of_N n < 10 ^ k -> 1 <= k -> ndigits n <= k.
Proof. intros H Hk. apply ndigits_aux_le; lia. Qed.

Lemma ndigits_pos n : 1 <= ndigits n.
Proof.
  unfold ndigits. generalize (Z.of_N n).
  induction (N.to_nat (N.size n)) as [|f IH]; intros z; cbn [ndigits_aux];
    [lia|].
  destruct (z <? 10); [lia|]. specialize (IH (z / 10)). lia.
Qed.

(** A non-zero result that fits the precision, with a moderate exponent,
    is returned as it is. *)
Lemma round_exact d :
  coefficient d <> 0%N ->
  Z.of_N (coefficient d) < 10 ^ prec ->
  -1000 <= exponent d <= 1000 ->
  round_to_context d = Ok d.
Proof.
  intros Hnz Hlt He. unfold round_to_context.
  destruct (Z.of_N (coefficient d) =? 0) eqn:E0.
  { apply Z.eqb_eq in E0. lia. }
  pose proof (ndigits_le (coefficient d) Hlt ltac:(unfold prec; lia)) as Hle.
  pose proof (ndigits_pos (coefficient d)) as Hpos.
  unfold Etop, Etiny, Emax, Emin, prec in *.
  destruct (_ >? _) eqn:E1.
  { apply Z.gtb_lt in E1. lia. }
  destruct (_ <? _) eqn:E2; auto.
  apply Z.ltb_lt in E2. lia.
Qed.

(** A zero result keeps its sign; its exponent is clamped. *)
Lemma round_zero s e :
  round_to_context (mkDecimal s 0 e) = Ok (mkDecimal s 0 (Z.min (Z.max e Etiny) Emax)).
Proof. reflexivity. Qed.

End DecFacts.

(** ** The store *)

Module HeapFacts.
Section Facts.
Context {V : Type}.
Import Heap.
Implicit Types (h : heap V) (l : loc) (d : dict V).

Lemma length_write h l d : length (write h l d) = length h.
Proof.
  revert l. induction h as [|x r IH]; intros [|l]; simpl; auto.
Qed.

Lemma read_write_same h l d : allocated h l -> read (write h l d) l = d.
Proof.
  unfold allocated, read. revert l.
  induction h as [|x r IH]; intros [|l]; simpl; intros H; try lia; auto.
  apply IH. lia.
Qed.

Lemma read_write_other h l l' d : l <> l' -> read (write h l d) l' = read h l'.
Proof.
  unfold read. revert l l'.
  induction h as [|x r IH]; intros [|l] [|l']; simpl; intros H;
    try congruence; auto.
Qed.

Lemma write_write h l d d' : write (write h l d) l d' = write h l d'.
Proof.
  revert l. induction h as [|x r IH]; intros [|l]; simpl; auto.
  now rewrite IH.
Qed.

Lemma write_comm h l l' d d' :
  l <> l' -> write (write h l d) l' d' = write (write h l' d') l d.
Proof.
  revert l l'. induction h as [|x r IH]; intros [|l] [|l']; simpl; intros H;
    try congruence; auto.
  rewrite IH; auto.
Qed.

Lemma write_app h l d d0 :
  allocated h l -> write (h ++ [d0]) l d = write h l d ++ [d0].
Proof.
  unfold allocated. revert l.
  induction h as [|x r IH]; intros [|l]; simpl; intros H; try lia; auto.
  rewrite IH; auto. lia.
Qed.

Lemma read_app_old h l d0 : allocated h l -> read (h ++ [d0]) l = read h l.
Proof. unfold allocated, read. intros H. now rewrite app_nth1. Qed.

Lemma read_app_new h d0 : read (h ++ [d0]) (length h) = d0.
Proof. unfold read. rewrite app_nth2, Nat.sub_diag; auto. Qed.

End Facts.
End HeapFacts.

(** ** Validators *)

Module ValidatorFacts.
Section Facts.
Context {I : Interpreter}.
Import Regex RegexFacts Types Validators Spec.

(** Comparisons of code points, one case at a time. *)
Ltac char_cases :=
  repeat (match goal with
          | |- context [(?a <=? ?b)%N] => destruct (N.leb_spec a b)
          | |- context [(?a <? ?b)%N] => destruct (N.ltb_spec a b)
          | |- context [(?a =? ?b)%N] => destruct (N.eqb_spec a b)
          | H : context [(?a <=? ?b)%N] |- _ => destruct (N.leb_spec a b)
          | H : context [(?a <? ?b)%N] |- _ => destruct (N.ltb_spec a b)
          | H : context [(?a =? ?b)%N] |- _ => destruct (N.eqb_spec a b)
          end; simpl in *; try lia; try congruence; auto).

(** *** Item names *)

Lemma in_lang_plus_chr p s :
  in_lang (plus (Chr p)) s <-> s <> [] /\ forallb p s = true.
Proof.
  unfold plus. split.
  - intros H. apply in_cat_inv in H as (s1 & s2 & -> & H1 & H2).
    apply in_chr_inv in H1 as (c & -> & Hc). apply in_star_chr in H2.
    simpl. rewrite Hc, H2. split; [discriminate | reflexivity].
  - intros [Hne H]. destruct s as [|c s]; [contradiction|].
    simpl in H. apply andb_true_iff in H as [Hc Hs].
    change (c :: s) with ([c] ++ s). constructor.
    + now constructor.
    + now apply in_star_chr.
Qed.

Lemma forallb_snoc {A} (p : A -> bool) s c :
  forallb p (s ++ [c]) = forallb p s && p c.
Proof. rewrite forallb_app. simpl. now rewrite andb_true_r. Qed.

Lemma newline_in_item_name_class : item_name_class 10%N = true.
Proof. reflexivity. Qed.

(** [$] adds nothing to the item-name pattern: the newline it lets
    through is in the character class already. *)
Lemma re_match_item_name s :
  re_match ITEM_NAME_PATTERN s = true <->
  s <> [] /\ forallb item_name_class s = true.
Proof.
  unfold re_match, ITEM_NAME_PATTERN. rewrite matches_spec. split.
  - intros H. apply in_cat_inv in H as (s1 & s2 & -> & H1 & H2).
    apply in_lang_plus_chr in H1 as [Hne H1].
    apply in_alt_inv in H2 as [H2|H2].
    + apply in_eps_inv in H2. subst. rewrite app_nil_r. auto.
    + apply in_chr_inv in H2 as (c & -> & Hc).
      unfold is_newline in Hc. apply N.eqb_eq in Hc. subst c.
      split; [destruct s1; discriminate|].
      rewrite forallb_snoc, H1. apply newline_in_item_name_class.
  - intros [Hne H]. rewrite <- (app_nil_r s). constructor.
    + now apply in_lang_plus_chr.
    + apply in_alt_l. constructor.
Qed.

Lemma allowed_char_passes c :
  name_char_or_tab_newline c = true ->
  (0 =? c)%N = false /\ control_character c = false /\ item_name_class c = true.
Proof.
  unfold name_char_or_tab_newline, name_char, control_character,
    item_name_class, re_space, ascii_whitespace, is_lower, is_upper,
    is_ascii_digit, is_space, is_hyphen, in_range.
  intros H. repeat split; char_cases.
Qed.

Lemma passing_char_allowed c :
  control_character c = false ->
  negb ((128 <=? c)%N && unicode_space c) = true ->
  item_name_class c = true ->
  name_char_or_tab_newline c = true.
Proof.
  unfold name_char_or_tab_newline, name_char, control_character,
    item_name_class, re_space, ascii_whitespace, is_lower, is_upper,
    is_ascii_digit, is_space, is_hyphen, in_range.
  intros H1 H2 H3. destruct (unicode_space c); char_cases.
Qed.

Lemma allowed_string_passes s :
  forallb name_char_or_tab_newline s = true ->
  _contains_null_bytes s = false /\
  _contains_control_characters s = false /\
  forallb item_name_class s = true.
Proof.
  unfold _contains_null_bytes, _contains_control_characters.
  induction s as [|c s IH]; cbn [existsb forallb]; auto.
  intros H. apply andb_true_iff in H as [Hc Hs].
  destruct (IH Hs) as (-> & -> & ->).
  destruct (allowed_char_passes c Hc) as (-> & Hctl & ->).
  unfold control_character in Hctl. now rewrite Hctl.
Qed.

Lemma passing_string_allowed s :
  _contains_control_characters s = false ->
  forallb (fun c => negb ((128 <=? c)%N && unicode_space c)) s = true ->
  forallb item_name_class s = true ->
  forallb name_char_or_tab_newline s = true.
Proof.
  unfold _contains_control_characters.
  induction s as [|c s IH]; cbn [existsb forallb]; auto.
  intros H1 H2 H3.
  apply orb_false_iff in H1 as [Hc1 Hs1].
  apply andb_true_iff in H2 as [Hc2 Hs2].
  apply andb_true_iff in H3 as [Hc3 Hs3].
  rewrite IH by auto. rewrite passing_char_allowed; auto.
Qed.

Lemma validate_item_name_raises v e :
  validate_item_name v = Raise e -> is_ItemNameValidationError e = true.
Proof.
  unfold validate_item_name. destruct v; try (now intros [= <-]).
  repeat match goal with
         | |- context [if ?b then _ else _] => destruct b
         end; try (now intros [= <-]); discriminate.
Qed.

Lemma validate_item_name_returns_input v s :
  validate_item_name v = Ok s -> v = VStr s.
Proof.
  unfold validate_item_name. destruct v; try discriminate.
  repeat match goal with
         | |- context [if ?b then _ else _] => destruct b
         end; try discriminate. now intros [= <-].
Qed.

Lemma length_bounds (s : pystr) :
  ((1 <=? length s)%nat && (length s <=? 100)%nat = true) <->
  ((length s <? MIN_ITEM_NAME_LENGTH)%nat = false /\
   (MAX_ITEM_NAME_LENGTH <? length s)%nat = false).
Proof.
  unfold MIN_ITEM_NAME_LENGTH, MAX_ITEM_NAME_LENGTH.
  rewrite andb_true_iff, !Nat.leb_le, !Nat.ltb_ge. lia.
Qed.

(** What the code accepts: on an input without whitespace from beyond
    ASCII, [validate_item_name] returns its input exactly when that is a
    string of 1 to 100 characters, each an ASCII letter, a digit, a space, a
    hyphen, a tab or a newline; every other such input raises
    [ItemNameValidationError]. *)
Theorem validate_item_name_accepts v :
  no_wide_space v ->
  (forall s, validate_item_name v = Ok s <-> v = VStr s /\ item_name_ok s = true)
  /\ (forall e, validate_item_name v = Raise e ->
                exists f, e = ItemNameValidationError f).
Proof.
  intros Hw. split.
  - intros s. split.
    + intros H. pose proof (validate_item_name_returns_input _ H) as ->.
      split; [reflexivity|].
      unfold validate_item_name in H. simpl in Hw.
      destruct (_contains_null_bytes s) eqn:E0; [discriminate|].
      destruct (_contains_control_characters s) eqn:E1; [discriminate|].
      destruct (length s <? MIN_ITEM_NAME_LENGTH)%nat eqn:E2; [discriminate|].
      destruct (MAX_ITEM_NAME_LENGTH <? length s)%nat eqn:E3; [discriminate|].
      destruct (re_match _ITEM_NAME_REGEX s) eqn:E4; [|discriminate].
      apply re_match_item_name in E4 as [_ E4].
      unfold item_name_ok. rewrite (proj2 (length_bounds s)) by auto.
      now apply passing_string_allowed.
    + intros [-> H]. unfold item_name_ok in H.
      apply andb_true_iff in H as [Hlen Hall].
      apply length_bounds in Hlen as [L1 L2].
      destruct (allowed_string_passes s Hall) as (E0 & E1 & E2).
      unfold validate_item_name. rewrite E0, E1, L1, L2.
      assert (E4 : re_match _ITEM_NAME_REGEX s = true).
      { apply re_match_item_name. split; auto.
        intros ->. discriminate L1. }
      now rewrite E4.
  - intros e H. apply validate_item_name_raises in H.
    destruct e; try discriminate. eauto.
Qed.

(** C5: the code breaks the claim, and its own docstring and error
    message ("alphanumeric, spaces, and hyphens"), on a name that ends in
    a tab: whatever the interpreter, [validate_item_name] returns it, and it
    is not made of letters, digits, spaces and hyphens only. *)
Lemma item_name_with_tab_accepted :
  (forall J : Interpreter,
     @validate_item_name J (VStr (py "Widget" ++ [9%N]))
     = Ok (py "Widget" ++ [9%N]))
  /\ spec_item_name (py "Widget" ++ [9%N]) = false.
Proof. split; [intros J|]; reflexivity. Qed.

(** The same for a newline inside the name. *)
Lemma item_name_with_newline_accepted :
  validate_item_name (VStr (py "Blue" ++ [10%N] ++ py "Widget"))
  = Ok (py "Blue" ++ [10%N] ++ py "Widget").
Proof. reflexivity. Qed.

(** The other ASCII whitespace is refused as control characters, before
    the pattern is tried. *)
Lemma item_name_with_carriage_return_refused :
  validate_item_name (VStr (py "Widget" ++ [13%N; 10%N]))
  = Raise (ItemNameValidationError NameControlChars).
Proof. reflexivity. Qed.

(** X1: A whitespace character from beyond ASCII passes every check. *)
Lemma item_name_with_wide_space_accepted (c : char) (s1 s2 : pystr) :
  (128 <= c)%N -> unicode_space c = true ->
  item_name_ok (s1 ++ c :: s2) = false /\
  (item_name_ok (s1 ++ 32%N :: s2) = true ->
   validate_item_name (VStr (s1 ++ c :: s2)) = Ok (s1 ++ c :: s2)).
Proof.
  intros Hc Hs.
  assert (Hcls : item_name_class c = true).
  { unfold item_name_class, re_space. destruct (N.ltb_spec c 128); [lia|].
    rewrite Hs. now rewrite !orb_true_r. }
  assert (Hno : name_char_or_tab_newline c = false).
  { unfold name_char_or_tab_newline, name_char, is_lower, is_upper,
      is_ascii_digit, is_space, is_hyphen, in_range. char_cases. }
  split.
  - unfold item_name_ok. rewrite forallb_app. cbn [forallb].
    rewrite Hno. now rewrite andb_false_r, andb_false_r.
  - intros H. unfold item_name_ok in H.
    apply andb_true_iff in H as [Hlen Hall].
    rewrite forallb_app in Hall. cbn [forallb] in Hall.
    apply andb_true_iff in Hall as [H1 H2].
    apply andb_true_iff in H2 as [_ H2].
    destruct (allowed_string_passes s1 H1) as (A0 & A1 & A2).
    destruct (allowed_string_passes s2 H2) as (B0 & B1 & B2).
    apply length_bounds in Hlen as [L1 L2].
    rewrite length_app in L1, L2. cbn [length] in L1, L2.
    unfold validate_item_name, _contains_null_bytes,
      _contains_control_characters in *.
    rewrite !existsb_app, length_app. cbn [existsb length].
    rewrite A0, A1, B0, B1, L1, L2.
    replace (0 =? c)%N with false by (symmetry; apply N.eqb_neq; lia).
    replace (c <? 32)%N with false by (symmetry; apply N.ltb_ge; lia).
    cbn [orb andb].
    assert (E : re_match _ITEM_NAME_REGEX (s1 ++ c :: s2) = true).
    { apply re_match_item_name. split; [destruct s1; discriminate|].
      rewrite forallb_app. cbn [forallb]. now rewrite A2, Hcls, B2. }
    now rewrite E.
Qed.

(** *** Customer identifiers *)

Ltac split_andb H :=
  rewrite ?andb_true_iff in H;
  repeat match goal with E : _ /\ _ |- _ => destruct E end.

Ltac rewrite_trues :=
  repeat match goal with
         | E : true = true |- _ => clear E
         | E : _ = true |- _ => rewrite E; clear E
         end.

Lemma in_lang_customer_id_body u :
  in_lang CUSTOMER_ID_BODY u <-> customer_id_shape re_digit u = true.
Proof.
  unfold CUSTOMER_ID_BODY. split.
  - intros H.
    apply in_cat_inv in H as (u1 & r1 & -> & H1 & H).
    apply in_cat_inv in H as (u2 & r2 & -> & H2 & H).
    apply in_cat_inv in H as (u3 & r3 & -> & H3 & H).
    apply in_cat_inv in H as (u4 & u5 & -> & H4 & H5).
    apply in_rep_chr in H1 as [L1 P1].
    apply in_rep_chr in H2 as [L2 P2].
    apply in_rep_chr in H3 as [L3 P3].
    apply in_chr_inv in H4 as (h & -> & Hh).
    assert (H5' : exists t, u5 = [t] /\ ((t =? 65)%N || (t =? 81)%N) = true).
    { apply in_alt_inv in H5 as [H5|H5];
        apply in_chr_inv in H5 as (t & -> & Ht); exists t; split; auto.
      - apply N.eqb_eq in Ht as <-. reflexivity.
      - apply N.eqb_eq in Ht as <-. reflexivity. }
    destruct H5' as (t & -> & Ht).
    destruct u1 as [|a1 [|a2 [|a3 [|? ?]]]]; try discriminate.
    destruct u2 as [|b1 [|b2 [|b3 [|b4 [|b5 [|? ?]]]]]]; try discriminate.
    destruct u3 as [|c1 [|c2 [|? ?]]]; try discriminate.
    cbn [forallb] in P1, P2, P3. cbn [app customer_id_shape].
    split_andb P1. split_andb P2. split_andb P3.
    rewrite_trues. reflexivity.
  - intros H.
    destruct u as [|l1 [|l2 [|l3 [|d1 [|d2 [|d3 [|d4 [|d5 [|m1 [|m2
                  [|h [|t [|x u]]]]]]]]]]]]]; try discriminate.
    cbn [customer_id_shape] in H. split_andb H.
    change [l1; l2; l3; d1; d2; d3; d4; d5; m1; m2; h; t]
      with ([l1; l2; l3] ++ [d1; d2; d3; d4; d5] ++ [m1; m2] ++ [h] ++ [t]).
    assert (Ht : in_lang (Alt (Chr (N.eqb 65)) (Chr (N.eqb 81))) [t]).
    { match goal with
      | E : (_ || _) = true |- _ =>
          apply orb_true_iff in E as [E|E]; apply N.eqb_eq in E; subst t
      end.
      - apply in_alt_l. now constructor.
      - apply in_alt_r. now constructor. }
    apply in_cat; [|apply in_cat; [|apply in_cat; [|apply in_cat]]]; auto.
    + apply in_rep_chr. cbn [forallb length]. rewrite_trues. auto.
    + apply in_rep_chr. cbn [forallb length]. rewrite_trues. auto.
    + apply in_rep_chr. cbn [forallb length]. rewrite_trues. auto.
    + now constructor.
Qed.

(** What the customer-identifier pattern matches: the twelve characters,
    and the twelve characters followed by one newline. *)
Lemma re_match_customer_id s :
  re_match CUSTOMER_ID_PATTERN s = true <->
  exists u, customer_id_shape re_digit u = true /\ (s = u \/ s = u ++ [10%N]).
Proof.
  unfold re_match, CUSTOMER_ID_PATTERN. rewrite matches_spec. split.
  - intros H. apply in_cat_inv in H as (u & r & -> & Hu & Hr).
    apply in_lang_customer_id_body in Hu. exists u. split; auto.
    apply in_alt_inv in Hr as [Hr|Hr].
    + apply in_eps_inv in Hr. subst. left. apply app_nil_r.
    + apply in_chr_inv in Hr as (c & -> & Hc).
      apply N.eqb_eq in Hc. subst. now right.
  - intros (u & Hu & [->| ->]); apply in_lang_customer_id_body in Hu.
    + rewrite <- (app_nil_r u). constructor; auto. apply in_alt_l. constructor.
    + constructor; auto. apply in_alt_r. now constructor.
Qed.

Lemma upper_printable c : is_upper c = true -> (32 <=? c)%N = true.
Proof. unfold is_upper, in_range. intros H. char_cases. Qed.

Lemma re_digit_printable c : re_digit c = true -> (32 <=? c)%N = true.
Proof.
  unfold re_digit, is_ascii_digit, in_range. intros H.
  destruct (unicode_decimal c); char_cases.
Qed.

Lemma hyphen_printable c : is_hyphen c = true -> (32 <=? c)%N = true.
Proof. unfold is_hyphen. intros H. char_cases. Qed.

Lemma suffix_printable c :
  ((c =? 65)%N || (c =? 81)%N) = true -> (32 <=? c)%N = true.
Proof. intros H. char_cases. Qed.

Lemma customer_id_shape_printable u :
  customer_id_shape re_digit u = true -> forallb (N.leb 32) u = true.
Proof.
  intros H.
  destruct u as [|l1 [|l2 [|l3 [|d1 [|d2 [|d3 [|d4 [|d5 [|m1 [|m2
                [|h [|t [|x u]]]]]]]]]]]]]; try discriminate.
  cbn [customer_id_shape] in H. split_andb H. cbn [forallb].
  repeat match goal with
         | E : is_upper _ = true |- _ => apply upper_printable in E
         | E : re_digit _ = true |- _ => apply re_digit_printable in E
         | E : is_hyphen _ = true |- _ => apply hyphen_printable in E
         | E : (_ || _) = true |- _ => apply suffix_printable in E
         end.
  rewrite_trues. reflexivity.
Qed.

Lemma printable_passes s :
  forallb (N.leb 32) s = true ->
  _contains_null_bytes s = false /\ _contains_control_characters s = false.
Proof.
  unfold _contains_null_bytes, _contains_control_characters.
  induction s as [|c s IH]; cbn [forallb existsb]; auto.
  intros H. apply andb_true_iff in H as [Hc Hs].
  destruct (IH Hs) as [-> ->]. split; char_cases.
Qed.

Lemma newline_passes s :
  _contains_null_bytes s = false -> _contains_control_characters s = false ->
  _contains_null_bytes (s ++ [10%N]) = false /\
  _contains_control_characters (s ++ [10%N]) = false.
Proof.
  unfold _contains_null_bytes, _contains_control_characters.
  intros H1 H2. rewrite !existsb_app, H1, H2. split; reflexivity.
Qed.

Lemma validate_customer_id_returns_input v s :
  validate_customer_id v = Ok s -> v = VStr s.
Proof.
  unfold validate_customer_id. destruct v; try discriminate.
  repeat match goal with
         | |- context [if ?b then _ else _] => destruct b
         end; try discriminate. now intros [= <-].
Qed.

Lemma validate_customer_id_raises v e :
  validate_customer_id v = Raise e -> exists f, e = CustomerIDValidationError f.
Proof.
  unfold validate_customer_id. destruct v; try (intros [= <-]; eauto).
  repeat match goal with
         | |- context [if ?b then _ else _] => destruct b
         end; try (intros [= <-]; eauto); discriminate.
Qed.

(** What [validate_customer_id] accepts: a string of the twelve characters
    of the format, in which [\d] also matches the decimal digits of other
    scripts, possibly followed by one newline. *)
Theorem validate_customer_id_accepts v s :
  validate_customer_id v = Ok s <->
  v = VStr s /\
  exists u, customer_id_shape re_digit u = true /\ (s = u \/ s = u ++ [10%N]).
Proof.
  split.
  - intros H. pose proof (validate_customer_id_returns_input _ H) as ->.
    split; [reflexivity|]. unfold validate_customer_id in H.
    destruct (_contains_null_bytes s); [discriminate|].
    destruct (_contains_control_characters s); [discriminate|].
    destruct (re_match _CUSTOMER_ID_REGEX s) eqn:E; [|discriminate].
    now apply re_match_customer_id in E.
  - intros [-> (u & Hu & Hs)].
    assert (E : re_match _CUSTOMER_ID_REGEX s = true).
    { apply re_match_customer_id. eauto. }
    pose proof (customer_id_shape_printable u Hu) as Hp.
    apply printable_passes in Hp as [P1 P2].
    unfold validate_customer_id.
    destruct Hs as [->| ->].
    + now rewrite P1, P2, E.
    + destruct (newline_passes u P1 P2) as [-> ->]. now rewrite E.
Qed.

(** The order of the checks: type, null byte, control character, format. *)
Lemma validate_customer_id_order v :
  validate_customer_id v =
  match v with
  | VStr s =>
      if _contains_null_bytes s then
        Raise (CustomerIDValidationError CidNullBytes)
      else if _contains_control_characters s then
        Raise (CustomerIDValidationError CidControlChars)
      else if re_match CUSTOMER_ID_PATTERN s then Ok s
      else Raise (CustomerIDValidationError CidFormat)
  | _ => Raise (CustomerIDValidationError CidNotString)
  end.
Proof.
  destruct v; try reflexivity. unfold validate_customer_id.
  destruct (_contains_null_bytes s); auto.
  destruct (_contains_control_characters s); auto.
  unfold _CUSTOMER_ID_REGEX. now destruct (re_match CUSTOMER_ID_PATTERN s).
Qed.

(** C6 at [ABC12345XY-A] followed by a newline: the code returns the
    thirteen characters, which are not of the format. *)
Theorem customer_id_trailing_newline_accepted :
  validate_customer_id (VStr (py "ABC12345XY-A" ++ [10%N]))
  = Ok (py "ABC12345XY-A" ++ [10%N])
  /\ spec_customer_id (py "ABC12345XY-A" ++ [10%N]) = false.
Proof. split; reflexivity. Qed.

(** X2: A decimal digit of another script is accepted where the format asks
    for a digit. *)
Lemma customer_id_unicode_digit_accepted d :
  (128 <= d)%N -> unicode_decimal d = true ->
  validate_customer_id (VStr (py "ABC" ++ [d; d; d; d; d] ++ py "XY-A"))
  = Ok (py "ABC" ++ [d; d; d; d; d] ++ py "XY-A")
  /\ spec_customer_id (py "ABC" ++ [d; d; d; d; d] ++ py "XY-A") = false.
Proof.
  intros Hd Hu. split.
  - apply validate_customer_id_accepts. split; [reflexivity|].
    eexists. split; [|left; reflexivity].
    cbn. unfold re_digit. destruct (N.ltb_spec d 128); [lia|].
    now rewrite Hu.
  - cbn. unfold is_ascii_digit, in_range.
    destruct (N.leb_spec d 57); [lia|]. now rewrite andb_false_r.
Qed.

Example validate_customer_id_examples :
  validate_customer_id (VStr (py "ABC12345XY-A")) = Ok (py "ABC12345XY-A") /\
  validate_customer_id (VStr (py "ZZZ99999ZZ-Q")) = Ok (py "ZZZ99999ZZ-Q") /\
  validate_customer_id (VStr (py "ABC12345XY-AQ"))
    = Raise (CustomerIDValidationError CidFormat) /\
  validate_customer_id (VStr (py " ABC12345XY-A"))
    = Raise (CustomerIDValidationError CidFormat) /\
  validate_customer_id (VStr (py "ABC12345XY-A" ++ [0%N]))
    = Raise (CustomerIDValidationError CidNullBytes) /\
  validate_customer_id (VStr (py "ABC12345XY-A" ++ [1%N]))
    = Raise (CustomerIDValidationError CidControlChars) /\
  validate_customer_id (VInt 12345)
    = Raise (CustomerIDValidationError CidNotString).
Proof. repeat split; reflexivity. Qed.

(** *** Quantities *)

Lemma validate_quantity_accepts v n :
  validate_quantity v = Ok n <-> v = VInt n /\ (1 <= n <= 10000)%Z.
Proof.
  unfold validate_quantity, MIN_QUANTITY, MAX_QUANTITY. split.
  - destruct v; try discriminate.
    destruct (Z.ltb_spec n0 1); [discriminate|].
    destruct (n0 >? 10000)%Z eqn:E; [discriminate|].
    intros [= ->]. split; auto.
    rewrite Z.gtb_ltb in E. apply Z.ltb_ge in E. lia.
  - intros [-> H].
    destruct (Z.ltb_spec n 1); [lia|].
    destruct (n >? 10000)%Z eqn:E; auto.
    rewrite Z.gtb_ltb in E. apply Z.ltb_lt in E. lia.
Qed.

Lemma validate_quantity_above_max n :
  (10000 < n)%Z ->
  validate_quantity (VInt n) = Raise (QuantityValidationError QtyAboveMax).
Proof.
  intros H. unfold validate_quantity, MIN_QUANTITY, MAX_QUANTITY.
  destruct (Z.ltb_spec n 1); [lia|].
  destruct (n >? 10000)%Z eqn:E; auto.
  rewrite Z.gtb_ltb in E. apply Z.ltb_ge in E. lia.
Qed.

(** *** Prices *)

Lemma compare_MIN_PRICE d :
  (-2 <= exponent d)%Z -> Dec.compare d MIN_PRICE = (cents d ?= 0)%Z.
Proof.
  intros H. unfold Dec.compare, cents, MIN_PRICE. cbn [exponent].
  rewrite Z.min_r by lia. reflexivity.
Qed.

Lemma compare_MAX_PRICE d :
  (-2 <= exponent d)%Z -> Dec.compare d MAX_PRICE = (cents d ?= 99999999)%Z.
Proof.
  intros H. unfold Dec.compare, cents, MAX_PRICE. cbn [exponent].
  rewrite Z.min_r by lia. reflexivity.
Qed.

Lemma validate_price_unfold price :
  validate_price price =
  match price with
  | VDecimal d => check_price d
  | _ => match Decimal_of_str price with
         | Ok d => check_price d
         | Raise e => if conversion_error e
                      then Raise (PriceValidationError PriceNotDecimal)
                      else Raise e
         end
  end.
Proof.
  unfold validate_price, check_price.
  destruct price; try reflexivity;
    destruct (Decimal_of_str _) as [d|e]; try reflexivity;
    cbn [rbind]; destruct (conversion_error e); reflexivity.
Qed.

Lemma check_price_ok p q : check_price p = Ok q <-> q = p /\ valid_price p.
Proof.
  unfold check_price, valid_price, PRICE_DECIMAL_PLACES. split.
  - destruct p as [d|neg|neg sig pl]; cbn [Dec.lt Dec.gt rbind].
    + destruct (Dec.compare d MIN_PRICE) eqn:E1; try discriminate;
        destruct (Dec.compare d MAX_PRICE) eqn:E2; try discriminate;
        destruct (exponent d <? _)%Z eqn:E3; try discriminate;
        apply Z.ltb_ge in E3;
        intros [= <-]; (split; [reflexivity|]); exists d;
        rewrite compare_MIN_PRICE in E1 by lia;
        rewrite compare_MAX_PRICE in E2 by lia;
        (split; [reflexivity|]); (split; [lia|]);
        try (apply -> Z.compare_eq_iff in E1);
        try (apply -> Z.compare_gt_iff in E1);
        try (apply -> Z.compare_eq_iff in E2);
        try (apply -> Z.compare_lt_iff in E2);
        lia.
    + destruct neg; discriminate.
    + discriminate.
  - intros [-> (d & -> & He & Hc)]. cbn [Dec.lt Dec.gt rbind].
    rewrite compare_MIN_PRICE, compare_MAX_PRICE by lia.
    destruct (exponent d <? _)%Z eqn:E3; [apply Z.ltb_lt in E3; lia|].
    destruct (Z.compare_spec (cents d) 0); try lia;
      destruct (Z.compare_spec (cents d) 99999999); try lia; reflexivity.
Qed.

Lemma check_price_raises p e :
  check_price p = Raise e ->
  (exists f, e = PriceValidationError f) \/
  (e = InvalidOperation /\ exists neg sig pl, p = NaN neg sig pl).
Proof.
  unfold check_price. destruct p as [d|neg|neg sig pl]; cbn [Dec.lt Dec.gt rbind].
  - destruct (Dec.compare d MIN_PRICE); destruct (Dec.compare d MAX_PRICE);
      try (intros [= <-]; eauto);
      destruct (exponent d <? _)%Z; try discriminate; intros [= <-]; eauto.
  - destruct neg; cbn; intros [= <-]; eauto.
  - intros [= <-]. right. eauto 6.
Qed.

(** What [validate_price] returns: the decimal the input is or converts
    to, when that is a price between 0.00 and 999999.99 with an exponent of
    at least -2. *)
Theorem validate_price_accepts price p :
  validate_price price = Ok p <-> converted price = Some p /\ valid_price p.
Proof.
  rewrite validate_price_unfold. unfold converted.
  destruct price; try (destruct (Decimal_of_str _) as [d|e]);
    rewrite ?check_price_ok;
    try (destruct (conversion_error e));
    split; try (intros [[= <-] H]; auto); try (intros [-> H]; auto);
    try discriminate; try (intros [[=] _]).
Qed.

(** How [validate_price] fails: with [PriceValidationError], or with the
    [InvalidOperation] of a comparison with a NaN, or with an exception of
    the conversion that the [except] clause does not name. *)
Theorem validate_price_raises price e :
  validate_price price = Raise e ->
  (exists f, e = PriceValidationError f) \/
  (e = InvalidOperation /\ exists neg sig pl, converted price = Some (NaN neg sig pl)) \/
  (Decimal_of_str price = Raise e /\ conversion_error e = false).
Proof.
  rewrite validate_price_unfold. unfold converted.
  assert (Hconv : forall r : result PyDecimal,
    match r with
    | Ok d => check_price d
    | Raise e' => if conversion_error e'
                  then Raise (PriceValidationError PriceNotDecimal)
                  else Raise e'
    end = Raise e ->
    (exists f, e = PriceValidationError f) \/
    (e = InvalidOperation /\
     exists neg sig pl,
       match r with Ok d => Some d | Raise _ => None end = Some (NaN neg sig pl)) \/
    (r = Raise e /\ conversion_error e = false)).
  { intros [d|e'] H.
    - apply check_price_raises in H as [H|[-> (neg & sig & pl & ->)]];
        [now left | right; left; eauto 6].
    - destruct (conversion_error e') eqn:Ee; injection H as <-;
        [left; eauto | right; right; auto]. }
  destruct price; try apply Hconv.
  intros H. apply check_price_raises in H as [H|[-> (neg & sig & pl & ->)]];
    [now left | right; left; eauto 6].
Qed.

(** C4 at [Decimal("NaN")]: the exception that leaves [validate_price] is
    [decimal.InvalidOperation], not [PriceValidationError]. *)
Theorem validate_price_nan_escapes :
  validate_price (VDecimal (NaN false false 0)) = Raise InvalidOperation
  /\ is_PriceValidationError InvalidOperation = false.
Proof. split; reflexivity. Qed.

(** The same for every NaN, and for every object that converts to one. *)
Lemma validate_price_any_nan price neg sig pl :
  converted price = Some (NaN neg sig pl) ->
  validate_price price = Raise InvalidOperation.
Proof.
  rewrite validate_price_unfold. unfold converted.
  destruct price; try (destruct (Decimal_of_str _)); try discriminate;
    intros [= ->]; reflexivity.
Qed.

(** The prices the specification names: 10.5, 10 and 999999.99 pass,
    10.999 and 1000000.00 do not; neither do the infinities. *)
Example validate_price_examples :
  let dec c e := VDecimal (Finite (mkDecimal false c e)) in
  validate_price (dec 105%N (-1)%Z) = Ok (Finite (mkDecimal false 105 (-1))) /\
  validate_price (dec 10%N 0%Z) = Ok (Finite (mkDecimal false 10 0)) /\
  validate_price (dec 99999999%N (-2)%Z)
    = Ok (Finite (mkDecimal false 99999999 (-2))) /\
  validate_price (dec 10999%N (-3)%Z)
    = Raise (PriceValidationError PriceDecimalPlaces) /\
  validate_price (dec 100000000%N (-2)%Z)
    = Raise (PriceValidationError PriceExceedsMax) /\
  validate_price (VDecimal (Finite (mkDecimal true 1 (-2))))
    = Raise (PriceValidationError PriceNegative) /\
  validate_price (VDecimal (Infinity false))
    = Raise (PriceValidationError PriceExceedsMax) /\
  validate_price (VDecimal (Infinity true))
    = Raise (PriceValidationError PriceNegative).
Proof. repeat split; reflexivity. Qed.

End Facts.
End ValidatorFacts.

(** ** The catalog *)

Module CatalogFacts.
Section Facts.
Context {I : Interpreter}.
Import Validators ValidatorFacts Catalog Spec.

Lemma CatalogItem__init__ok n p item :
  CatalogItem__init__ n p = Ok item -> entry_ok (name item) item.
Proof.
  unfold CatalogItem__init__, entry_ok.
  destruct (validate_item_name n) as [n'|] eqn:En; [|discriminate].
  destruct (validate_price p) as [p'|] eqn:Ep; [|discriminate].
  cbn [rbind]. intros [= <-]. cbn [name price].
  pose proof (validate_item_name_returns_input _ En) as ->.
  apply validate_price_accepts in Ep as [_ Hp]. auto.
Qed.

Lemma build_items_ok entries : forall acc d,
  (forall k item, In (k, item) acc -> entry_ok k item) ->
  build_items entries acc = Ok d ->
  forall k item, In (k, item) d -> entry_ok k item.
Proof.
  induction entries as [|[n p] rest IH]; intros acc d Hacc; cbn [build_items].
  - now intros [= <-].
  - destruct (CatalogItem__init__ n p) as [item|] eqn:E; [|discriminate].
    cbn [rbind]. apply IH. intros k item' Hin.
    apply PyDictFacts.In_set in Hin as [[-> ->]|Hin]; auto.
    now apply CatalogItem__init__ok in E.
Qed.

(** Every entry of a constructed catalog is keyed by its own name, a valid
    item name, and holds a valid price. *)
Lemma Catalog__init__ok entries catalog :
  __init__ entries = Ok catalog -> catalog_ok catalog.
Proof.
  unfold __init__, catalog_ok.
  destruct (build_items entries []) as [d|] eqn:E; [|discriminate].
  cbn [rbind]. intros [= <-]. cbn [_items].
  intros k item Hin. apply (build_items_ok entries [] (d:=d)); auto.
  intros ? ? [].
Qed.

Lemma get_price_valid catalog k p :
  catalog_ok catalog -> get_price catalog k = Some p -> valid_price p.
Proof.
  unfold get_price. intros Hok.
  destruct (PyDict.get (_items catalog) k) as [item|] eqn:E; [|discriminate].
  intros [= <-]. apply PyDictFacts.get_In in E. apply Hok in E. apply E.
Qed.

Lemma has_item_get_price catalog k :
  has_item catalog k = true <-> exists p, get_price catalog k = Some p.
Proof.
  unfold has_item, get_price, PyDict.contains.
  destruct (PyDict.get (_items catalog) k); split; eauto;
    [discriminate | intros [? [=]]].
Qed.

(** The dictionary of prices answers as [get_price] does. *)
Lemma get_prices catalog k :
  PyDict.get (prices catalog) k = get_price catalog k.
Proof.
  unfold prices, get_price.
  induction (_items catalog) as [|[k0 item] r IH]; cbn [map PyDict.get fst snd];
    auto.
  destruct (str_eqb k0 k); auto.
Qed.

End Facts.
End CatalogFacts.

(** ** The cart *)

Module CartFacts.
Section Facts.
Context {I : Interpreter}.
Import Validators ValidatorFacts Catalog CatalogFacts Cart Spec.

(** *** The three mutators, call by call *)

Lemma add_item_unfold c n q h :
  add_item c n q h =
  match validate_item_name n with
  | Raise e => (Raise e, h)
  | Ok item_name =>
      match validate_quantity q with
      | Raise e => (Raise e, h)
      | Ok quantity =>
          if Catalog.has_item (_catalog c) item_name then
            let items := Heap.read h (Cart._items c) in
            match PyDict.get items item_name with
            | Some existing =>
                match validate_quantity (VInt (existing + quantity)) with
                | Raise e => (Raise e, h)
                | Ok new_quantity =>
                    (Ok tt, Heap.write h (Cart._items c)
                              (PyDict.set items item_name new_quantity))
                end
            | None =>
                (Ok tt, Heap.write h (Cart._items c)
                          (PyDict.set items item_name quantity))
            end
          else (Raise (ItemNotInCatalogError item_name), h)
      end
  end.
Proof.
  unfold add_item, bind, call, load, store, raise.
  destruct (validate_item_name n); auto.
  destruct (validate_quantity q); auto.
  destruct (Catalog.has_item _ _); cbn [negb]; auto.
  destruct (PyDict.get _ _); auto.
Qed.

Lemma update_item_quantity_unfold c n q h :
  update_item_quantity c n q h =
  match validate_item_name n with
  | Raise e => (Raise e, h)
  | Ok item_name =>
      match validate_quantity q with
      | Raise e => (Raise e, h)
      | Ok quantity =>
          let items := Heap.read h (Cart._items c) in
          if PyDict.contains items item_name then
            (Ok tt, Heap.write h (Cart._items c)
                      (PyDict.set items item_name quantity))
          else (Raise (ItemNotInCartError item_name), h)
      end
  end.
Proof.
  unfold update_item_quantity, bind, call, load, store, raise.
  destruct (validate_item_name n); auto.
  destruct (validate_quantity q); auto.
  cbn zeta. destruct (PyDict.contains _ _); auto.
Qed.

Lemma remove_item_unfold c n h :
  remove_item c n h =
  match validate_item_name n with
  | Raise e => (Raise e, h)
  | Ok item_name =>
      let items := Heap.read h (Cart._items c) in
      if PyDict.contains items item_name then
        (Ok tt, Heap.write h (Cart._items c) (PyDict.del items item_name))
      else (Raise (ItemNotInCartError item_name), h)
  end.
Proof.
  unfold remove_item, bind, call, load, store, raise.
  destruct (validate_item_name n); auto.
  cbn zeta. destruct (PyDict.contains _ _); auto.
Qed.

Lemma __init__unfold uuid4 customer_id catalog h :
  Cart.__init__ uuid4 customer_id catalog h =
  match catalog with
  | NotCatalog _ => (Raise TypeError, h)
  | IsCatalog cat =>
      match validate_customer_id customer_id with
      | Raise e => (Raise e, h)
      | Ok customer_id' =>
          (Ok (mkShoppingCart uuid4 customer_id' cat (length h)), h ++ [[]])
      end
  end.
Proof.
  unfold Cart.__init__, bind, call, raise, new_dict, ret, Heap.alloc.
  destruct catalog; auto.
Qed.

(** A call that raises leaves the store as it was. *)
Lemma add_item_raises c n q h e h' :
  add_item c n q h = (Raise e, h') -> h' = h.
Proof.
  rewrite add_item_unfold.
  repeat (cbn zeta;
          match goal with
          | |- context [match ?x with _ => _ end] => destruct x
          end); congruence.
Qed.

Lemma update_item_quantity_raises c n q h e h' :
  update_item_quantity c n q h = (Raise e, h') -> h' = h.
Proof.
  rewrite update_item_quantity_unfold.
  repeat (cbn zeta;
          match goal with
          | |- context [match ?x with _ => _ end] => destruct x
          end); congruence.
Qed.

Lemma remove_item_raises c n h e h' :
  remove_item c n h = (Raise e, h') -> h' = h.
Proof.
  rewrite remove_item_unfold.
  repeat (cbn zeta;
          match goal with
          | |- context [match ?x with _ => _ end] => destruct x
          end); congruence.
Qed.

(** *** The invariant *)

Lemma invariant_write h c d :
  Heap.allocated h (Cart._items c) ->
  (forall k q, In (k, q) d ->
     validate_item_name (VStr k) = Ok k /\
     Catalog.has_item (_catalog c) k = true /\ (1 <= q <= 10000)%Z) ->
  invariant (Heap.write h (Cart._items c) d) c.
Proof.
  intros Ha Hd. split.
  - unfold Heap.allocated. now rewrite HeapFacts.length_write.
  - now rewrite HeapFacts.read_write_same.
Qed.

Lemma __init__invariant uuid4 customer_id catalog h0 c h :
  Cart.__init__ uuid4 customer_id catalog h0 = (Ok c, h) -> invariant h c.
Proof.
  rewrite __init__unfold. destruct catalog; [|discriminate].
  destruct (validate_customer_id _); [|discriminate].
  intros [= <- <-]. split; cbn [Cart._items].
  - unfold Heap.allocated. rewrite length_app. cbn. lia.
  - rewrite HeapFacts.read_app_new. intros ? ? [].
Qed.

Lemma add_item_invariant c n q h h' :
  invariant h c -> add_item c n q h = (Ok tt, h') -> invariant h' c.
Proof.
  intros [Ha Hinv]. rewrite add_item_unfold.
  destruct (validate_item_name n) as [name|] eqn:En; [|discriminate].
  pose proof (validate_item_name_returns_input _ En) as ->.
  destruct (validate_quantity q) as [qty|] eqn:Eq; [|discriminate].
  apply validate_quantity_accepts in Eq as [-> Hq].
  destruct (Catalog.has_item _ _) eqn:Ec; [|discriminate]. cbn zeta.
  destruct (PyDict.get _ _) as [existing|] eqn:Eg.
  - destruct (validate_quantity _) as [nq|] eqn:En'; [|discriminate].
    apply validate_quantity_accepts in En' as [_ Hn].
    intros [= <-]. apply invariant_write; auto.
    intros k q0 Hin. apply PyDictFacts.In_set in Hin as [[-> ->]|Hin]; auto.
  - intros [= <-]. apply invariant_write; auto.
    intros k q0 Hin. apply PyDictFacts.In_set in Hin as [[-> ->]|Hin]; auto.
Qed.

Lemma update_item_quantity_invariant c n q h h' :
  invariant h c -> update_item_quantity c n q h = (Ok tt, h') -> invariant h' c.
Proof.
  intros [Ha Hinv]. rewrite update_item_quantity_unfold.
  destruct (validate_item_name n) as [name|] eqn:En; [|discriminate].
  destruct (validate_quantity q) as [qty|] eqn:Eq; [|discriminate].
  apply validate_quantity_accepts in Eq as [-> Hq]. cbn zeta.
  destruct (PyDict.contains _ _) eqn:Ec; [|discriminate].
  intros [= <-]. apply invariant_write; auto.
  intros k q0 Hin. apply PyDictFacts.In_set in Hin as [[-> ->]|Hin]; auto.
  unfold PyDict.contains in Ec.
  destruct (PyDict.get _ name) as [old|] eqn:Eg; [|discriminate].
  apply PyDictFacts.get_In in Eg. apply Hinv in Eg as (? & ? & _). auto.
Qed.

Lemma remove_item_invariant c n h h' :
  invariant h c -> remove_item c n h = (Ok tt, h') -> invariant h' c.
Proof.
  intros [Ha Hinv]. rewrite remove_item_unfold.
  destruct (validate_item_name n) as [name|] eqn:En; [|discriminate].
  cbn zeta. destruct (PyDict.contains _ _); [|discriminate].
  intros [= <-]. apply invariant_write; auto.
  intros k q0 Hin. apply PyDictFacts.In_del in Hin. auto.
Qed.

Lemma reachable_invariant h c : reachable h c -> invariant h c.
Proof.
  induction 1 as [? ? ? ? ? ? ? _ Hi| | |].
  - eapply __init__invariant; eauto.
  - eapply add_item_invariant; eauto.
  - eapply update_item_quantity_invariant; eauto.
  - eapply remove_item_invariant; eauto.
Qed.


(** C9: the constructor looks at the type of [catalog] first.  With
    anything but a [Catalog] it raises [TypeError], whatever the customer
    identifier is; with a [Catalog] it then validates the customer
    identifier, and only after that makes the cart. *)
Theorem constructor_checks_catalog_first uuid4 customer_id h :
  (forall v,
     Cart.__init__ uuid4 customer_id (NotCatalog v) h = (Raise TypeError, h)) /\
  (forall cat,
     Cart.__init__ uuid4 customer_id (IsCatalog cat) h =
     match validate_customer_id customer_id with
     | Raise e => (Raise e, h)
     | Ok s => (Ok (mkShoppingCart uuid4 s cat (length h)), h ++ [[]])
     end).
Proof. split; intros; now rewrite __init__unfold. Qed.

End Facts.
End CartFacts.

(** ** Totals *)

Module TotalFacts.
Section Facts.
Context {I : Interpreter}.
Import Dec DecFacts Catalog CatalogFacts Cart CartFacts Spec.
Open Scope Z_scope.

Lemma signed_zero d : coefficient d = 0%N -> signed d = 0.
Proof. unfold signed. intros ->. now destruct (dsign d). Qed.

Lemma cents_zero d : coefficient d = 0%N -> cents d = 0.
Proof. unfold cents, scaled. intros H. now rewrite signed_zero. Qed.

(** A non-zero valid price is positive, has at most eight digits, and an
    exponent of at most 5. *)
Lemma valid_price_bounds d :
  -2 <= exponent d -> 0 <= cents d <= 99999999 -> coefficient d <> 0%N ->
  dsign d = false /\
  Z.of_N (coefficient d) <= 99999999 /\
  exponent d <= 5 /\
  cents d = Z.of_N (coefficient d) * 10 ^ (exponent d + 2).
Proof.
  intros He [Hlo Hhi] Hnz. unfold cents, scaled, signed in *.
  replace (exponent d - -2) with (exponent d + 2) in * by lia.
  assert (Hp : 1 <= 10 ^ (exponent d + 2)).
  { apply (Z.pow_le_mono_r 10 0 (exponent d + 2)); lia. }
  assert (Hc : 1 <= Z.of_N (coefficient d)) by lia.
  destruct (dsign d).
  - exfalso. nia.
  - repeat split; auto.
    + nia.
    + destruct (Z_le_gt_dec (exponent d) 5) as [|Hgt]; auto. exfalso.
      assert (10 ^ 8 <= 10 ^ (exponent d + 2)).
      { apply Z.pow_le_mono_r; lia. }
      change (10 ^ 8) with 100000000 in *. nia.
Qed.

Lemma round_zero_coefficient d :
  coefficient d = 0%N ->
  round_to_context d
  = Ok (mkDecimal (dsign d) 0 (Z.min (Z.max (exponent d) Etiny) Emax)).
Proof. unfold round_to_context. now intros ->. Qed.

(** Rounding never takes the exponent below -2. *)
Lemma round_exponent_ge d r :
  round_to_context d = Ok r -> -2 <= exponent d -> -2 <= exponent r.
Proof.
  unfold round_to_context, Etiny, Etop, Emax, Emin, prec. intros H He.
  destruct (Z.of_N (coefficient d) =? 0).
  { injection H as <-. cbn [exponent]. lia. }
  destruct (_ >? _); [discriminate|].
  destruct (Z.ltb_spec (exponent d)
              (Z.max (ndigits (coefficient d) + exponent d - 28)
                     (-999999 - 28 + 1))) as [Hlt|Hge].
  - match type of H with
    | (if ?b then _ else _) = _ => destruct b; [discriminate|]
    end.
    injection H as <-. cbn [exponent].
    match goal with |- context [if ?b then _ else _] => destruct b end; lia.
  - now injection H as <-.
Qed.

(** [price * quantity] for a valid price and a quantity within 0..10000:
    the exact product. *)
Lemma mul_int_exact d q :
  -2 <= exponent d -> 0 <= cents d <= 99999999 -> 0 <= q <= 10000 ->
  exists r, mul_int (Finite d) q = Ok (Finite r) /\
            -2 <= exponent r /\ cents r = q * cents d.
Proof.
  intros He Hc Hq. unfold mul_int, mul_finite, of_int.
  cbn [dsign coefficient exponent].
  replace (q <? 0) with false by (symmetry; apply Z.ltb_ge; lia).
  rewrite Z.abs_eq by lia. rewrite Z.add_0_r, xorb_false_r.
  destruct (N.eq_dec (coefficient d * Z.to_N q) 0) as [Hz|Hnz].
  - rewrite round_zero_coefficient by exact Hz. cbn [coefficient exponent dsign].
    eexists. split; [reflexivity|]. split.
    + cbn [exponent]. unfold Etiny, Emax, Emin, prec. lia.
    + rewrite cents_zero by reflexivity.
      apply N.eq_mul_0 in Hz as [Hz|Hz].
      * rewrite (cents_zero d Hz). lia.
      * assert (q = 0) by lia. subst q. lia.
  - assert (Hd : coefficient d <> 0%N) by (intros E; apply Hnz; rewrite E; reflexivity).
    destruct (valid_price_bounds d He Hc Hd) as (Hs & Hb & He5 & Hcents).
    rewrite round_exact.
    + eexists. split; [reflexivity|]. cbn [exponent]. split; [lia|].
      unfold cents at 1, scaled, signed. cbn [dsign coefficient exponent].
      rewrite Hs, Hcents, N2Z.inj_mul, Z2N.id by lia.
      replace (exponent d - -2) with (exponent d + 2) by lia. ring.
    + exact Hnz.
    + cbn [coefficient]. rewrite N2Z.inj_mul, Z2N.id by lia.
      unfold prec. change (10 ^ 28) with 10000000000000000000000000000. nia.
    + cbn [exponent]. lia.
Qed.

(** [total + line] for a total of [T] hundredths and a line of at least
    -2 in exponent: the exact sum, at exponent -2, while it has at most 28
    digits. *)
Lemma add_exact T r :
  0 <= T -> -2 <= exponent r -> 0 <= cents r -> T + cents r < 10 ^ 28 ->
  add (of_cents T) (Finite r) = Ok (of_cents (T + cents r)).
Proof.
  intros HT He Hc Hlt. unfold of_cents, add, add_finite.
  cbn [dsign coefficient exponent]. rewrite Z.min_l by lia.
  assert (Hs : scaled (-2) (mkDecimal false (Z.to_N T) (-2)) = T).
  { unfold scaled, signed. cbn [dsign coefficient exponent].
    rewrite Z2N.id by lia. change (10 ^ (-2 - -2)) with 1. lia. }
  rewrite Hs. fold (cents r). cbn [andb].
  replace (T + cents r <? 0) with false by (symmetry; apply Z.ltb_ge; lia).
  rewrite Z.abs_eq by lia.
  destruct (Z.eqb_spec (T + cents r) 0) as [Hz|Hnz].
  - rewrite Hz. reflexivity.
  - rewrite round_exact; auto.
    + cbn [coefficient]. lia.
    + cbn [coefficient]. rewrite Z2N.id by lia. exact Hlt.
    + cbn [exponent]. lia.
Qed.

Lemma line_cents_nonneg catalog k q :
  catalog_ok catalog -> 0 <= q -> 0 <= line_cents catalog (k, q).
Proof.
  intros Hok Hq. unfold line_cents. cbn [fst snd].
  destruct (get_price catalog k) as [p|] eqn:E; [|lia].
  destruct (@get_price_valid _ _ _ _ Hok E) as (d & -> & _ & Hc & _). nia.
Qed.

Lemma total_cents_nonneg catalog items :
  catalog_ok catalog -> quantities_within 0 10000 items ->
  0 <= total_cents catalog items.
Proof.
  intros Hok. induction items as [|[k q] rest IH]; intros Hq; cbn; [lia|].
  assert (0 <= line_cents catalog (k, q)).
  { apply line_cents_nonneg; auto. apply (Hq k q). now left. }
  assert (0 <= total_cents catalog rest).
  { apply IH. intros k' q' Hin. apply (Hq k' q'). now right. }
  unfold total_cents in *. lia.
Qed.

(** The loop of [get_total] adds up the exact amounts. *)
Lemma total_loop_exact catalog items :
  catalog_ok catalog -> quantities_within 0 10000 items ->
  forall T, 0 <= T -> T + total_cents catalog items < 10 ^ 28 ->
  total_loop catalog items (of_cents T)
  = Ok (of_cents (T + total_cents catalog items)).
Proof.
  intros Hok. induction items as [|[k q] rest IH]; intros Hq T HT Hlt.
  - cbn. now rewrite Z.add_0_r.
  - assert (Hq' : quantities_within 0 10000 rest).
    { intros k' q' Hin. apply (Hq k' q'). now right. }
    assert (Hkq : 0 <= q <= 10000) by (apply (Hq k q); now left).
    pose proof (@total_cents_nonneg _ _ Hok Hq') as Hrest.
    pose proof (@line_cents_nonneg _ k _ Hok (proj1 Hkq)) as Hline.
    change (total_cents catalog ((k, q) :: rest))
      with (line_cents catalog (k, q) + total_cents catalog rest) in *.
    cbn [total_loop]. unfold line_cents in *. cbn [fst snd] in *.
    destruct (get_price catalog k) as [p|] eqn:E.
    + destruct (@get_price_valid _ _ _ _ Hok E) as (d & -> & He & Hc).
      destruct (mul_int_exact d He Hc Hkq) as (r & -> & Her & Hcr).
      cbn [rbind]. rewrite add_exact by lia. cbn [rbind].
      rewrite IH by (auto; lia). f_equal. f_equal. lia.
    + rewrite IH by (auto; lia). f_equal.
Qed.

(** Whatever the loop returns has an exponent of at least -2. *)
Lemma total_loop_exponent catalog items :
  catalog_ok catalog ->
  forall t p, -2 <= exponent t ->
  total_loop catalog items (Finite t) = Ok p ->
  exists d, p = Finite d /\ -2 <= exponent d.
Proof.
  intros Hok. induction items as [|[k q] rest IH]; intros t p Ht; cbn [total_loop].
  - intros [= <-]. eauto.
  - destruct (get_price catalog k) as [pr|] eqn:E; [|now apply IH].
    destruct (@get_price_valid _ _ _ _ Hok E) as (d & -> & He & _).
    unfold mul_int, mul_finite.
    destruct (round_to_context _) as [r|] eqn:Er; [|discriminate].
    apply round_exponent_ge in Er; [|cbn [exponent of_int]; lia].
    cbn [rbind]. unfold add, add_finite.
    destruct (round_to_context _) as [t'|] eqn:Et; [|discriminate].
    apply round_exponent_ge in Et; [|cbn [exponent]; lia].
    cbn [rbind]. now apply IH.
Qed.

(** An entry costs at most 10000 times 999999.99. *)
Lemma total_cents_bound catalog items :
  catalog_ok catalog -> quantities_within 0 10000 items ->
  total_cents catalog items <= Z.of_nat (length items) * 999999990000.
Proof.
  intros Hok. induction items as [|[k q] rest IH]; intros Hq.
  - cbn. lia.
  - assert (Hq' : quantities_within 0 10000 rest).
    { intros k' q' Hin. apply (Hq k' q'). now right. }
    assert (Hkq : 0 <= q <= 10000) by (apply (Hq k q); now left).
    specialize (IH Hq').
    change (total_cents catalog ((k, q) :: rest))
      with (line_cents catalog (k, q) + total_cents catalog rest).
    assert (line_cents catalog (k, q) <= 999999990000).
    { unfold line_cents. cbn [fst snd].
      destruct (get_price catalog k) as [p|] eqn:E; [|lia].
      destruct (@get_price_valid _ _ _ _ Hok E) as (d & -> & _ & Hc). nia. }
    cbn [length]. lia.
Qed.

End Facts.
End TotalFacts.

(** ** Properties of the cart *)

Module CartProperties.
Section Facts.
Context {I : Interpreter}.
Import Validators ValidatorFacts Catalog CatalogFacts Cart CartFacts Spec.
Import TotalFacts.
Open Scope Z_scope.

(** A reachable cart is over a constructed catalog. *)
Lemma reachable_catalog_ok h c : reachable h c -> catalog_ok (_catalog c).
Proof.
  induction 1 as [entries catalog uuid4 cid h0 c h Hcat Hinit| | |]; auto.
  apply Catalog__init__ok in Hcat.
  rewrite __init__unfold in Hinit.
  destruct (validate_customer_id cid); [|discriminate].
  now injection Hinit as <- _.
Qed.

Lemma invariant_quantities h c :
  invariant h c -> quantities_within 0 10000 (Heap.read h (Cart._items c)).
Proof. intros [_ H] k q Hin. apply H in Hin as (_ & _ & ?). lia. Qed.

(** C2: for a cart that holds [name] with quantity [q0], and a valid
    quantity [q]: when [q0 + q] exceeds 10000, [add_item] raises the
    quantity error of the upper bound and the store is as before; otherwise
    it succeeds and the quantity of [name] becomes [q0 + q]. *)
Theorem add_item_existing h c name q0 q :
  invariant h c ->
  PyDict.get (Heap.read h (Cart._items c)) name = Some q0 ->
  1 <= q <= 10000 ->
  (10000 < q0 + q ->
   add_item c (VStr name) (VInt q) h
   = (Raise (QuantityValidationError QtyAboveMax), h)) /\
  (q0 + q <= 10000 ->
   exists h',
     add_item c (VStr name) (VInt q) h = (Ok tt, h') /\
     PyDict.get (Heap.read h' (Cart._items c)) name = Some (q0 + q) /\
     forall k, k <> name ->
       PyDict.get (Heap.read h' (Cart._items c)) k
       = PyDict.get (Heap.read h (Cart._items c)) k).
Proof.
  intros [Ha Hinv] Hget Hq.
  pose proof (PyDictFacts.get_In _ _ Hget) as Hin.
  apply Hinv in Hin as (Hname & Hcat & Hq0).
  assert (Hvq : validate_quantity (VInt q) = Ok q).
  { now apply validate_quantity_accepts. }
  rewrite add_item_unfold, Hname, Hvq, Hcat. cbn zeta. rewrite Hget.
  split.
  - intros Hover. now rewrite validate_quantity_above_max.
  - intros Hfit.
    assert (Hsum : validate_quantity (VInt (q0 + q)) = Ok (q0 + q)).
    { apply validate_quantity_accepts. split; [reflexivity | lia]. }
    rewrite Hsum. eexists. split; [reflexivity|].
    rewrite HeapFacts.read_write_same by exact Ha. split.
    + apply PyDictFacts.get_set_same.
    + intros k Hk. apply PyDictFacts.get_set_other. congruence.
Qed.

(** C3: the total of a cart is the exact sum, over the entries of its
    dictionary, of quantity times the catalog's price, in hundredths; an
    entry whose name the catalog lacks adds nothing.  It holds for quantities
    within 0..10000 over a catalog of valid prices, while the sum has at
    most 28 digits, the precision of the decimal context. *)
Theorem get_total_exact h c :
  catalog_ok (_catalog c) ->
  quantities_within 0 10000 (Heap.read h (Cart._items c)) ->
  total_cents (_catalog c) (Heap.read h (Cart._items c)) < 10 ^ 28 ->
  get_total c h
  = (Ok (of_cents (total_cents (_catalog c) (Heap.read h (Cart._items c)))), h).
Proof.
  intros Hok Hq Hlt. unfold get_total, bind, load, call.
  change (Finite (mkDecimal false 0 (-2))) with (of_cents 0).
  rewrite total_loop_exact; auto; lia.
Qed.

(** Every reachable cart of at most 10^16 entries is within these
    bounds. *)
Lemma reachable_total_fits h c :
  reachable h c ->
  (length (Heap.read h (Cart._items c)) <= 10 ^ 16)%nat ->
  total_cents (_catalog c) (Heap.read h (Cart._items c)) < 10 ^ 28.
Proof.
  intros Hr Hlen.
  pose proof (reachable_catalog_ok Hr) as Hok.
  pose proof (invariant_quantities (reachable_invariant Hr)) as Hq.
  pose proof (total_cents_bound Hok Hq) as Hb.
  apply Nat2Z.inj_le in Hlen. rewrite Nat2Z.inj_pow in Hlen.
  change (Z.of_nat 10 ^ Z.of_nat 16) with 10000000000000000 in Hlen.
  change (10 ^ 28) with 10000000000000000000000000000. nia.
Qed.

(** The total of a reachable cart of at most 10^16 entries is exact. *)
Lemma reachable_get_total h c :
  reachable h c ->
  (length (Heap.read h (Cart._items c)) <= 10 ^ 16)%nat ->
  get_total c h
  = (Ok (of_cents (total_cents (_catalog c) (Heap.read h (Cart._items c)))), h).
Proof.
  intros Hr Hlen. unfold get_total, bind, load, call.
  change (Finite (mkDecimal false 0 (-2))) with (of_cents 0).
  rewrite total_loop_exact; auto; try lia.
  - now apply reachable_catalog_ok with (h := h).
  - apply invariant_quantities. now apply reachable_invariant.
  - now apply reachable_total_fits.
Qed.

(** C10: what [get_total] returns for a reachable cart is a finite decimal
    whose exponent is at least -2, that is with at most two fractional
    digits; and it does return one, with exponent -2, while the exact total
    has at most 28 digits. *)
Theorem get_total_two_places h c :
  reachable h c ->
  (forall p h', get_total c h = (Ok p, h') ->
     exists d, p = Finite d /\ -2 <= exponent d) /\
  (total_cents (_catalog c) (Heap.read h (Cart._items c)) < 10 ^ 28 ->
   exists d, get_total c h = (Ok (Finite d), h) /\ exponent d = -2).
Proof.
  intros Hr. pose proof (reachable_catalog_ok Hr) as Hok. split.
  - intros p h'. unfold get_total, bind, load, call.
    intros [= Hp _]. eapply total_loop_exponent; eauto. cbn. lia.
  - intros Hlt. eexists. split.
    + unfold get_total, bind, load, call.
      change (Finite (mkDecimal false 0 (-2))) with (of_cents 0).
      rewrite total_loop_exact; auto; try lia.
      * reflexivity.
      * apply invariant_quantities. now apply reachable_invariant.
    + reflexivity.
Qed.

(** *** Defensive copies *)

(** A method of the cart reads and writes the cart's own dictionary only:
    an update of any other dictionary commutes with the call. *)
Lemma invoke_frame c m h l d' :
  l <> Cart._items c -> Heap.allocated h l ->
  invoke c m (Heap.write h l d')
  = (let (r, h') := invoke c m h in (r, Heap.write h' l d')).
Proof.
  intros Hne Ha.
  assert (Hread : Heap.read (Heap.write h l d') (Cart._items c)
                  = Heap.read h (Cart._items c)).
  { now apply HeapFacts.read_write_other. }
  assert (Hcomm : forall d, Heap.write (Heap.write h l d') (Cart._items c) d
                            = Heap.write (Heap.write h (Cart._items c) d) l d').
  { intros d. now apply HeapFacts.write_comm. }
  destruct m as [n q|n q|n| |]; unfold invoke, returning, bind, ret.
  - rewrite !add_item_unfold, Hread. cbn zeta.
    destruct (validate_item_name n); auto.
    destruct (validate_quantity q); auto.
    destruct (has_item _ _); auto.
    destruct (PyDict.get _ _); [destruct (validate_quantity _)|]; auto;
      now rewrite Hcomm.
  - rewrite !update_item_quantity_unfold, Hread. cbn zeta.
    destruct (validate_item_name n); auto.
    destruct (validate_quantity q); auto.
    destruct (PyDict.contains _ _); auto. now rewrite Hcomm.
  - rewrite !remove_item_unfold, Hread. cbn zeta.
    destruct (validate_item_name n); auto.
    destruct (PyDict.contains _ _); auto. now rewrite Hcomm.
  - unfold get_items, Heap.deepcopy, Heap.alloc.
    rewrite Hread, HeapFacts.length_write, HeapFacts.write_app by exact Ha.
    reflexivity.
  - unfold get_total, bind, load, call. rewrite Hread.
    destruct (total_loop _ _ _); reflexivity.
Qed.

(** C8: [get_items] and [get_all_items] return a new dictionary with the
    entries of the cart, resp. the prices of the catalog.  Whatever the
    caller then stores in the returned dictionary, the cart's own
    dictionary, every other dictionary (so every other copy) and the
    outcome of every later method call are as they would have been. *)
Theorem defensive_copies h c catalog hp :
  Heap.allocated h (Cart._items c) ->
  (exists l h1,
     get_items c h = (Ok l, h1) /\
     ~ Heap.allocated h l /\
     Heap.read h1 l = Heap.read h (Cart._items c) /\
     (forall l', Heap.allocated h l' -> Heap.read h1 l' = Heap.read h l') /\
     forall d',
       Heap.read (Heap.write h1 l d') (Cart._items c)
       = Heap.read h (Cart._items c) /\
       (forall l', l' <> l ->
          Heap.read (Heap.write h1 l d') l' = Heap.read h1 l') /\
       (forall m, invoke c m (Heap.write h1 l d')
                  = (let (r, h') := invoke c m h1 in (r, Heap.write h' l d'))))
  /\
  (exists l h1,
     get_all_items catalog hp = (l, h1) /\
     ~ Heap.allocated hp l /\
     Heap.read h1 l = prices catalog /\
     (forall k, PyDict.get (prices catalog) k = get_price catalog k) /\
     (forall l', Heap.allocated hp l' -> Heap.read h1 l' = Heap.read hp l') /\
     forall d',
       (forall l', l' <> l ->
          Heap.read (Heap.write h1 l d') l' = Heap.read h1 l') /\
       exists l2 h3,
         get_all_items catalog (Heap.write h1 l d') = (l2, h3) /\
         l2 <> l /\
         Heap.read h3 l2 = prices catalog /\
         Heap.read h3 l = d').
Proof.
  intros Ha. split.
  - exists (length h), (h ++ [Heap.read h (Cart._items c)]).
    assert (Hl : length h <> Cart._items c).
    { unfold Heap.allocated in Ha. lia. }
    assert (Hal : Heap.allocated (h ++ [Heap.read h (Cart._items c)]) (length h)).
    { unfold Heap.allocated. rewrite length_app. cbn. lia. }
    split; [reflexivity|]. split; [unfold Heap.allocated; lia|].
    split; [apply HeapFacts.read_app_new|].
    split; [intros l' Hl'; now apply HeapFacts.read_app_old|].
    intros d'. split; [|split].
    + rewrite HeapFacts.read_write_other by exact Hl.
      now apply HeapFacts.read_app_old.
    + intros l' Hne. apply HeapFacts.read_write_other. congruence.
    + intros m. now apply invoke_frame.
  - unfold get_all_items, Heap.deepcopy, Heap.alloc.
    rewrite HeapFacts.read_app_new.
    exists (length (hp ++ [prices catalog])),
           ((hp ++ [prices catalog]) ++ [prices catalog]).
    split; [reflexivity|].
    split; [unfold Heap.allocated; rewrite length_app; cbn; lia|].
    split; [apply HeapFacts.read_app_new|].
    split; [apply get_prices|].
    split.
    { intros l' Hl'. rewrite !HeapFacts.read_app_old; auto.
      unfold Heap.allocated in *. rewrite length_app. lia. }
    intros d'. split.
    + intros l' Hne. apply HeapFacts.read_write_other. congruence.
    + rewrite HeapFacts.read_app_new.
      set (h2 := Heap.write _ _ d').
      exists (length (h2 ++ [prices catalog])),
             ((h2 ++ [prices catalog]) ++ [prices catalog]).
      split; [reflexivity|].
      assert (Hlen : length h2 = S (S (length hp))).
      { unfold h2. rewrite HeapFacts.length_write, !length_app. cbn. lia. }
      assert (Hin : Heap.allocated h2 (length (hp ++ [prices catalog]))).
      { unfold Heap.allocated. rewrite Hlen, length_app. cbn [length]. lia. }
      split; [rewrite length_app, Hlen, length_app; cbn [length]; lia|].
      split; [apply HeapFacts.read_app_new|].
      rewrite !HeapFacts.read_app_old.
      * unfold h2. apply HeapFacts.read_write_same.
        unfold Heap.allocated. rewrite !length_app. cbn [length]. lia.
      * exact Hin.
      * unfold Heap.allocated in *. rewrite !length_app, Hlen in *.
        cbn [length] in *. lia.
Qed.

(** *** Attribute assignment *)


(** While the instance dictionary does not bind [_IMMUTABLE_FIELDS], the
    guard is the set of the class. *)
Lemma __setattr__of_class contains_other h inst name v :
  PyDict.get inst (py "_IMMUTABLE_FIELDS") = None ->
  __setattr__ contains_other h inst name v =
  if str_in name _IMMUTABLE_FIELDS
  then Raise (ImmutabilityViolationError (lstrip_underscore name))
  else object__setattr__ inst name v.
Proof.
  intros H. unfold __setattr__, self_IMMUTABLE_FIELDS. rewrite H.
  reflexivity.
Qed.

(** [object.__setattr__] never raises the immutability error. *)
Lemma object__setattr__raises inst name v e :
  object__setattr__ inst name v = Raise e ->
  e = AttributeError \/ e = TypeError.
Proof.
  unfold object__setattr__.
  destruct (str_in name read_only_properties); [intros [= <-]; auto|].
  destruct (str_eqb name (py "__weakref__")); [intros [= <-]; auto|].
  destruct (str_eqb name (py "__dict__")).
  { destruct v; try discriminate; intros [= <-]; auto. }
  destruct (str_eqb name (py "__class__")); [|discriminate].
  destruct v as [| | | | |[|id [|]]]; try discriminate; intros [= <-]; auto.
Qed.




End Facts.
End CartProperties.

(** ** The scenarios of the specification, and closed instances *)

Module Scenarios.
Import Validators ValidatorFacts Catalog CatalogFacts Cart CartFacts Spec.
Import TotalFacts CartProperties.
Open Scope Z_scope.

Section AnyInterpreter.
Context {I : Interpreter}.

Example widget_catalog_constructed :
  Catalog.__init__ widget_entries = Ok widget_catalog.
Proof. reflexivity. Qed.

Example widget_cart_constructed :
  Cart.__init__ 7 (VStr (py "ABC12345XY-A")) (IsCatalog widget_catalog) []
  = (Ok widget_cart, [[]]).
Proof. reflexivity. Qed.

(** Scenario A: two widgets total 21.98, five total 54.95, and the
    emptied cart totals 0.00. *)
Example scenario_A :
  add_item widget_cart (VStr (py "Widget")) (VInt 2) [[]]
    = (Ok tt, widgets 2) /\
  get_total widget_cart (widgets 2) = (Ok (of_cents 2198), widgets 2) /\
  update_item_quantity widget_cart (VStr (py "Widget")) (VInt 5) (widgets 2)
    = (Ok tt, widgets 5) /\
  get_total widget_cart (widgets 5) = (Ok (of_cents 5495), widgets 5) /\
  remove_item widget_cart (VStr (py "Widget")) (widgets 5) = (Ok tt, [[]]) /\
  get_total widget_cart [[]] = (Ok (of_cents 0), [[]]).
Proof. repeat split; reflexivity. Qed.

(** Scenario B: 9000 widgets, then 2000 more are refused and the 9000
    stay. *)
Example scenario_B :
  add_item widget_cart (VStr (py "Widget")) (VInt 9000) [[]]
    = (Ok tt, widgets 9000) /\
  add_item widget_cart (VStr (py "Widget")) (VInt 2000) (widgets 9000)
    = (Raise (QuantityValidationError QtyAboveMax), widgets 9000).
Proof. split; reflexivity. Qed.

(** Scenario C: an item the catalog lacks is refused and the cart stays
    empty. *)
Example scenario_C :
  add_item widget_cart (VStr (py "Fake")) (VInt 1) [[]]
  = (Raise (ItemNotInCatalogError (py "Fake")), [[]]).
Proof. reflexivity. Qed.

(** An entry whose name the catalog lacks adds nothing to the total. *)
Example get_total_skips_unknown_name :
  get_total widget_cart [[(py "Ghost", 3); (py "Widget", 2)]]
  = (Ok (of_cents 2198), [[(py "Ghost", 3); (py "Widget", 2)]]).
Proof. reflexivity. Qed.

(** Invalid entries abort the construction of a catalog. *)
Example catalog_construction_fails :
  Catalog.__init__
    [(VStr (py "Bad Name!"), VDecimal (Finite (mkDecimal false 500 (-2))))]
    = Raise (ItemNameValidationError NameInvalidChars) /\
  Catalog.__init__
    [(VStr (py "Widget"), VDecimal (Finite (mkDecimal true 100 (-2))))]
    = Raise (PriceValidationError PriceNegative).
Proof. split; reflexivity. Qed.

Lemma widget_catalog_ok : catalog_ok widget_catalog.
Proof. apply (Catalog__init__ok widget_entries). reflexivity. Defined.

Lemma widgets_reachable q :
  1 <= q <= 10000 -> reachable (widgets q) widget_cart.
Proof.
  intros Hq.
  apply reach_add with (h := [[]]) (item_name := VStr (py "Widget"))
                       (quantity := VInt q).
  - apply reach_init with (entries := widget_entries) (catalog := widget_catalog)
                          (uuid4 := 7%N) (customer_id := VStr (py "ABC12345XY-A"))
                          (h0 := []);
      reflexivity.
  - rewrite add_item_unfold.
    replace (validate_quantity (VInt q)) with (Ok q : result Z);
      [reflexivity|].
    symmetry. now apply validate_quantity_accepts.
Defined.

End AnyInterpreter.


(** C2 at the cart with 9999 widgets: two more are refused, and the 9999
    stay. *)
Lemma add_item_existing_witness :
  @add_item sample_interpreter widget_cart (VStr (py "Widget")) (VInt 2)
    (widgets 9999)
  = (Raise (QuantityValidationError QtyAboveMax), widgets 9999).
Proof.
  refine (proj1 (@add_item_existing sample_interpreter (widgets 9999)
                   widget_cart (py "Widget") 9999 2 _ _ _) _).
  - apply reachable_invariant. apply widgets_reachable. lia.
  - reflexivity.
  - lia.
  - lia.
Defined.

(** C3 at the cart with two widgets, with five, and at the empty cart:
    21.98, 54.95 and 0.00. *)
Lemma get_total_exact_witness :
  get_total widget_cart (widgets 2)
  = (Ok (Finite (mkDecimal false 2198 (-2))), widgets 2) /\
  get_total widget_cart (widgets 5)
  = (Ok (Finite (mkDecimal false 5495 (-2))), widgets 5) /\
  get_total widget_cart [[]]
  = (Ok (Finite (mkDecimal false 0 (-2))), [[]]).
Proof.
  split; [|split].
  - refine (@get_total_exact sample_interpreter (widgets 2) widget_cart _ _ _).
    + apply widget_catalog_ok.
    + intros k q [[= <- <-]|[]]. lia.
    + reflexivity.
  - refine (@get_total_exact sample_interpreter (widgets 5) widget_cart _ _ _).
    + apply widget_catalog_ok.
    + intros k q [[= <- <-]|[]]. lia.
    + reflexivity.
  - refine (@get_total_exact sample_interpreter [[]] widget_cart _ _ _).
    + apply widget_catalog_ok.
    + intros k q [].
    + reflexivity.
Defined.

(** A name with a space and a hyphen is accepted. *)
Lemma validate_item_name_accepts_witness :
  @validate_item_name sample_interpreter (VStr (py "Blue Widget-2"))
  = Ok (py "Blue Widget-2").
Proof.
  refine (proj2 (proj1 (@validate_item_name_accepts sample_interpreter
                          (VStr (py "Blue Widget-2")) _) _) _).
  - reflexivity.
  - split; reflexivity.
Defined.


(** C8 at the cart with two widgets: the copy is a new dictionary with the
    same entry. *)
Lemma defensive_copies_witness :
  exists l h1,
    get_items widget_cart (widgets 2) = (Ok l, h1) /\
    Heap.read h1 l = [(py "Widget", 2)].
Proof.
  destruct (@defensive_copies sample_interpreter (widgets 2) widget_cart
              widget_catalog [])
    as [(l & h1 & Hget & _ & Hread & _) _].
  - unfold Heap.allocated. cbn. lia.
  - exists l, h1. split; [exact Hget | exact Hread].
Defined.

(** C10 at the cart with five widgets. *)
Lemma get_total_two_places_witness :
  exists d,
    get_total widget_cart (widgets 5)
    = (Ok (Finite d), widgets 5) /\ exponent d = -2.
Proof.
  refine (proj2 (@get_total_two_places sample_interpreter (widgets 5)
                   widget_cart _) _).
  - apply widgets_reachable. lia.
  - reflexivity.
Defined.

End Scenarios.

(** * Further properties *)

(** ** Dictionaries: new keys, order and removal *)

Module PyDictOrder.
Section Facts.
Context {V : Type}.
Import PyDict.
Implicit Types (d : dict V) (k : pystr) (v : V).

Lemma get_app d d' k :
  get (d ++ d') k = match get d k with Some v => Some v | None => get d' k end.
Proof.
  induction d as [|[k0 v0] r IH]; cbn [app get]; auto.
  destruct (str_eqb k0 k); auto.
Qed.

Lemma get_None_keys d k : get d k = None <-> ~ In k (keys d).
Proof.
  induction d as [|[k0 v0] r IH]; cbn [get keys map fst In]; [tauto|].
  destruct (str_eqb k0 k) eqn:E.
  - apply str_eqb_eq in E. split; [discriminate|]. intros H. exfalso. auto.
  - apply str_eqb_neq in E. unfold keys in IH. rewrite IH. tauto.
Qed.

Lemma contains_keys d k : contains d k = true <-> In k (keys d).
Proof.
  unfold contains. destruct (get d k) eqn:E.
  - split; [|reflexivity]. intros _.
    destruct (in_dec (list_eq_dec N.eq_dec) k (keys d)) as [H|H]; auto.
    apply get_None_keys in H. congruence.
  - apply get_None_keys in E. split; [discriminate | contradiction].
Qed.

Lemma set_new d k v : get d k = None -> set d k v = d ++ [(k, v)].
Proof.
  induction d as [|[k0 v0] r IH]; cbn [get set app]; auto.
  destruct (str_eqb k0 k); [discriminate|]. intros H. now rewrite IH.
Qed.

Lemma keys_set_existing d k v :
  get d k <> None -> keys (set d k v) = keys d.
Proof.
  induction d as [|[k0 v0] r IH]; cbn [get set keys map fst]; [congruence|].
  destruct (str_eqb k0 k); cbn [map fst]; auto.
  intros H. unfold keys in IH. now rewrite IH.
Qed.

Lemma del_set_new d k v : get d k = None -> del (set d k v) k = d.
Proof.
  induction d as [|[k0 v0] r IH]; cbn [get set del].
  - now rewrite str_eqb_refl.
  - destruct (str_eqb k0 k) eqn:E; [discriminate|].
    intros H. cbn [del]. now rewrite E, IH.
Qed.

Lemma get_del_same d k : NoDup (keys d) -> get (del d k) k = None.
Proof.
  induction d as [|[k0 v0] r IH]; cbn [keys map fst del get]; auto.
  intros Hnd. inversion Hnd as [|? ? Hnotin Hnd']; subst.
  destruct (str_eqb k0 k) eqn:E.
  - apply str_eqb_eq in E. subst. now apply get_None_keys.
  - cbn [get]. rewrite E. now apply IH.
Qed.

(** Removal takes the key out of the sequence of keys and leaves the
    others in their order. *)
Lemma keys_del d k :
  get d k <> None ->
  exists before after,
    keys d = before ++ k :: after /\ keys (del d k) = before ++ after /\
    ~ In k before.
Proof.
  induction d as [|[k0 v0] r IH]; cbn [get del keys map fst]; [congruence|].
  destruct (str_eqb k0 k) eqn:E.
  - intros _. apply str_eqb_eq in E. subst.
    exists [], (keys r). repeat split; auto.
  - intros H. destruct (IH H) as (b & a & H1 & H2 & H3).
    exists (k0 :: b), a. cbn [map fst app]. unfold keys in *.
    rewrite H1, H2. repeat split; auto.
    apply str_eqb_neq in E. intros [?|?]; auto.
Qed.

Lemma set_set d k v v' : set (set d k v) k v' = set d k v'.
Proof.
  induction d as [|[k0 v0] r IH]; cbn [set].
  - now rewrite str_eqb_refl.
  - destruct (str_eqb k0 k) eqn:E; cbn [set]; rewrite E; [reflexivity|].
    now rewrite IH.
Qed.

End Facts.
End PyDictOrder.

Module ValidatorProperties.
Section Facts.
Context {I : Interpreter}.
Import Regex RegexFacts Types Validators Spec Outcomes ValidatorFacts.

Lemma customer_id_shape_length digit u :
  customer_id_shape digit u = true -> length u = 12%nat.
Proof.
  do 13 (destruct u as [|? u]; try discriminate). reflexivity.
Qed.

Lemma customer_id_accepted_spec s :
  customer_id_accepted s = true <->
  exists u, customer_id_shape re_digit u = true /\ (s = u \/ s = u ++ [10%N]).
Proof.
  unfold customer_id_accepted. rewrite orb_true_iff, !andb_true_iff. split.
  - intros [H|[[Hlen Hlast] Hshape]].
    + exists s. auto.
    + exists (removelast s). split; [exact Hshape|]. right.
      apply N.eqb_eq in Hlast. rewrite <- Hlast.
      apply app_removelast_last. intros ->. discriminate.
  - intros (u & Hu & [->| ->]); [now left|]. right.
    rewrite removelast_last, last_last, length_app.
    rewrite (customer_id_shape_length _ _ Hu). auto.
Qed.

(** X3: The strings [validate_customer_id] accepts are exactly the twelve
    characters of the format and these followed by one newline; it returns
    its argument itself, and every refusal is a
    [CustomerIDValidationError]. *)
Theorem validate_customer_id_outcome v :
  match validate_customer_id v with
  | Ok s => v = VStr s /\ customer_id_accepted s = true
  | Raise e =>
      is_CustomerIDValidationError e = true /\
      forall s, v = VStr s -> customer_id_accepted s = false
  end.
Proof.
  destruct (validate_customer_id v) as [s|e] eqn:E.
  - apply validate_customer_id_accepts in E as [-> Hu].
    split; [reflexivity|]. now apply customer_id_accepted_spec.
  - split.
    + apply validate_customer_id_raises in E as [f ->]. reflexivity.
    + intros s ->. destruct (customer_id_accepted s) eqn:Ha; [|reflexivity].
      apply customer_id_accepted_spec in Ha.
      assert (validate_customer_id (VStr s) = Ok s) as Hok.
      { apply validate_customer_id_accepts. auto. }
      congruence.
Qed.

Lemma item_name_char_spec c :
  item_name_char c = true <->
  (0 =? c)%N = false /\ control_character c = false /\ item_name_class c = true.
Proof.
  unfold item_name_char. split.
  - intros H. apply orb_true_iff in H as [H|H].
    + now apply allowed_char_passes.
    + apply andb_true_iff in H as [Hc Hs]. apply N.leb_le in Hc.
      unfold control_character, item_name_class, re_space.
      replace (c <? 128)%N with false by (symmetry; apply N.ltb_ge; lia).
      replace (c <? 32)%N with false by (symmetry; apply N.ltb_ge; lia).
      replace (0 =? c)%N with false by (symmetry; apply N.eqb_neq; lia).
      rewrite Hs. now rewrite !orb_true_r.
  - intros (_ & H1 & H2).
    destruct ((128 <=? c)%N && unicode_space c) eqn:E;
      [apply orb_true_r|].
    rewrite passing_char_allowed; auto. now rewrite E.
Qed.

Lemma item_name_chars_spec s :
  forallb item_name_char s = true <->
  _contains_null_bytes s = false /\
  _contains_control_characters s = false /\
  forallb item_name_class s = true.
Proof.
  unfold _contains_null_bytes, _contains_control_characters.
  induction s as [|c s IH]; cbn [existsb forallb]; [tauto|].
  fold (control_character c).
  rewrite !andb_true_iff, !orb_false_iff, IH, item_name_char_spec. tauto.
Qed.

Lemma validate_item_name_str s :
  validate_item_name (VStr s) = Ok s <-> item_name_accepted s = true.
Proof.
  unfold item_name_accepted. rewrite andb_true_iff, length_bounds.
  rewrite item_name_chars_spec. unfold validate_item_name. split.
  - intros H.
    destruct (_contains_null_bytes s) eqn:E0; [discriminate|].
    destruct (_contains_control_characters s) eqn:E1; [discriminate|].
    destruct (length s <? MIN_ITEM_NAME_LENGTH)%nat eqn:E2; [discriminate|].
    destruct (MAX_ITEM_NAME_LENGTH <? length s)%nat eqn:E3; [discriminate|].
    destruct (re_match _ITEM_NAME_REGEX s) eqn:E4; [|discriminate].
    apply re_match_item_name in E4 as [_ E4]. auto.
  - intros [[L1 L2] (E0 & E1 & E2)]. rewrite E0, E1, L1, L2.
    assert (E4 : re_match _ITEM_NAME_REGEX s = true).
    { apply re_match_item_name. split; auto. intros ->. discriminate L1. }
    now rewrite E4.
Qed.

(** X4: The strings [validate_item_name] accepts are exactly those of 1 to 100
    characters, each a letter, a digit, a space, a hyphen, a tab, a newline
    or a whitespace character outside ASCII; it returns its argument itself,
    and every refusal is an [ItemNameValidationError]. *)
Theorem validate_item_name_outcome v :
  match validate_item_name v with
  | Ok s => v = VStr s /\ item_name_accepted s = true
  | Raise e =>
      is_ItemNameValidationError e = true /\
      forall s, v = VStr s -> item_name_accepted s = false
  end.
Proof.
  destruct (validate_item_name v) as [s|e] eqn:E.
  - pose proof (validate_item_name_returns_input _ E) as ->.
    split; [reflexivity|]. now apply validate_item_name_str.
  - split; [now apply validate_item_name_raises in E|].
    intros s ->. destruct (item_name_accepted s) eqn:Ha; [|reflexivity].
    apply validate_item_name_str in Ha. congruence.
Qed.

(** X5: The validators do not normalise: what the three of them return is the
    argument itself, and [validate_price] returns the argument as a
    [Decimal], which passes the validation again. *)
Theorem validators_return_their_argument :
  (forall v s, validate_customer_id v = Ok s -> v = VStr s) /\
  (forall v s, validate_item_name v = Ok s -> v = VStr s) /\
  (forall v n, validate_quantity v = Ok n -> v = VInt n) /\
  (forall v p, validate_price v = Ok p ->
     converted v = Some p /\ validate_price (VDecimal p) = Ok p).
Proof.
  split; [|split; [|split]].
  - intros v s H. now apply validate_customer_id_accepts in H.
  - intros v s H. now apply validate_item_name_returns_input.
  - intros v n H. now apply validate_quantity_accepts in H.
  - intros v p H. apply validate_price_accepts in H as [Hc Hv].
    split; [exact Hc|]. now apply validate_price_accepts.
Qed.

(** *** Prices *)

Open Scope Z_scope.

Lemma signed_neg d :
  Dec.signed d < 0 <-> dsign d = true /\ coefficient d <> 0%N.
Proof.
  unfold Dec.signed. destruct (dsign d); split.
  - intros H. split; [reflexivity|]. lia.
  - intros [_ H]. lia.
  - lia.
  - intros [H _]. discriminate.
Qed.

Lemma compare_MIN_PRICE_Lt d :
  Dec.compare d MIN_PRICE = Lt <-> dsign d = true /\ coefficient d <> 0%N.
Proof.
  rewrite <- signed_neg. unfold Dec.compare, Dec.scaled, MIN_PRICE.
  cbn [exponent dsign coefficient Dec.signed].
  rewrite Z.compare_lt_iff.
  assert (Hp : 0 < 10 ^ (exponent d - Z.min (exponent d) (-2))).
  { apply Z.pow_pos_nonneg; lia. }
  cbn [Z.of_N]. nia.
Qed.

(** X6: A finite [Decimal] is refused as negative exactly when its sign is
    set and its coefficient is not zero: a negative zero of at most two
    fractional digits is a valid price. *)
Theorem validate_price_negative d :
  (validate_price (VDecimal (Finite d))
   = Raise (PriceValidationError PriceNegative)
   <-> dsign d = true /\ coefficient d <> 0%N) /\
  (coefficient d = 0%N -> -2 <= exponent d ->
   validate_price (VDecimal (Finite d)) = Ok (Finite d)).
Proof.
  split.
  - rewrite <- compare_MIN_PRICE_Lt, validate_price_unfold.
    unfold check_price, Dec.lt, Dec.gt. cbn [rbind].
    destruct (Dec.compare d MIN_PRICE); split; try discriminate; auto;
      destruct (Dec.compare d MAX_PRICE); try discriminate;
      destruct (exponent d <? _); discriminate.
  - intros Hz He. apply validate_price_accepts. split; [reflexivity|].
    exists d. rewrite (TotalFacts.cents_zero d Hz). repeat split; auto; lia.
Qed.

Lemma with_trailing_zeros_signed k d :
  0 <= k ->
  Dec.signed (with_trailing_zeros k d) = Dec.signed d * 10 ^ k.
Proof.
  intros Hk. unfold with_trailing_zeros, Dec.signed.
  cbn [dsign coefficient].
  rewrite N2Z.inj_mul, N2Z.inj_pow, Z2N.id by lia.
  change (Z.of_N 10) with 10. destruct (dsign d); ring.
Qed.

(** X7: Validation goes by the representation, not by the number: a valid
    price written with more than two fractional digits, the added ones all
    zero, is the same number and is refused for its decimal places. *)
Theorem validate_price_trailing_zeros d k :
  valid_price (Finite d) -> 0 < k -> exponent d - k < -2 ->
  Dec.compare (with_trailing_zeros k d) d = Eq /\
  validate_price (VDecimal (Finite (with_trailing_zeros k d)))
  = Raise (PriceValidationError PriceDecimalPlaces).
Proof.
  intros (d0 & [= <-] & He & Hlo & Hhi) Hk Hlt.
  unfold cents, Dec.scaled in Hlo, Hhi.
  replace (exponent d - -2) with (exponent d + 2) in * by lia.
  assert (Ha : 0 < 10 ^ (exponent d + 2)) by (apply Z.pow_pos_nonneg; lia).
  assert (Hb : 0 < 10 ^ (k - (exponent d + 2)))
    by (apply Z.pow_pos_nonneg; lia).
  assert (Hk10 : 10 ^ k = 10 ^ (exponent d + 2) * 10 ^ (k - (exponent d + 2))).
  { rewrite <- Z.pow_add_r by lia. f_equal. lia. }
  pose proof (with_trailing_zeros_signed d (Z.lt_le_incl _ _ Hk)) as Hs.
  split.
  - unfold Dec.compare, Dec.scaled. rewrite Hs.
    cbn [with_trailing_zeros exponent]. rewrite Z.min_l by lia.
    rewrite Z.sub_diag, Z.mul_1_r.
    replace (exponent d - (exponent d - k)) with k by lia.
    apply Z.compare_refl.
  - rewrite validate_price_unfold. unfold check_price, Dec.lt, Dec.gt.
    cbn [rbind].
    assert (Hmin : Dec.compare (with_trailing_zeros k d) MIN_PRICE <> Lt).
    { rewrite compare_MIN_PRICE_Lt, <- signed_neg, Hs. nia. }
    assert (Hmax : Dec.compare (with_trailing_zeros k d) MAX_PRICE <> Gt).
    { unfold Dec.compare, Dec.scaled. rewrite Hs.
      cbn [with_trailing_zeros exponent MAX_PRICE dsign coefficient Dec.signed].
      rewrite Z.min_l by lia. rewrite Z.sub_diag, Z.mul_1_r.
      replace (-2 - (exponent d - k)) with (k - (exponent d + 2)) by lia.
      rewrite Z.compare_gt_iff, Hk10. cbn [Z.of_N]. nia. }
    destruct (Dec.compare _ MIN_PRICE); try congruence;
      destruct (Dec.compare _ MAX_PRICE); try congruence;
      cbn [with_trailing_zeros exponent];
      replace (exponent d - k <? - PRICE_DECIMAL_PLACES) with true
        by (symmetry; apply Z.ltb_lt; unfold PRICE_DECIMAL_PLACES; lia);
      reflexivity.
Qed.

End Facts.
End ValidatorProperties.

(** ** The catalog *)

Module CatalogProperties.
Section Facts.
Context {I : Interpreter}.
Import Validators ValidatorFacts Catalog CatalogFacts Spec Outcomes.
Import PyDictOrder.

Lemma CatalogItem__init__raises n p e :
  CatalogItem__init__ n p = Raise e <->
  validate_item_name n = Raise e \/
  ((exists k, validate_item_name n = Ok k) /\ validate_price p = Raise e).
Proof.
  unfold CatalogItem__init__.
  destruct (validate_item_name n) as [k|e1]; cbn [rbind].
  - destruct (validate_price p) as [pr|e2]; cbn [rbind]; split.
    + discriminate.
    + intros [H|[_ H]]; discriminate.
    + intros [= ->]. right. split; eauto.
    + intros [H|[_ [= ->]]]; [discriminate | reflexivity].
  - split.
    + intros [= ->]. now left.
    + intros [[= ->]|[[k H] _]]; [reflexivity | discriminate].
Qed.

Lemma build_items_raises entries : forall acc e,
  build_items entries acc = Raise e ->
  exists before n p after,
    entries = before ++ (n, p) :: after /\
    Forall entry_accepted before /\
    CatalogItem__init__ n p = Raise e.
Proof.
  induction entries as [|[n p] rest IH]; intros acc e; cbn [build_items].
  - discriminate.
  - destruct (CatalogItem__init__ n p) as [item|e1] eqn:E; cbn [rbind].
    + intros H. apply IH in H as (b & n' & p' & a & -> & Hb & Hr).
      exists ((n, p) :: b), n', p', a. repeat split; auto.
      constructor; auto. exists item. exact E.
    + intros [= ->]. exists [], n, p, rest. repeat split; auto.
Qed.

Lemma build_items_accepted entries : forall acc d,
  build_items entries acc = Ok d -> Forall entry_accepted entries.
Proof.
  induction entries as [|[n p] rest IH]; intros acc d; cbn [build_items].
  - constructor.
  - destruct (CatalogItem__init__ n p) as [item|e1] eqn:E; cbn [rbind];
      [|discriminate].
    intros H. constructor; [exists item; exact E | eapply IH; eauto].
Qed.

(** X8: A catalog is constructed when every entry is accepted; otherwise the
    constructor raises what the first entry it refuses raises, in the order
    of the dictionary, the name of an entry being checked before its
    price. *)
Theorem Catalog__init__outcome entries :
  match Catalog.__init__ entries with
  | Ok _ => Forall entry_accepted entries
  | Raise e =>
      exists before n p after,
        entries = before ++ (n, p) :: after /\
        Forall entry_accepted before /\
        (validate_item_name n = Raise e \/
         ((exists k, validate_item_name n = Ok k) /\
          validate_price p = Raise e))
  end.
Proof.
  unfold Catalog.__init__.
  destruct (build_items entries []) as [d|e] eqn:E; cbn [rbind].
  - eapply build_items_accepted; eauto.
  - apply build_items_raises in E as (b & n & p & a & H1 & H2 & H3).
    exists b, n, p, a. repeat split; auto.
    now apply CatalogItem__init__raises.
Qed.

Lemma CatalogItem__init__stored n p item :
  CatalogItem__init__ n p = Ok item -> stored_as (n, p) (name item, item).
Proof.
  unfold CatalogItem__init__.
  destruct (validate_item_name n) as [k|] eqn:En; cbn [rbind]; [|discriminate].
  destruct (validate_price p) as [pr|] eqn:Ep; cbn [rbind]; [|discriminate].
  intros [= <-]. apply validate_item_name_returns_input in En.
  apply validate_price_accepts in Ep as [Hc Hv].
  repeat split; auto.
Qed.

(** The comprehension appends the entries to the dictionary, in their
    order, when their names are distinct and new to it. *)
Lemma build_items_appends entries : forall acc d,
  build_items entries acc = Ok d ->
  NoDup (map fst entries) ->
  (forall k, In (VStr k) (map fst entries) -> PyDict.get acc k = None) ->
  exists items, d = acc ++ items /\ Forall2 stored_as entries items.
Proof.
  induction entries as [|[n p] rest IH]; intros acc d; cbn [build_items].
  - intros [= <-] _ _. exists []. split; [now rewrite app_nil_r | constructor].
  - destruct (CatalogItem__init__ n p) as [item|e1] eqn:E; cbn [rbind];
      [|discriminate].
    cbn [map fst]. intros H Hnd Hnew.
    inversion Hnd as [|? ? Hnotin Hnd']; subst.
    pose proof (CatalogItem__init__stored _ _ E) as Hst.
    assert (Hn : n = VStr (name item)) by apply Hst.
    rewrite set_new in H by (apply Hnew; left; exact Hn).
    apply IH in H as (items & -> & Hall); auto.
    + exists ((name item, item) :: items). split.
      * now rewrite <- app_assoc.
      * constructor; auto.
    + intros k Hk. rewrite get_app, Hnew by (right; exact Hk).
      cbn [PyDict.get].
      destruct (str_eqb (name item) k) eqn:Ek; auto.
      apply str_eqb_eq in Ek. subst k. exfalso. apply Hnotin.
      now rewrite Hn.
Qed.

Lemma stored_prices entries items :
  Forall2 stored_as entries items ->
  Forall2 kept entries (map (fun e => (fst e, price (snd e))) items).
Proof.
  induction 1 as [|e ki es kis [_ H] _ IH]; cbn [map]; constructor; auto.
Qed.

Lemma stored_names entries items k :
  Forall2 stored_as entries items ->
  (In (VStr k) (map fst entries) <-> In k (PyDict.keys items)).
Proof.
  induction 1 as [|e ki es kis [_ [H _]] _ IH]; cbn [map PyDict.keys In];
    [tauto|].
  cbn [fst] in H. unfold PyDict.keys in IH. rewrite IH, H. split.
  - intros [[= ->]|?]; auto.
  - intros [->|?]; auto.
Qed.

(** X9: Round trip of the catalog: over a dictionary (its keys are distinct),
    [get_all_items] lists the entries given to the constructor, in their
    order, each with its name and its price as a valid [Decimal];
    [get_price] gives the same prices, and [has_item] holds of the names
    given and of no other. *)
Theorem Catalog_round_trip entries catalog :
  Catalog.__init__ entries = Ok catalog ->
  NoDup (map fst entries) ->
  Forall2 kept entries (prices catalog) /\
  (forall k, get_price catalog k = PyDict.get (prices catalog) k) /\
  (forall k, has_item catalog k = true <-> In (VStr k) (map fst entries)).
Proof.
  unfold Catalog.__init__. intros H Hnd.
  destruct (build_items entries []) as [d|] eqn:E; cbn [rbind] in H;
    [|discriminate].
  injection H as <-.
  apply build_items_appends in E as (items & -> & Hall); auto.
  cbn [app] in *. split; [|split].
  - unfold prices. cbn [_items]. now apply stored_prices.
  - intros k. symmetry. apply get_prices.
  - intros k. unfold has_item. cbn [_items].
    rewrite contains_keys. symmetry. now apply stored_names.
Qed.

End Facts.
End CatalogProperties.

(** ** The cart: outcomes of the methods *)

Module CartBehaviour.
Section Facts.
Context {I : Interpreter}.
Import Validators ValidatorFacts Catalog CatalogFacts Cart CartFacts Spec.
Import Outcomes PyDictOrder ValidatorProperties TotalFacts CartProperties.
Open Scope Z_scope.

Lemma validate_quantity_raises v e :
  validate_quantity v = Raise e -> exists f, e = QuantityValidationError f.
Proof.
  unfold validate_quantity. destruct v; try (intros [= <-]; eauto).
  destruct (_ <? _); [intros [= <-]; eauto|].
  destruct (_ >? _); [intros [= <-]; eauto | discriminate].
Qed.

Lemma round_to_context_raises d e :
  Dec.round_to_context d = Raise e -> e = Overflow.
Proof.
  unfold Dec.round_to_context. cbn zeta.
  repeat match goal with
         | |- context [if ?b then _ else _] => destruct b
         end; congruence.
Qed.

Lemma mul_int_raises p n e :
  Dec.mul_int p n = Raise e -> e = InvalidOperation \/ e = Overflow.
Proof.
  unfold Dec.mul_int, Dec.mul_finite.
  destruct p as [d|neg|neg [|] pl].
  - destruct (Dec.round_to_context _) eqn:E; [discriminate|].
    intros [= <-]. right. eapply round_to_context_raises; eauto.
  - destruct (n =? 0); [intros [= <-]; auto | discriminate].
  - intros [= <-]; auto.
  - discriminate.
Qed.

Lemma add_raises a b e :
  Dec.add a b = Raise e -> e = InvalidOperation \/ e = Overflow.
Proof.
  unfold Dec.add, Dec.add_finite.
  destruct a as [x|sa|na [|] pa], b as [y|sb|nb [|] pb];
    try discriminate; try (intros [= <-]; auto).
  - destruct (Dec.round_to_context _) eqn:E; [discriminate|].
    intros [= <-]. right. eapply round_to_context_raises; eauto.
  - destruct (Bool.eqb sa sb); [discriminate | intros [= <-]; auto].
Qed.

Lemma total_loop_raises catalog items : forall total e,
  total_loop catalog items total = Raise e ->
  e = InvalidOperation \/ e = Overflow.
Proof.
  induction items as [|[k q] rest IH]; intros total e; cbn [total_loop].
  - discriminate.
  - destruct (get_price catalog k) as [p|]; [|apply IH].
    destruct (Dec.mul_int p q) as [line|e1] eqn:E1; cbn [rbind].
    + destruct (Dec.add total line) as [t|e2] eqn:E2; cbn [rbind].
      * apply IH.
      * intros [= <-]. eapply add_raises; eauto.
    + intros [= <-]. eapply mul_int_raises; eauto.
Qed.

Lemma returning_raises {A} (f : A -> returned) (m : M A) h e h' :
  returning f m h = (Raise e, h') -> m h = (Raise e, h').
Proof.
  unfold returning, bind, ret.
  destruct (m h) as [[a|e1] h1]; [discriminate|].
  intros [= <- <-]. reflexivity.
Qed.

Lemma returning_returns {A} (f : A -> returned) (m : M A) h r h' :
  returning f m h = (Ok r, h') -> exists a, m h = (Ok a, h') /\ r = f a.
Proof.
  unfold returning, bind, ret.
  destruct (m h) as [[a|e1] h1]; [|discriminate].
  intros [= <- <-]. eauto.
Qed.

(** X10: A call that raises leaves the store as it found it, whatever the
    method and the arguments; the exception is one the method can end in,
    and for the three mutators it is a [ShoppingCartError]. *)
Theorem failed_call_changes_nothing c m h e h' :
  invoke c m h = (Raise e, h') ->
  h' = h /\ may_raise m e = true /\
  (m <> Call_get_total -> is_ShoppingCartError e = true).
Proof.
  intros H. unfold invoke in H.
  destruct m as [n q|n q|n| |]; apply returning_raises in H.
  - pose proof (add_item_raises _ _ _ _ H) as ->.
    split; [reflexivity|]. rewrite add_item_unfold in H.
    destruct (validate_item_name n) as [k|e1] eqn:En.
    2:{ injection H as <-. apply validate_item_name_raises in En.
        destruct e1; try discriminate. auto. }
    destruct (validate_quantity q) as [qv|e1] eqn:Eq.
    2:{ injection H as <-.
        apply validate_quantity_raises in Eq as [f ->]. auto. }
    destruct (has_item _ _); [|injection H as <-; auto]. cbn zeta in H.
    destruct (PyDict.get _ _); [|discriminate].
    destruct (validate_quantity (VInt _)) as [nq|e1] eqn:Es; [discriminate|].
    injection H as <-. apply validate_quantity_raises in Es as [f ->]. auto.
  - pose proof (update_item_quantity_raises _ _ _ _ H) as ->.
    split; [reflexivity|]. rewrite update_item_quantity_unfold in H.
    destruct (validate_item_name n) as [k|e1] eqn:En.
    2:{ injection H as <-. apply validate_item_name_raises in En.
        destruct e1; try discriminate. auto. }
    destruct (validate_quantity q) as [qv|e1] eqn:Eq.
    2:{ injection H as <-.
        apply validate_quantity_raises in Eq as [f ->]. auto. }
    cbn zeta in H. destruct (PyDict.contains _ _); [discriminate|].
    injection H as <-. auto.
  - pose proof (remove_item_raises _ _ _ H) as ->.
    split; [reflexivity|]. rewrite remove_item_unfold in H.
    destruct (validate_item_name n) as [k|e1] eqn:En.
    2:{ injection H as <-. apply validate_item_name_raises in En.
        destruct e1; try discriminate. auto. }
    cbn zeta in H. destruct (PyDict.contains _ _); [discriminate|].
    injection H as <-. auto.
  - unfold get_items, Heap.deepcopy, Heap.alloc in H. discriminate.
  - unfold get_total, bind, load, call in H.
    destruct (total_loop _ _ _) as [t|e1] eqn:E; [discriminate|].
    injection H as <- <-. apply total_loop_raises in E.
    split; [reflexivity|]. split; [|congruence].
    destruct E as [-> | ->]; reflexivity.
Qed.

(** [add_item] succeeds exactly for a valid name of the catalog and a
    valid quantity whose sum with what the cart holds stays within the
    bounds, and then stores the sum. *)
Lemma add_item_succeeds c n q h h' :
  add_item c n q h = (Ok tt, h') <->
  exists k qv,
    n = VStr k /\ item_name_accepted k = true /\
    q = VInt qv /\ 1 <= qv <= 10000 /\
    has_item (_catalog c) k = true /\
    1 <= held (Heap.read h (Cart._items c)) k + qv <= 10000 /\
    h' = Heap.write h (Cart._items c)
           (PyDict.set (Heap.read h (Cart._items c)) k
              (held (Heap.read h (Cart._items c)) k + qv)).
Proof.
  rewrite add_item_unfold. unfold held. split.
  - destruct (validate_item_name n) as [k|] eqn:En; [|discriminate].
    pose proof (validate_item_name_returns_input _ En) as ->.
    apply validate_item_name_str in En.
    destruct (validate_quantity q) as [qv|] eqn:Eq; [|discriminate].
    apply validate_quantity_accepts in Eq as [-> Hq].
    destruct (has_item _ _) eqn:Hcat; [|discriminate]. cbn zeta.
    destruct (PyDict.get _ _) as [existing|] eqn:Eg.
    + destruct (validate_quantity (VInt _)) as [nq|] eqn:Es; [|discriminate].
      apply validate_quantity_accepts in Es as [[= <-] Hs].
      intros [= <-]. exists k, qv. rewrite Eg. repeat split; auto; lia.
    + intros [= <-]. exists k, qv. rewrite Eg. repeat split; auto; lia.
  - intros (k & qv & -> & Hk & -> & Hq & Hcat & Hs & ->).
    apply validate_item_name_str in Hk. rewrite Hk.
    replace (validate_quantity (VInt qv)) with (Ok qv : result Z)
      by (symmetry; now apply validate_quantity_accepts).
    rewrite Hcat. cbn zeta.
    destruct (PyDict.get _ _) as [existing|]; [|reflexivity].
    replace (validate_quantity (VInt (existing + qv)))
      with (Ok (existing + qv) : result Z)
      by (symmetry; now apply validate_quantity_accepts).
    reflexivity.
Qed.

(** X11: [add_item] succeeds exactly for a name that is a valid item name of
    the catalog and a quantity within 1..10000 that, added to what the cart
    holds of the name, stays within 1..10000; the cart then holds the sum
    for the name, whether the name is new to it or not, and every other
    entry and every other dictionary is as before. *)
Theorem add_item_outcome c n q h h' :
  (add_item c n q h = (Ok tt, h') <->
   exists k qv,
     n = VStr k /\ item_name_accepted k = true /\
     q = VInt qv /\ 1 <= qv <= 10000 /\
     has_item (_catalog c) k = true /\
     1 <= held (Heap.read h (Cart._items c)) k + qv <= 10000 /\
     h' = Heap.write h (Cart._items c)
            (PyDict.set (Heap.read h (Cart._items c)) k
               (held (Heap.read h (Cart._items c)) k + qv))) /\
  (Heap.allocated h (Cart._items c) ->
   add_item c n q h = (Ok tt, h') ->
   exists k qv,
     n = VStr k /\ q = VInt qv /\
     PyDict.get (Heap.read h' (Cart._items c)) k
     = Some (held (Heap.read h (Cart._items c)) k + qv) /\
     (forall k', k' <> k ->
        PyDict.get (Heap.read h' (Cart._items c)) k'
        = PyDict.get (Heap.read h (Cart._items c)) k') /\
     (forall l, l <> Cart._items c -> Heap.read h' l = Heap.read h l)).
Proof.
  split; [apply add_item_succeeds|].
  intros Ha H.
  apply add_item_succeeds in H as (k & qv & -> & _ & -> & _ & _ & _ & ->).
  exists k, qv. rewrite HeapFacts.read_write_same by exact Ha.
  repeat split.
  - apply PyDictFacts.get_set_same.
  - intros k' Hne. apply PyDictFacts.get_set_other. congruence.
  - intros l Hl. apply HeapFacts.read_write_other. congruence.
Qed.

(** *** Order of the keys *)

Lemma validate_item_name_VStr k k0 :
  validate_item_name (VStr k) = Ok k0 ->
  k0 = k /\ validate_item_name (VStr k) = Ok k.
Proof.
  intros H. pose proof (validate_item_name_returns_input _ H) as [= ->].
  auto.
Qed.

(** X12: The dictionary of the cart keeps the order of first insertion:
    [add_item] puts a new name last and leaves the place of one the cart
    holds, [update_item_quantity] leaves the keys as they are, and
    [remove_item] takes the name out from between the others. *)
Theorem mutators_keep_order h c k :
  Heap.allocated h (Cart._items c) ->
  (forall q h', add_item c (VStr k) q h = (Ok tt, h') ->
     PyDict.keys (Heap.read h' (Cart._items c)) =
     if PyDict.contains (Heap.read h (Cart._items c)) k
     then PyDict.keys (Heap.read h (Cart._items c))
     else PyDict.keys (Heap.read h (Cart._items c)) ++ [k]) /\
  (forall q h', update_item_quantity c (VStr k) q h = (Ok tt, h') ->
     PyDict.keys (Heap.read h' (Cart._items c))
     = PyDict.keys (Heap.read h (Cart._items c))) /\
  (forall h', remove_item c (VStr k) h = (Ok tt, h') ->
     exists before after,
       PyDict.keys (Heap.read h (Cart._items c)) = before ++ k :: after /\
       PyDict.keys (Heap.read h' (Cart._items c)) = before ++ after /\
       ~ In k before).
Proof.
  intros Ha. split; [|split].
  - intros q h' H.
    apply add_item_succeeds in H as (k0 & qv & [= <-] & _ & _ & _ & _ & _ & ->).
    rewrite HeapFacts.read_write_same by exact Ha.
    unfold PyDict.contains, held.
    destruct (PyDict.get _ k) as [existing|] eqn:Eg.
    + apply keys_set_existing. congruence.
    + rewrite set_new by exact Eg. unfold PyDict.keys.
      now rewrite map_app.
  - intros q h'. rewrite update_item_quantity_unfold.
    destruct (validate_item_name (VStr k)) as [k0|] eqn:En; [|discriminate].
    apply validate_item_name_VStr in En as [-> _].
    destruct (validate_quantity q) as [qv|]; [|discriminate]. cbn zeta.
    unfold PyDict.contains.
    destruct (PyDict.get _ k) as [existing|] eqn:Eg; [|discriminate].
    intros [= <-]. rewrite HeapFacts.read_write_same by exact Ha.
    apply keys_set_existing. congruence.
  - intros h'. rewrite remove_item_unfold.
    destruct (validate_item_name (VStr k)) as [k0|] eqn:En; [|discriminate].
    apply validate_item_name_VStr in En as [-> _]. cbn zeta.
    unfold PyDict.contains.
    destruct (PyDict.get _ k) as [existing|] eqn:Eg; [|discriminate].
    intros [= <-]. rewrite HeapFacts.read_write_same by exact Ha.
    apply keys_del. congruence.
Qed.

(** *** Setting and removing *)

(** X13: [update_item_quantity] with a valid name and a valid quantity: for a
    name the cart lacks it raises [ItemNotInCartError] and adds nothing; for
    one it holds, the quantity given replaces the one held, whatever that
    was, and nothing else changes. *)
Theorem update_item_quantity_sets h c k q :
  Heap.allocated h (Cart._items c) ->
  item_name_accepted k = true -> 1 <= q <= 10000 ->
  match PyDict.get (Heap.read h (Cart._items c)) k with
  | None =>
      update_item_quantity c (VStr k) (VInt q) h
      = (Raise (ItemNotInCartError k), h)
  | Some _ =>
      exists h',
        update_item_quantity c (VStr k) (VInt q) h = (Ok tt, h') /\
        PyDict.get (Heap.read h' (Cart._items c)) k = Some q /\
        (forall k', k' <> k ->
           PyDict.get (Heap.read h' (Cart._items c)) k'
           = PyDict.get (Heap.read h (Cart._items c)) k') /\
        (forall l, l <> Cart._items c -> Heap.read h' l = Heap.read h l)
  end.
Proof.
  intros Ha Hk Hq. rewrite update_item_quantity_unfold.
  apply validate_item_name_str in Hk. rewrite Hk.
  replace (validate_quantity (VInt q)) with (Ok q : result Z)
    by (symmetry; now apply validate_quantity_accepts).
  cbn zeta. unfold PyDict.contains.
  destruct (PyDict.get _ k) as [existing|] eqn:Eg; [|reflexivity].
  eexists. split; [reflexivity|].
  rewrite HeapFacts.read_write_same by exact Ha. split; [|split].
  - apply PyDictFacts.get_set_same.
  - intros k' Hne. apply PyDictFacts.get_set_other. congruence.
  - intros l Hl. apply HeapFacts.read_write_other. congruence.
Qed.

(** The keys of a reachable cart are distinct. *)
Lemma reachable_keys_distinct h c :
  reachable h c -> NoDup (PyDict.keys (Heap.read h (Cart._items c))).
Proof.
  induction 1 as [entries catalog uuid4 cid h0 c h Hcat Hinit
                 |h c n q h' Hr IH Hadd
                 |h c n q h' Hr IH Hupd
                 |h c n h' Hr IH Hrem].
  - rewrite __init__unfold in Hinit.
    destruct (validate_customer_id cid); [|discriminate].
    injection Hinit as <- <-. cbn [Cart._items].
    rewrite HeapFacts.read_app_new. constructor.
  - pose proof (reachable_invariant Hr) as [Ha _].
    apply add_item_succeeds in Hadd as (k & qv & _ & _ & _ & _ & _ & _ & ->).
    rewrite HeapFacts.read_write_same by exact Ha.
    now apply PyDictFacts.NoDup_set.
  - pose proof (reachable_invariant Hr) as [Ha _].
    rewrite update_item_quantity_unfold in Hupd.
    destruct (validate_item_name n); [|discriminate].
    destruct (validate_quantity q); [|discriminate]. cbn zeta in Hupd.
    destruct (PyDict.contains _ _); [|discriminate].
    injection Hupd as <-. rewrite HeapFacts.read_write_same by exact Ha.
    now apply PyDictFacts.NoDup_set.
  - pose proof (reachable_invariant Hr) as [Ha _].
    rewrite remove_item_unfold in Hrem.
    destruct (validate_item_name n); [|discriminate]. cbn zeta in Hrem.
    destruct (PyDict.contains _ _); [|discriminate].
    injection Hrem as <-. rewrite HeapFacts.read_write_same by exact Ha.
    now apply PyDictFacts.NoDup_del.
Qed.

(** X14: [remove_item] on a reachable cart, with a valid name: for a name the
    cart lacks it raises [ItemNotInCartError]; for one it holds, the name is
    gone afterwards, the other entries are as before, and removing it once
    more raises [ItemNotInCartError]. *)
Theorem remove_item_removes h c k :
  reachable h c -> item_name_accepted k = true ->
  match PyDict.get (Heap.read h (Cart._items c)) k with
  | None => remove_item c (VStr k) h = (Raise (ItemNotInCartError k), h)
  | Some _ =>
      exists h',
        remove_item c (VStr k) h = (Ok tt, h') /\
        PyDict.get (Heap.read h' (Cart._items c)) k = None /\
        (forall k', k' <> k ->
           PyDict.get (Heap.read h' (Cart._items c)) k'
           = PyDict.get (Heap.read h (Cart._items c)) k') /\
        remove_item c (VStr k) h' = (Raise (ItemNotInCartError k), h')
  end.
Proof.
  intros Hr Hk. pose proof (reachable_invariant Hr) as [Ha _].
  pose proof (reachable_keys_distinct Hr) as Hnd.
  apply validate_item_name_str in Hk.
  rewrite remove_item_unfold, Hk. cbn zeta. unfold PyDict.contains.
  destruct (PyDict.get _ k) as [existing|] eqn:Eg; [|reflexivity].
  eexists. split; [reflexivity|].
  assert (Hgone : PyDict.get
                    (Heap.read (Heap.write h (Cart._items c)
                       (PyDict.del (Heap.read h (Cart._items c)) k))
                       (Cart._items c)) k = None).
  { rewrite HeapFacts.read_write_same by exact Ha. now apply get_del_same. }
  split; [exact Hgone|]. split.
  - intros k' Hne. rewrite HeapFacts.read_write_same by exact Ha.
    apply PyDictFacts.get_del_other. congruence.
  - rewrite remove_item_unfold, Hk. cbn zeta. unfold PyDict.contains.
    now rewrite Hgone.
Qed.

Lemma write_read (h : heap Z) l : Heap.write h l (Heap.read h l) = h.
Proof.
  revert l. induction h as [|d h IH]; intros [|l]; cbn; auto.
  unfold Heap.read in IH. now rewrite IH.
Qed.

(** X15: Adding a name that is new to the cart and removing it again gives
    back the very store the cart started from. *)
Theorem add_then_remove_restores h c k q h1 :
  Heap.allocated h (Cart._items c) ->
  PyDict.get (Heap.read h (Cart._items c)) k = None ->
  add_item c (VStr k) q h = (Ok tt, h1) ->
  remove_item c (VStr k) h1 = (Ok tt, h).
Proof.
  intros Ha Hnew Hadd.
  apply add_item_succeeds in Hadd
    as (k0 & qv & [= <-] & Hk & _ & _ & _ & _ & ->).
  apply validate_item_name_str in Hk.
  rewrite remove_item_unfold, Hk. cbn zeta.
  rewrite HeapFacts.read_write_same by exact Ha.
  unfold PyDict.contains. rewrite PyDictFacts.get_set_same.
  rewrite del_set_new by exact Hnew.
  now rewrite HeapFacts.write_write, write_read.
Qed.

(** *** Size and total of a reachable cart *)

Lemma reachable_keys_in_catalog h c :
  reachable h c ->
  incl (PyDict.keys (Heap.read h (Cart._items c)))
       (PyDict.keys (Catalog._items (_catalog c))).
Proof.
  intros Hr k Hin. pose proof (reachable_invariant Hr) as [_ Hinv].
  unfold PyDict.keys in Hin. apply in_map_iff in Hin as ([k0 q] & <- & Hin).
  apply Hinv in Hin as (_ & Hcat & _). now apply contains_keys.
Qed.

Lemma reachable_length h c :
  reachable h c ->
  (length (Heap.read h (Cart._items c))
   <= length (Catalog._items (_catalog c)))%nat.
Proof.
  intros Hr.
  pose proof (NoDup_incl_length (reachable_keys_distinct Hr)
                (reachable_keys_in_catalog Hr)) as Hlen.
  unfold PyDict.keys in Hlen. now rewrite !length_map in Hlen.
Qed.

(** X16: A reachable cart holds each name once, only names of its catalog,
    and so at most as many entries as the catalog has items. *)
Theorem reachable_cart_size h c :
  reachable h c ->
  NoDup (PyDict.keys (Heap.read h (Cart._items c))) /\
  (forall k, In k (PyDict.keys (Heap.read h (Cart._items c))) ->
     has_item (_catalog c) k = true) /\
  (length (Heap.read h (Cart._items c))
   <= length (Catalog._items (_catalog c)))%nat.
Proof.
  intros Hr. pose proof (reachable_keys_distinct Hr) as Hnd.
  pose proof (reachable_keys_in_catalog Hr) as Hincl.
  split; [exact Hnd|]. split.
  - intros k Hin. apply contains_keys. now apply Hincl.
  - now apply reachable_length.
Qed.

Lemma reachable_fits h c :
  reachable h c ->
  (length (Catalog._items (_catalog c)) <= 10 ^ 16)%nat ->
  (length (Heap.read h (Cart._items c)) <= 10 ^ 16)%nat.
Proof.
  intros Hr Hcat. eapply Nat.le_trans; [|exact Hcat].
  now apply reachable_length.
Qed.

(** X17: Over a catalog of at most 10^16 items [get_total] never raises on a
    reachable cart: it returns the exact sum, which lies between 0 and
    10000 times 999999.99 for each item of the catalog, and leaves the
    store as it is. *)
Theorem reachable_total_never_raises h c :
  reachable h c ->
  (length (Catalog._items (_catalog c)) <= 10 ^ 16)%nat ->
  get_total c h
  = (Ok (of_cents (total_cents (_catalog c) (Heap.read h (Cart._items c)))), h)
  /\ 0 <= total_cents (_catalog c) (Heap.read h (Cart._items c))
       <= Z.of_nat (length (Catalog._items (_catalog c))) * 999999990000.
Proof.
  intros Hr Hcat. split.
  - apply reachable_get_total; auto. now apply reachable_fits.
  - pose proof (reachable_catalog_ok Hr) as Hok.
    pose proof (invariant_quantities (reachable_invariant Hr)) as Hq.
    split; [now apply total_cents_nonneg|].
    pose proof (total_cents_bound Hok Hq) as Hb.
    pose proof (reachable_length Hr) as Hlen.
    apply Nat2Z.inj_le in Hlen. nia.
Qed.


(** *** How the total follows the mutators *)

Lemma line_cents_price catalog k q :
  line_cents catalog (k, q) = q * price_cents catalog k.
Proof.
  unfold line_cents, price_cents. cbn [fst snd].
  destruct (get_price catalog k) as [[d| |]|]; lia.
Qed.

Lemma total_cents_cons catalog k q items :
  total_cents catalog ((k, q) :: items)
  = q * price_cents catalog k + total_cents catalog items.
Proof. unfold total_cents. cbn [fold_right]. now rewrite line_cents_price. Qed.

Lemma total_cents_set catalog items k v :
  total_cents catalog (PyDict.set items k v)
  = total_cents catalog items + (v - held items k) * price_cents catalog k.
Proof.
  unfold held. induction items as [|[k0 v0] r IH]; cbn [PyDict.set PyDict.get].
  - rewrite total_cents_cons. cbn. lia.
  - destruct (str_eqb k0 k) eqn:E.
    + apply str_eqb_eq in E. subst k0. rewrite !total_cents_cons. lia.
    + rewrite !total_cents_cons, IH. lia.
Qed.

Lemma total_cents_del catalog items k :
  total_cents catalog (PyDict.del items k)
  = total_cents catalog items - held items k * price_cents catalog k.
Proof.
  unfold held. induction items as [|[k0 v0] r IH]; cbn [PyDict.del PyDict.get].
  - cbn. lia.
  - destruct (str_eqb k0 k) eqn:E.
    + apply str_eqb_eq in E. subst k0. rewrite !total_cents_cons. lia.
    + rewrite !total_cents_cons, IH. lia.
Qed.

(** X18: On a reachable cart over a catalog of at most 10^16 items, each
    successful mutator moves the total by what it does to one line:
    [add_item] adds the quantity times the price of the item,
    [update_item_quantity] the difference to the quantity held times the
    price, and [remove_item] takes the line of the item off. *)
Theorem total_follows_mutators h c :
  reachable h c ->
  (length (Catalog._items (_catalog c)) <= 10 ^ 16)%nat ->
  (forall k q h', add_item c (VStr k) (VInt q) h = (Ok tt, h') ->
     get_total c h'
     = (Ok (of_cents
              (total_cents (_catalog c) (Heap.read h (Cart._items c))
               + q * price_cents (_catalog c) k)), h')) /\
  (forall k q h', update_item_quantity c (VStr k) (VInt q) h = (Ok tt, h') ->
     get_total c h'
     = (Ok (of_cents
              (total_cents (_catalog c) (Heap.read h (Cart._items c))
               + (q - held (Heap.read h (Cart._items c)) k)
                 * price_cents (_catalog c) k)), h')) /\
  (forall k h', remove_item c (VStr k) h = (Ok tt, h') ->
     get_total c h'
     = (Ok (of_cents
              (total_cents (_catalog c) (Heap.read h (Cart._items c))
               - held (Heap.read h (Cart._items c)) k
                 * price_cents (_catalog c) k)), h')).
Proof.
  intros Hr Hcat. pose proof (reachable_invariant Hr) as [Ha _].
  split; [|split].
  - intros k q h' H.
    assert (Hr' : reachable h' c) by (eapply reach_add; eauto).
    rewrite (reachable_get_total Hr' (reachable_fits Hr' Hcat)).
    apply add_item_succeeds in H
      as (k0 & qv & [= <-] & _ & [= <-] & _ & _ & _ & ->).
    rewrite HeapFacts.read_write_same by exact Ha.
    rewrite total_cents_set. do 3 f_equal. lia.
  - intros k q h' H.
    assert (Hr' : reachable h' c) by (eapply reach_update; eauto).
    rewrite (reachable_get_total Hr' (reachable_fits Hr' Hcat)).
    rewrite update_item_quantity_unfold in H.
    destruct (validate_item_name (VStr k)) as [k0|] eqn:En; [|discriminate].
    apply validate_item_name_VStr in En as [-> _].
    destruct (validate_quantity (VInt q)) as [qv|] eqn:Eq; [|discriminate].
    apply validate_quantity_accepts in Eq as [[= <-] _]. cbn zeta in H.
    destruct (PyDict.contains _ _); [|discriminate]. injection H as <-.
    rewrite HeapFacts.read_write_same by exact Ha.
    now rewrite total_cents_set.
  - intros k h' H.
    assert (Hr' : reachable h' c) by (eapply reach_remove; eauto).
    rewrite (reachable_get_total Hr' (reachable_fits Hr' Hcat)).
    rewrite remove_item_unfold in H.
    destruct (validate_item_name (VStr k)) as [k0|] eqn:En; [|discriminate].
    apply validate_item_name_VStr in En as [-> _]. cbn zeta in H.
    destruct (PyDict.contains _ _); [|discriminate]. injection H as <-.
    rewrite HeapFacts.read_write_same by exact Ha.
    now rewrite total_cents_del.
Qed.

(** Two dictionaries that hold the same quantity of every name have the
    same exact total, whatever the order of their keys. *)
Lemma total_cents_ext catalog (d1 : dict Z) : forall d2 : dict Z,
  NoDup (PyDict.keys d1) -> NoDup (PyDict.keys d2) ->
  (forall k, PyDict.get d1 k = PyDict.get d2 k) ->
  total_cents catalog d1 = total_cents catalog d2.
Proof.
  induction d1 as [|[k q] r IH]; intros d2 Hnd1 Hnd2 Hget.
  - destruct d2 as [|[k q] r]; [reflexivity|].
    specialize (Hget k). cbn [PyDict.get] in Hget.
    rewrite str_eqb_refl in Hget. discriminate.
  - cbn [PyDict.keys map fst] in Hnd1.
    inversion Hnd1 as [|? ? Hnotin Hnd1']; subst.
    assert (Hk : PyDict.get d2 k = Some q).
    { rewrite <- Hget. cbn [PyDict.get]. now rewrite str_eqb_refl. }
    rewrite total_cents_cons, (IH (PyDict.del d2 k)).
    + rewrite total_cents_del. unfold held. rewrite Hk. lia.
    + exact Hnd1'.
    + now apply PyDictFacts.NoDup_del.
    + intros k'. destruct (str_eqb k k') eqn:E.
      * apply str_eqb_eq in E. subst k'.
        rewrite get_del_same by exact Hnd2. now apply get_None_keys.
      * specialize (Hget k'). cbn [PyDict.get] in Hget. rewrite E in Hget.
        rewrite Hget. symmetry. apply PyDictFacts.get_del_other.
        now apply str_eqb_neq.
Qed.

(** X19: The total does not depend on the order in which the items came into
    the cart: two reachable states of a cart that hold the same quantity of
    every name have the same total. *)
Theorem total_ignores_order h1 h2 c :
  reachable h1 c -> reachable h2 c ->
  (length (Catalog._items (_catalog c)) <= 10 ^ 16)%nat ->
  (forall k, PyDict.get (Heap.read h1 (Cart._items c)) k
             = PyDict.get (Heap.read h2 (Cart._items c)) k) ->
  exists total,
    get_total c h1 = (Ok total, h1) /\ get_total c h2 = (Ok total, h2).
Proof.
  intros Hr1 Hr2 Hcat Hget.
  rewrite (reachable_get_total Hr1 (reachable_fits Hr1 Hcat)).
  rewrite (reachable_get_total Hr2 (reachable_fits Hr2 Hcat)).
  eexists. split; [reflexivity|]. do 3 f_equal. symmetry.
  apply total_cents_ext; auto using reachable_keys_distinct.
Qed.

Lemma invariant_held h c k :
  invariant h c -> 0 <= held (Heap.read h (Cart._items c)) k.
Proof.
  intros [_ Hinv]. unfold held.
  destruct (PyDict.get _ k) as [q|] eqn:E; [|lia].
  apply PyDictFacts.get_In, Hinv in E. lia.
Qed.

(** X20: [add_item] accumulates: on a cart that satisfies its invariant, two
    successful calls for a name leave the cart as one call with the sum of
    the quantities does. *)
Theorem add_item_accumulates h c k q1 q2 h1 h2 :
  invariant h c ->
  add_item c (VStr k) (VInt q1) h = (Ok tt, h1) ->
  add_item c (VStr k) (VInt q2) h1 = (Ok tt, h2) ->
  add_item c (VStr k) (VInt (q1 + q2)) h = (Ok tt, h2).
Proof.
  intros Hinv H1 H2. pose proof (invariant_held k Hinv) as Hheld.
  destruct Hinv as [Ha _].
  apply add_item_succeeds in H1
    as (k1 & v1 & [= <-] & Hk & [= <-] & Hq1 & Hcat & Hs1 & ->).
  apply add_item_succeeds in H2
    as (k2 & v2 & [= <-] & _ & [= <-] & Hq2 & _ & Hs2 & ->).
  rewrite HeapFacts.read_write_same in * by exact Ha.
  assert (Hh : held (PyDict.set (Heap.read h (Cart._items c)) k
                       (held (Heap.read h (Cart._items c)) k + q1)) k
               = held (Heap.read h (Cart._items c)) k + q1).
  { unfold held at 1. now rewrite PyDictFacts.get_set_same. }
  rewrite Hh in *. rewrite HeapFacts.write_write, set_set.
  apply add_item_succeeds. exists k, (q1 + q2).
  repeat split; auto; try lia. do 2 f_equal. lia.
Qed.

(** *** Carts and copies do not interfere *)

(** A call reads and writes the dictionary of its cart only, and never
    frees a dictionary. *)
Lemma invoke_footprint c m h r h' :
  invoke c m h = (r, h') ->
  (length h <= length h')%nat /\
  forall l, l <> Cart._items c -> Heap.allocated h l ->
    Heap.read h' l = Heap.read h l.
Proof.
  intros H.
  assert (Hw : forall d,
            (length h <= length (Heap.write h (Cart._items c) d))%nat /\
            forall l, l <> Cart._items c -> Heap.allocated h l ->
              Heap.read (Heap.write h (Cart._items c) d) l = Heap.read h l).
  { intros d. rewrite HeapFacts.length_write. split; [lia|].
    intros l Hl _. apply HeapFacts.read_write_other. congruence. }
  destruct r as [r|e].
  2:{ unfold invoke in H.
      assert (h' = h) as ->; [|split; auto].
      destruct m; apply returning_raises in H.
      - eapply add_item_raises; eauto.
      - eapply update_item_quantity_raises; eauto.
      - eapply remove_item_raises; eauto.
      - unfold get_items, Heap.deepcopy, Heap.alloc in H. discriminate.
      - unfold get_total, bind, load, call in H.
        destruct (total_loop _ _ _); congruence. }
  unfold invoke in H.
  destruct m as [n q|n q|n| |]; apply returning_returns in H as (a & H & _).
  - destruct a. apply add_item_succeeds in H
      as (k & qv & _ & _ & _ & _ & _ & _ & ->). apply Hw.
  - destruct a. rewrite update_item_quantity_unfold in H.
    destruct (validate_item_name n); [|discriminate].
    destruct (validate_quantity q); [|discriminate]. cbn zeta in H.
    destruct (PyDict.contains _ _); [|discriminate].
    injection H as <-. apply Hw.
  - destruct a. rewrite remove_item_unfold in H.
    destruct (validate_item_name n); [|discriminate]. cbn zeta in H.
    destruct (PyDict.contains _ _); [|discriminate].
    injection H as <-. apply Hw.
  - unfold get_items, Heap.deepcopy, Heap.alloc in H. injection H as <- <-.
    rewrite length_app. split; [lia|].
    intros l _ Hl. now apply HeapFacts.read_app_old.
  - unfold get_total, bind, load, call in H.
    destruct (total_loop _ _ _); [|discriminate]. injection H as <- <-.
    split; auto.
Qed.

(** X21: Carts do not interfere: a cart constructed later gets a dictionary of
    its own and leaves the existing ones as they are, and no call on another
    cart changes what a cart holds. *)
Theorem carts_are_independent c1 h :
  Heap.allocated h (Cart._items c1) ->
  (forall uuid4 customer_id catalog c2 h1,
     Cart.__init__ uuid4 customer_id catalog h = (Ok c2, h1) ->
     Cart._items c2 <> Cart._items c1 /\
     Heap.allocated h1 (Cart._items c2) /\
     Heap.allocated h1 (Cart._items c1) /\
     Heap.read h1 (Cart._items c1) = Heap.read h (Cart._items c1)) /\
  (forall c2 m r h',
     Cart._items c2 <> Cart._items c1 ->
     invoke c2 m h = (r, h') ->
     Heap.allocated h' (Cart._items c1) /\
     Heap.read h' (Cart._items c1) = Heap.read h (Cart._items c1)).
Proof.
  intros Ha. split.
  - intros uuid4 cid catalog c2 h1. rewrite __init__unfold.
    destruct catalog as [cat|v]; [|discriminate].
    destruct (validate_customer_id cid); [|discriminate].
    intros [= <- <-]. cbn [Cart._items]. unfold Heap.allocated in *.
    rewrite length_app. cbn [length].
    repeat split; try lia. now apply HeapFacts.read_app_old.
  - intros c2 m r h' Hne H.
    apply invoke_footprint in H as [Hlen Hread]. split.
    + unfold Heap.allocated in *. lia.
    + apply Hread; auto.
Qed.

(** X22: The dictionary [get_items] returns is a snapshot: whatever is called
    on the cart afterwards, it keeps the entries the cart had at the time
    of the call. *)
Theorem get_items_snapshot h c l h1 m r h2 :
  Heap.allocated h (Cart._items c) ->
  get_items c h = (Ok l, h1) ->
  invoke c m h1 = (r, h2) ->
  Heap.read h2 l = Heap.read h (Cart._items c).
Proof.
  intros Ha Hget Hcall.
  unfold get_items, Heap.deepcopy, Heap.alloc in Hget.
  injection Hget as <- <-.
  apply invoke_footprint in Hcall as [_ Hread].
  rewrite Hread.
  - apply HeapFacts.read_app_new.
  - unfold Heap.allocated in Ha. lia.
  - unfold Heap.allocated. rewrite length_app. cbn [length]. lia.
Qed.

(** X23: A new cart: it keeps the customer identifier it was given, which is
    a valid one, the identifier drawn for it and the catalog; its dictionary
    is a new one, and empty; its total is 0.00; and the dictionaries that
    existed are as they were. *)
Theorem new_cart uuid4 cid catalog h0 c h :
  Cart.__init__ uuid4 cid (IsCatalog catalog) h0 = (Ok c, h) ->
  cid = VStr (customer_id c) /\
  customer_id_accepted (customer_id c) = true /\
  cart_id c = uuid4 /\ _catalog c = catalog /\
  ~ Heap.allocated h0 (Cart._items c) /\
  Heap.allocated h (Cart._items c) /\
  Heap.read h (Cart._items c) = [] /\
  get_total c h = (Ok (of_cents 0), h) /\
  (forall l, Heap.allocated h0 l -> Heap.read h l = Heap.read h0 l).
Proof.
  rewrite __init__unfold.
  destruct (validate_customer_id cid) as [s|] eqn:E; [|discriminate].
  intros [= <- <-].
  cbn [customer_id cart_id _customer_id _cart_id _catalog Cart._items].
  apply validate_customer_id_accepts in E as [-> Hs].
  apply customer_id_accepted_spec in Hs.
  assert (Hread : Heap.read (h0 ++ [[]]) (length h0) = ([] : dict Z))
    by apply HeapFacts.read_app_new.
  repeat split; auto.
  - unfold Heap.allocated. lia.
  - unfold Heap.allocated. rewrite length_app. cbn [length]. lia.
  - unfold get_total, bind, load, call. cbn [Cart._items]. now rewrite Hread.
  - intros l Hl. now apply HeapFacts.read_app_old.
Qed.

(** *** Attribute assignment *)

(** X24: The guard of [__setattr__] is what the object says it is.  While
    the instance dictionary does not bind [_IMMUTABLE_FIELDS], an assignment
    raises [ImmutabilityViolationError] exactly for the names [_cart_id] and
    [_customer_id], and [_catalog] and [_items] are rebound to whatever is
    assigned.  The guard itself is not guarded: [_IMMUTABLE_FIELDS] can be
    bound to any collection of names, and from then on exactly the names of
    that collection are refused, so that with an empty one [_cart_id] and
    [_customer_id] are rebound like any other attribute; and [__dict__]
    takes any dictionary. *)
Theorem setattr_guard contains_other h (inst : dict attr) (v : attr) :
  PyDict.get inst (py "_IMMUTABLE_FIELDS") = None ->
  (forall name,
     (exists field,
        __setattr__ contains_other h inst name v
        = Raise (ImmutabilityViolationError field))
     <-> name = py "_cart_id" \/ name = py "_customer_id") /\
  (forall name,
     name = py "_catalog" \/ name = py "_items" ->
     __setattr__ contains_other h inst name v
     = Ok (Stored (PyDict.set inst name v)) /\
     PyDict.get (PyDict.set inst name v) name = Some v) /\
  (forall names,
     __setattr__ contains_other h inst (py "_IMMUTABLE_FIELDS")
       (AttrNames names)
     = Ok (Stored (PyDict.set inst (py "_IMMUTABLE_FIELDS") (AttrNames names)))
     /\
     forall name,
       (exists field,
          __setattr__ contains_other h
            (PyDict.set inst (py "_IMMUTABLE_FIELDS") (AttrNames names))
            name v
          = Raise (ImmutabilityViolationError field))
       <-> str_in name names = true) /\
  (forall name,
     name = py "_cart_id" \/ name = py "_customer_id" ->
     __setattr__ contains_other h
       (PyDict.set inst (py "_IMMUTABLE_FIELDS") (AttrNames [])) name v
     = Ok (Stored (PyDict.set
                     (PyDict.set inst (py "_IMMUTABLE_FIELDS") (AttrNames []))
                     name v))) /\
  (forall entries,
     __setattr__ contains_other h inst (py "__dict__") (AttrNamespace entries)
     = Ok (NewDict (AttrNamespace entries))).
Proof.
  intros Hclass. split; [|split; [|split; [|split]]].
  - intros name. rewrite __setattr__of_class by exact Hclass. split.
    + intros (field & H).
      destruct (str_in name _IMMUTABLE_FIELDS) eqn:E.
      * unfold str_in, _IMMUTABLE_FIELDS in E. cbn [existsb] in E.
        rewrite !orb_true_iff in E.
        destruct E as [E|[E|E]]; [| |discriminate];
          apply str_eqb_eq in E; auto.
      * apply object__setattr__raises in H as [H|H]; discriminate.
    + intros [-> | ->]; eexists; reflexivity.
  - intros name Hname. rewrite __setattr__of_class by exact Hclass.
    split; [|apply PyDictFacts.get_set_same].
    destruct Hname as [-> | ->]; reflexivity.
  - intros names. rewrite __setattr__of_class by exact Hclass.
    split; [reflexivity|]. intros name.
    unfold __setattr__, self_IMMUTABLE_FIELDS.
    rewrite PyDictFacts.get_set_same. cbn [contains rbind].
    destruct (str_in name names); split; try discriminate; eauto.
    intros (field & H). apply object__setattr__raises in H as [H|H];
      discriminate.
  - intros name Hname. unfold __setattr__, self_IMMUTABLE_FIELDS.
    rewrite PyDictFacts.get_set_same. cbn [contains rbind str_in existsb].
    destruct Hname as [-> | ->]; reflexivity.
  - intros entries. rewrite __setattr__of_class by exact Hclass. reflexivity.
Qed.

End Facts.
End CartBehaviour.

(** ** UUIDs *)

Module UuidProperties.
Import Uuid ValidatorsUuid.
Open Scope N_scope.

Lemma land_pow2 a n : (N.land a (2 ^ n) =? 0) = negb (N.testbit a n).
Proof.
  destruct (N.testbit a n) eqn:E; cbn [negb].
  - apply N.eqb_neq. intros H.
    assert (Hb : N.testbit (N.land a (2 ^ n)) n = true).
    { now rewrite N.land_spec, E, N.pow2_bits_true. }
    rewrite H in Hb. now rewrite N.bits_0 in Hb.
  - apply N.eqb_eq. apply N.bits_inj. intros m.
    rewrite N.land_spec, N.pow2_bits_eqb, N.bits_0.
    destruct (N.eqb_spec n m) as [<-|]; [now rewrite E | apply andb_false_r].
Qed.

(** The variant is RFC 4122 when bit 63 is set and bit 62 is not. *)
Lemma variant_RFC_4122 u :
  variant u = RFC_4122 <-> N.testbit u 63 = true /\ N.testbit u 62 = false.
Proof.
  unfold variant.
  change (N.shiftl 0x8000 48) with (2 ^ 63).
  change (N.shiftl 0x4000 48) with (2 ^ 62).
  change (N.shiftl 0x2000 48) with (2 ^ 61).
  rewrite !land_pow2.
  destruct (N.testbit u 63), (N.testbit u 62), (N.testbit u 61);
    cbn [negb]; split; try discriminate; try tauto;
    intros [? ?]; discriminate.
Qed.

Lemma nibble_spec u : N.land (N.shiftr u 76) 0xf = (u / 2 ^ 76) mod 16.
Proof.
  rewrite N.shiftr_div_pow2. change 0xf with (N.ones 4).
  now rewrite N.land_ones.
Qed.

Lemma version_4 u :
  version u = Some 4 <->
  N.testbit u 63 = true /\ N.testbit u 62 = false /\ (u / 2 ^ 76) mod 16 = 4.
Proof.
  unfold version. rewrite nibble_spec.
  pose proof (variant_RFC_4122 u) as Hv.
  destruct (variant u).
  - split; [discriminate|]. intros (H1 & H2 & _).
    destruct Hv as [_ Hv]. specialize (Hv (conj H1 H2)). discriminate.
  - destruct Hv as [Hv _]. destruct (Hv eq_refl) as [H1 H2]. split.
    + intros H. repeat split; auto. congruence.
    + intros (_ & _ & H). now f_equal.
  - split; [discriminate|]. intros (H1 & H2 & _).
    destruct Hv as [_ Hv]. specialize (Hv (conj H1 H2)). discriminate.
  - split; [discriminate|]. intros (H1 & H2 & _).
    destruct Hv as [_ Hv]. specialize (Hv (conj H1 H2)). discriminate.
Qed.

Section Validate.
Variable UUID_of_hex : pystr -> option N.

Lemma checked_version u :
  validate_uuid4 UUID_of_hex (VUuid u) =
  if match version u with Some v => v =? 4 | None => false end
  then UuidOk u else UUIDValidationError UuidNotVersion4.
Proof.
  unfold validate_uuid4. destruct (version u) as [v|]; [|reflexivity].
  destruct (N.eqb_spec v 4) as [->|Hne]; [reflexivity|].
  destruct v as [|[p|[q|[r|r|]|]|]]; try reflexivity.
  contradiction.
Qed.

(** X25: [validate_uuid4] accepts a UUID exactly when its variant bits are 1
    and 0 and its version bits hold 4, and then returns the UUID itself;
    any other UUID is refused for its version.  Whatever it accepts, a UUID
    or a string, what it returns has version 4, and a string holding a null
    byte is refused before it is parsed. *)
Theorem validate_uuid4_outcome :
  (forall u,
     validate_uuid4 UUID_of_hex (VUuid u) =
     if N.testbit u 63 && negb (N.testbit u 62) && ((u / 2 ^ 76) mod 16 =? 4)
     then UuidOk u else UUIDValidationError UuidNotVersion4) /\
  (forall v u,
     validate_uuid4 UUID_of_hex v = UuidOk u ->
     version u = Some 4 /\
     (v = VUuid u \/
      exists s, v = VStr s /\ Validators._contains_null_bytes s = false /\
                UUID_of_hex s = Some u)) /\
  (forall s,
     Validators._contains_null_bytes s = true ->
     validate_uuid4 UUID_of_hex (VStr s) = UUIDValidationError UuidNullBytes).
Proof.
  assert (Hobj : forall u w,
            validate_uuid4 UUID_of_hex (VUuid u) = UuidOk w ->
            w = u /\ version u = Some 4).
  { intros u w. rewrite checked_version.
    destruct (version u) as [v|]; [|discriminate].
    destruct (N.eqb_spec v 4) as [->|]; [|discriminate].
    intros [= <-]. auto. }
  split; [|split].
  - intros u. rewrite checked_version.
    pose proof (version_4 u) as Hv.
    destruct (version u) as [v|].
    + destruct (N.eqb_spec v 4) as [->|Hne].
      * destruct Hv as [Hv _]. destruct (Hv eq_refl) as (-> & -> & ->).
        reflexivity.
      * destruct (N.testbit u 63 && negb (N.testbit u 62)
                  && ((u / 2 ^ 76) mod 16 =? 4)) eqn:E; [|reflexivity].
        exfalso. apply Hne.
        rewrite !andb_true_iff, negb_true_iff, N.eqb_eq in E.
        destruct E as [[E1 E2] E3].
        destruct Hv as [_ Hv]. specialize (Hv (conj E1 (conj E2 E3))).
        congruence.
    + destruct (N.testbit u 63 && negb (N.testbit u 62)
                && ((u / 2 ^ 76) mod 16 =? 4)) eqn:E; [|reflexivity].
      rewrite !andb_true_iff, negb_true_iff, N.eqb_eq in E.
      destruct E as [[E1 E2] E3].
      destruct Hv as [_ Hv]. specialize (Hv (conj E1 (conj E2 E3))).
      discriminate.
  - intros v u H. destruct v as [| | |s| |w|]; try discriminate.
    + unfold validate_uuid4 in H.
      destruct (Validators._contains_null_bytes s) eqn:E0; [discriminate|].
      destruct (UUID_of_hex s) as [w|] eqn:Ep; [|discriminate].
      destruct (Hobj w u H) as [-> Hv]. split; [exact Hv|].
      right. exists s. auto.
    + destruct (Hobj w u H) as [-> Hv]. auto.
  - intros s E. unfold validate_uuid4. now rewrite E.
Qed.

End Validate.

(** The bits of a UUID that [uuid4] makes of the bytes drawn. *)
Lemma uuid4_bits r i :
  N.testbit (uuid4 r) i =
  if (i =? 63) || (i =? 78) then true
  else if (i =? 62) || (i =? 76) || (i =? 77) || (i =? 79) then false
  else N.testbit r i.
Proof.
  unfold uuid4, with_version. cbn zeta.
  change (N.shiftl 0xc000 48) with (N.lor (2 ^ 62) (2 ^ 63)).
  change (N.shiftl 0x8000 48) with (2 ^ 63).
  change (N.shiftl 0xf000 64)
    with (N.lor (N.lor (2 ^ 76) (2 ^ 77)) (N.lor (2 ^ 78) (2 ^ 79))).
  change (N.shiftl 4 76) with (2 ^ 78).
  repeat (rewrite ?N.lor_spec, ?N.ldiff_spec).
  rewrite !N.pow2_bits_eqb.
  rewrite (N.eqb_sym 62 i), (N.eqb_sym 63 i), (N.eqb_sym 76 i),
    (N.eqb_sym 77 i), (N.eqb_sym 78 i), (N.eqb_sym 79 i).
  destruct (N.testbit r i);
    destruct (N.eqb_spec i 63), (N.eqb_spec i 78), (N.eqb_spec i 62),
      (N.eqb_spec i 76), (N.eqb_spec i 77), (N.eqb_spec i 79);
    try reflexivity; subst; discriminate.
Qed.

Lemma uuid4_version r : version (uuid4 r) = Some 4.
Proof.
  apply version_4. rewrite !uuid4_bits. cbn [N.eqb Pos.eqb orb].
  repeat split.
  rewrite <- N.shiftr_div_pow2. change 16 with (2 ^ 4).
  rewrite <- N.land_ones. apply N.bits_inj. intros i.
  rewrite N.land_spec, N.shiftr_spec', uuid4_bits.
  destruct (N.lt_ge_cases i 4) as [Hlt|Hge].
  - assert (Hi : i = 0 \/ i = 1 \/ i = 2 \/ i = 3) by lia.
    destruct Hi as [-> | [-> | [-> | ->]]]; reflexivity.
  - rewrite N.ones_spec_high by exact Hge. rewrite andb_false_r.
    change 4 with (2 ^ 2). rewrite N.pow2_bits_false by lia. reflexivity.
Qed.

(** X26: Whatever bytes are drawn, the identifier [uuid4] gives a cart is one
    that [validate_uuid4] accepts: the constructor's [cart_id] is a
    version 4 UUID, and a 128-bit one. *)
Theorem cart_id_is_uuid4 {I : Interpreter} UUID_of_hex random cid catalog
                         h0 c h :
  random < 2 ^ 128 ->
  Cart.__init__ (uuid4 random) cid (Cart.IsCatalog catalog) h0 = (Ok c, h) ->
  validate_uuid4 UUID_of_hex (VUuid (Cart.cart_id c)) = UuidOk (Cart.cart_id c)
  /\ version (Cart.cart_id c) = Some 4
  /\ Cart.cart_id c < 2 ^ 128.
Proof.
  intros Hr H. rewrite CartFacts.__init__unfold in H.
  destruct (Validators.validate_customer_id cid); [|discriminate].
  injection H as <- _. cbn [Cart.cart_id Cart._cart_id].
  split; [|split].
  - rewrite checked_version, uuid4_version. reflexivity.
  - apply uuid4_version.
  - assert (Hnz : uuid4 random <> 0).
    { intros E. pose proof (uuid4_bits random 63) as Hb.
      rewrite E, N.bits_0 in Hb. discriminate. }
    apply N.log2_lt_pow2; [lia|].
    destruct (N.lt_ge_cases (N.log2 (uuid4 random)) 128) as [|Hge]; auto.
    exfalso. pose proof (N.bit_log2 _ Hnz) as Hb.
    rewrite uuid4_bits in Hb.
    replace (_ =? 63) with false in Hb by (symmetry; apply N.eqb_neq; lia).
    replace (_ =? 78) with false in Hb by (symmetry; apply N.eqb_neq; lia).
    replace (_ =? 62) with false in Hb by (symmetry; apply N.eqb_neq; lia).
    replace (_ =? 76) with false in Hb by (symmetry; apply N.eqb_neq; lia).
    replace (_ =? 77) with false in Hb by (symmetry; apply N.eqb_neq; lia).
    replace (_ =? 79) with false in Hb by (symmetry; apply N.eqb_neq; lia).
    cbn [orb] in Hb.
    destruct (N.eq_dec random 0) as [->|Hr0]; [now rewrite N.bits_0 in Hb|].
    rewrite N.bits_above_log2 in Hb; [discriminate|].
    apply N.log2_lt_pow2 in Hr; lia.
Qed.

End UuidProperties.

(** ** Closed instances of the further properties *)

Module Instances.
Import Validators ValidatorFacts Catalog CatalogFacts Cart CartFacts Spec.
Import Outcomes ValidatorProperties CatalogProperties CartBehaviour.
Import UuidProperties Scenarios.
Open Scope Z_scope.

(** 10.990 is the price 10.99 and is refused. *)
Lemma validate_price_trailing_zeros_witness :
  @validate_price sample_interpreter
    (VDecimal (Finite (mkDecimal false 10990 (-3))))
  = Raise (PriceValidationError PriceDecimalPlaces).
Proof.
  refine (proj2 (@validate_price_trailing_zeros sample_interpreter
                   (mkDecimal false 1099 (-2)) 1 _ _ _)).
  - exists (mkDecimal false 1099 (-2)). cbn. repeat split; lia.
  - lia.
  - cbn. lia.
Defined.

(** A customer identifier with five Arabic-Indic zeros. *)
Lemma customer_id_unicode_digit_accepted_witness :
  @validate_customer_id sample_interpreter
    (VStr (py "ABC" ++ [1632; 1632; 1632; 1632; 1632]%N ++ py "XY-A"))
  = Ok (py "ABC" ++ [1632; 1632; 1632; 1632; 1632]%N ++ py "XY-A").
Proof.
  refine (proj1 (@customer_id_unicode_digit_accepted sample_interpreter
                   1632%N _ _)).
  - lia.
  - reflexivity.
Defined.

(** An item name with a no-break space. *)
Lemma item_name_with_wide_space_accepted_witness :
  @validate_item_name sample_interpreter
    (VStr (py "Blue" ++ 160%N :: py "Widget"))
  = Ok (py "Blue" ++ 160%N :: py "Widget").
Proof.
  refine (proj2 (@item_name_with_wide_space_accepted sample_interpreter
                   160%N (py "Blue") (py "Widget") _ _) _).
  - lia.
  - reflexivity.
  - reflexivity.
Defined.

(** The catalog of the scenarios lists what it was given. *)
Lemma Catalog_round_trip_witness :
  Forall2 (@kept sample_interpreter) widget_entries (prices widget_catalog).
Proof.
  refine (proj1 (@Catalog_round_trip sample_interpreter widget_entries
                   widget_catalog _ _)).
  - reflexivity.
  - constructor; [intros [] | constructor].
Defined.

(** Scenario B: the refused call leaves the 9000 widgets. *)
Lemma failed_call_changes_nothing_witness :
  widgets 9000 = widgets 9000 /\
  may_raise (Call_add_item (VStr (py "Widget")) (VInt 2000))
            (QuantityValidationError QtyAboveMax) = true /\
  (Call_add_item (VStr (py "Widget")) (VInt 2000) <> Call_get_total ->
   is_ShoppingCartError (QuantityValidationError QtyAboveMax) = true).
Proof.
  refine (@failed_call_changes_nothing sample_interpreter widget_cart
            (Call_add_item (VStr (py "Widget")) (VInt 2000))
            (widgets 9000) _ (widgets 9000) _).
  reflexivity.
Defined.

(** The first widget goes last in the empty cart. *)
Lemma mutators_keep_order_witness :
  PyDict.keys (Heap.read (widgets 2) (Cart._items widget_cart))
  = [py "Widget"].
Proof.
  refine (proj1 (@mutators_keep_order sample_interpreter [[]] widget_cart
                   (py "Widget") _) (VInt 2) (widgets 2) _).
  - unfold Heap.allocated. cbn. lia.
  - reflexivity.
Defined.

(** Two widgets set to five. *)
Lemma update_item_quantity_sets_witness :
  exists h',
    @update_item_quantity sample_interpreter widget_cart
      (VStr (py "Widget")) (VInt 5) (widgets 2) = (Ok tt, h') /\
    PyDict.get (Heap.read h' (Cart._items widget_cart)) (py "Widget") = Some 5.
Proof.
  destruct (@update_item_quantity_sets sample_interpreter (widgets 2)
              widget_cart (py "Widget") 5)
    as (h' & H1 & H2 & _).
  - unfold Heap.allocated. cbn. lia.
  - reflexivity.
  - lia.
  - exists h'. split; [exact H1 | exact H2].
Defined.

(** The widgets removed. *)
Lemma remove_item_removes_witness :
  exists h',
    @remove_item sample_interpreter widget_cart (VStr (py "Widget")) (widgets 2)
    = (Ok tt, h') /\
    PyDict.get (Heap.read h' (Cart._items widget_cart)) (py "Widget") = None.
Proof.
  destruct (@remove_item_removes sample_interpreter (widgets 2) widget_cart
              (py "Widget"))
    as (h' & H1 & H2 & _).
  - apply widgets_reachable. lia.
  - reflexivity.
  - exists h'. split; [exact H1 | exact H2].
Defined.

(** Scenario A: adding two widgets and removing them gives the empty
    cart back. *)
Lemma add_then_remove_restores_witness :
  @remove_item sample_interpreter widget_cart (VStr (py "Widget")) (widgets 2)
  = (Ok tt, [[]]).
Proof.
  refine (@add_then_remove_restores sample_interpreter [[]] widget_cart
            (py "Widget") (VInt 2) (widgets 2) _ _ _).
  - unfold Heap.allocated. cbn. lia.
  - reflexivity.
  - reflexivity.
Defined.

(** The cart with two widgets has one entry, as its catalog. *)
Lemma reachable_cart_size_witness :
  (length (Heap.read (widgets 2) (Cart._items widget_cart))
   <= length (Catalog._items widget_catalog))%nat.
Proof.
  refine (proj2 (proj2 (@reachable_cart_size sample_interpreter (widgets 2)
                          widget_cart _))).
  apply widgets_reachable. lia.
Defined.

Lemma one_item_fits : (1 <= 10 ^ 16)%nat.
Proof. apply Nat.lt_le_incl. apply Nat.pow_gt_1; [lia | discriminate]. Defined.

(** Two widgets total 21.98. *)
Lemma reachable_total_never_raises_witness :
  get_total widget_cart (widgets 2) = (Ok (of_cents 2198), widgets 2).
Proof.
  refine (proj1 (@reachable_total_never_raises sample_interpreter (widgets 2)
                   widget_cart _ _)).
  - apply widgets_reachable. lia.
  - exact one_item_fits.
Defined.

(** Three widgets more on two: 21.98 and 3 times 10.99 is 54.95. *)
Lemma total_follows_mutators_witness :
  get_total widget_cart (widgets 5) = (Ok (of_cents 5495), widgets 5).
Proof.
  refine (proj1 (@total_follows_mutators sample_interpreter (widgets 2)
                   widget_cart _ _) (py "Widget") 3 (widgets 5) _).
  - apply widgets_reachable. lia.
  - exact one_item_fits.
  - reflexivity.
Defined.

Lemma two_items_fit : (2 <= 10 ^ 16)%nat.
Proof. apply Nat.pow_gt_1; [lia | discriminate]. Defined.

Lemma two_item_cart_constructed :
  @reachable sample_interpreter [[]] two_item_cart.
Proof.
  apply reach_init with (entries := two_item_entries)
                        (catalog := two_item_catalog) (uuid4 := 9%N)
                        (customer_id := VStr (py "ABC12345XY-A")) (h0 := []);
    reflexivity.
Defined.

(** A widget and then two gadgets, or two gadgets and then a widget: the
    keys of the two dictionaries come in different orders, and the total
    is the same. *)
Lemma total_ignores_order_witness :
  exists total,
    get_total two_item_cart widget_then_gadgets
    = (Ok total, widget_then_gadgets) /\
    get_total two_item_cart gadgets_then_widget
    = (Ok total, gadgets_then_widget).
Proof.
  refine (@total_ignores_order sample_interpreter widget_then_gadgets
            gadgets_then_widget two_item_cart _ _ _ _).
  - apply reach_add with (h := [[(py "Widget", 1)]])
                         (item_name := VStr (py "Gadget")) (quantity := VInt 2);
      [|reflexivity].
    apply reach_add with (h := [[]]) (item_name := VStr (py "Widget"))
                         (quantity := VInt 1);
      [|reflexivity].
    exact two_item_cart_constructed.
  - apply reach_add with (h := [[(py "Gadget", 2)]])
                         (item_name := VStr (py "Widget")) (quantity := VInt 1);
      [|reflexivity].
    apply reach_add with (h := [[]]) (item_name := VStr (py "Gadget"))
                         (quantity := VInt 2);
      [|reflexivity].
    exact two_item_cart_constructed.
  - exact two_items_fit.
  - intros k. unfold widget_then_gadgets, gadgets_then_widget.
    cbn [Heap.read nth Cart._items two_item_cart PyDict.get].
    destruct (str_eqb (py "Widget") k) eqn:E1;
      destruct (str_eqb (py "Gadget") k) eqn:E2; try reflexivity.
    apply str_eqb_eq in E1, E2. subst k. discriminate E2.
Defined.

(** Two widgets and three more are five. *)
Lemma add_item_accumulates_witness :
  @add_item sample_interpreter widget_cart (VStr (py "Widget")) (VInt 5) [[]]
  = (Ok tt, widgets 5).
Proof.
  refine (@add_item_accumulates sample_interpreter [[]] widget_cart
            (py "Widget") 2 3 (widgets 2) (widgets 5) _ _ _).
  - split; [unfold Heap.allocated; cbn; lia | intros k q []].
  - reflexivity.
  - reflexivity.
Defined.

(** A second cart over the same catalog adds three widgets; the first
    keeps its two. *)
Lemma carts_are_independent_witness :
  let second := mkShoppingCart 8 (py "ZZZ99999ZZ-Q") widget_catalog 1 in
  let after := [[(py "Widget", 2)]; [(py "Widget", 3)]] in
  @invoke sample_interpreter second
    (Call_add_item (VStr (py "Widget")) (VInt 3)) [[(py "Widget", 2)]; []]
  = (Ok RNone, after) /\
  Heap.read after (Cart._items widget_cart) = [(py "Widget", 2)].
Proof.
  split; [reflexivity|].
  refine (proj2 (proj2 (@carts_are_independent sample_interpreter widget_cart
                          [[(py "Widget", 2)]; []] _)
                   (mkShoppingCart 8 (py "ZZZ99999ZZ-Q") widget_catalog 1)
                   (Call_add_item (VStr (py "Widget")) (VInt 3))
                   (Ok RNone) [[(py "Widget", 2)]; [(py "Widget", 3)]] _ _)).
  - unfold Heap.allocated. cbn. lia.
  - cbn. discriminate.
  - reflexivity.
Defined.

(** The copy taken of two widgets stays when the cart is emptied. *)
Lemma get_items_snapshot_witness :
  Heap.read [[]; [(py "Widget", 2)]] 1 = [(py "Widget", 2)].
Proof.
  refine (@get_items_snapshot sample_interpreter (widgets 2) widget_cart 1%nat
            [[(py "Widget", 2)]; [(py "Widget", 2)]]
            (Call_remove_item (VStr (py "Widget"))) (Ok RNone)
            [[]; [(py "Widget", 2)]] _ _ _).
  - unfold Heap.allocated. cbn. lia.
  - reflexivity.
  - reflexivity.
Defined.

(** The cart of the scenarios when new. *)
Lemma new_cart_witness :
  VStr (py "ABC12345XY-A") = VStr (customer_id widget_cart) /\
  @customer_id_accepted sample_interpreter (customer_id widget_cart) = true.
Proof.
  destruct (@new_cart sample_interpreter 7%N (VStr (py "ABC12345XY-A"))
              widget_catalog [] widget_cart [[]])
    as (H1 & H2 & _).
  - reflexivity.
  - split; [exact H1 | exact H2].
Defined.

(** The identifier made of sixteen zero bytes. *)
Lemma cart_id_is_uuid4_witness :
  ValidatorsUuid.validate_uuid4 (fun _ => None) (VUuid (Uuid.uuid4 0))
  = ValidatorsUuid.UuidOk (Uuid.uuid4 0).
Proof.
  refine (proj1 (@cart_id_is_uuid4 sample_interpreter (fun _ => None) 0%N
                   (VStr (py "ABC12345XY-A")) widget_catalog []
                   (mkShoppingCart (Uuid.uuid4 0) (py "ABC12345XY-A")
                      widget_catalog 0)
                   [[]] _ _)).
  - reflexivity.
  - reflexivity.
Defined.

(** The cart of the scenarios: its guard is that of the class, until the
    guard is rebound. *)
Lemma setattr_guard_witness :
  __setattr__ no_contains [[]]
    (PyDict.set (__dict__ widget_cart) (py "_IMMUTABLE_FIELDS") (AttrNames []))
    (py "_cart_id") (AttrValue (VUuid 8))
  = Ok (Stored
          (PyDict.set
             (PyDict.set (__dict__ widget_cart) (py "_IMMUTABLE_FIELDS")
                (AttrNames []))
             (py "_cart_id") (AttrValue (VUuid 8)))).
Proof.
  refine (proj1 (proj2 (proj2 (proj2
            (@setattr_guard no_contains [[]] (__dict__ widget_cart)
               (AttrValue (VUuid 8)) _)))) (py "_cart_id") _).
  - reflexivity.
  - left. reflexivity.
Defined.

End Instances.
